(** * The scheduling and webhook-chaining engine of the cron service

    A shallow embedding of [internal/scheduler/scheduler.go] and of the parts
    of [internal/config/config.go] it calls, followed by the properties of
    the engine.

    Conventions of the embedding:
    - a Go [string] is a [string] (a sequence of bytes);
    - a Go [map[string]T] is a [gmap string T]; a [nil] map and an empty map
      are both [∅] (the engine only reads and ranges over maps that may be
      nil, and both behave alike there);
    - a [time.Time] is an instant in nanoseconds, a [Z];
    - the standard library and the two third-party packages the engine calls
      (net/http, encoding/json, fmt, gojq, robfig/cron, the clock, the file
      system and the order in which [range] visits a map) are the fields of
      the class [Runtime];
    - calls to [s.logger.Printf] only write to the log and are left out. *)

From Stdlib Require Import ZArith Ascii String List Lia.
From stdpp Require Import base option list gmap strings fin_maps.

Local Open Scope string_scope.
Local Open Scope list_scope.
Local Open Scope Z_scope.
Set Warnings "-register-all".

(** ** Package [strings] *)

(** [strings.HasPrefix(s, prefix)]. *)
Fixpoint HasPrefix (s pre : string) {struct pre} : bool :=
  match pre with
  | EmptyString => true
  | String a pre' =>
      match s with
      | EmptyString => false
      | String b s' => Ascii.eqb a b && HasPrefix s' pre'
      end
  end.

(** [strings.Contains(s, substr)]: [substr] starts at some offset of [s]. *)
Fixpoint Contains (s substr : string) : bool :=
  HasPrefix s substr ||
  match s with
  | EmptyString => false
  | String _ s' => Contains s' substr
  end.

(** The scan of [strings.ReplaceAll] for a non-empty [old]: matches are
    taken leftmost first and do not overlap. [skip] counts the bytes of the
    current match that are still to be stepped over. *)
Fixpoint replace_from (skip : nat) (s old new : string) : string :=
  match s with
  | EmptyString => EmptyString
  | String c s' =>
      match skip with
      | S k => replace_from k s' old new
      | O =>
          if HasPrefix s old
          then new +:+ replace_from (String.length old - 1) s' old new
          else String c (replace_from 0 s' old new)
      end
  end.

(** With an empty [old], Go inserts [new] before every rune and at the end;
    the engine never does that (its patterns have at least one byte), and
    here the insertion is done per byte. *)
Fixpoint intersperse_new (s new : string) : string :=
  match s with
  | EmptyString => new
  | String c s' => new +:+ String c (intersperse_new s' new)
  end.

(** [strings.ReplaceAll(s, old, new)]. *)
Definition ReplaceAll (s old new : string) : string :=
  match old with
  | EmptyString => intersperse_new s new
  | String _ _ => replace_from 0 s old new
  end.

(** [fmt.Sprintf("{{%s}}", varName)]. *)
Definition placeholder_of (varName : string) : string :=
  "{{" +:+ varName +:+ "}}".

(** Bytes that cannot be written inside a string literal. *)
Definition LF : string := String "010"%char EmptyString.
Definition CR : string := String "013"%char EmptyString.
Definition TAB : string := String "009"%char EmptyString.
Definition DQ : string := String "034"%char EmptyString.
Definition BSL : string := String "092"%char EmptyString.

(** ** Values of type [interface{}] *)

(** The values that encoding/json and gojq hand to the engine. A number is
    an integer or one of the IEEE values that [json.Marshal] refuses;
    fractional numbers play no part in the engine and are left out. *)
Inductive number :=
| NInt (z : Z)
| NNaN
| NInf (negative : bool).

Inductive value :=
| VNil
| VBool (b : bool)
| VNumber (n : number)
| VString (s : string)
| VArray (elems : list value)
| VObject (fields : list (string * value)).

(** What [iter.Next()] of a gojq iterator yields: a value, or an [error]
    (the test [v.(error)] in the source). *)
Inductive jq_result :=
| JQValue (v : value)
| JQError (msg : string).

(** The [error] values the engine and the repository build. *)
Inductive error :=
| ErrCreateRequest
| ErrExecuteWebhook
| ErrReadBody
| ErrStatus (StatusCode : Z) (responseBody : string)
| ErrParseJSON
| ErrAddCronJob
| ErrJobNotFound (id : string)
| ErrReminderNotFound (reminderID jobID : string)
| ErrSave.

(** ** Package [config] *)

Module Webhook.
Record t := mk {
  URL : string;
  Method : string;
  Headers : gmap string string;
  Body : string;
  JQSelectors : gmap string string;
  BodyTemplate : string;
  OnlyIfVarsNonEmpty : bool;
  Timeout : Z;
  Enabled : bool
}.
(** [w.Body = b] on a copy of [w]. *)
Definition with_Body (w : t) (b : string) : t :=
  mk (URL w) (Method w) (Headers w) b (JQSelectors w) (BodyTemplate w)
     (OnlyIfVarsNonEmpty w) (Timeout w) (Enabled w).
End Webhook.

Module Rem.
Record t := mk {
  ID : string;
  Text : string;
  Datetime : Z
}.
End Rem.

Module Job.
Record t := mk {
  ID : string;
  Name : string;
  Schedule : string;
  Enabled : bool;
  Primary : Webhook.t;
  Secondary : option Webhook.t;
  SaveOutput : bool;
  Description : string;
  Reminders : list Rem.t
}.
(** [job.Reminders = rs] on a copy of [job]. *)
Definition with_Reminders (job : t) (rs : list Rem.t) : t :=
  mk (ID job) (Name job) (Schedule job) (Enabled job) (Primary job)
     (Secondary job) (SaveOutput job) (Description job) rs.
End Job.

(** The inner loop of [Config.DeleteReminder]: the reminders kept, and
    whether one was dropped. *)
Definition drop_reminder (reminderID : string) (acc : list Rem.t * bool)
    (reminder : Rem.t) : list Rem.t * bool :=
  if (Rem.ID reminder =? reminderID)%string
  then (acc.1, true)
  else (acc.1 ++ [reminder], acc.2).

(** [Config.DeleteReminder(jobID, reminderID)] on [c.Jobs]: the new
    [c.Jobs] and the error returned. *)
Fixpoint DeleteReminder (Jobs : list Job.t) (jobID reminderID : string)
    : list Job.t * option error :=
  match Jobs with
  | [] => ([], Some (ErrJobNotFound jobID))
  | job :: rest =>
      if (Job.ID job =? jobID)%string then
        let '(updatedReminders, reminderFound) :=
          foldl (drop_reminder reminderID) ([], false) (Job.Reminders job) in
        if negb reminderFound
        then (job :: rest, Some (ErrReminderNotFound reminderID jobID))
        else (Job.with_Reminders job updatedReminders :: rest, None)
      else
        let '(rest', err) := DeleteReminder rest jobID reminderID in
        (job :: rest', err)
  end.

(** [Config.GetJob(id)]. *)
Fixpoint GetJob (Jobs : list Job.t) (id : string) : option Job.t :=
  match Jobs with
  | [] => None
  | job :: rest => if (Job.ID job =? id)%string then Some job else GetJob rest id
  end.

(** ** The environment of the engine *)

(** What one HTTP exchange of [executeWebhook] comes to: the request could
    not be built, the client failed (connection, timeout), the body could
    not be read, or a response with a status code and a body arrived. *)
Inductive http_outcome :=
| RequestFailed
| TransportFailed
| ReadFailed
| Response (StatusCode : Z) (responseBody : string).

Class Runtime := {
  World : Type;
  (** [http.NewRequestWithContext], the headers, [httpClient.Do] and
      [io.ReadAll] for one webhook (scheduler.go 583-648). *)
  http_exchange : Webhook.t → World → http_outcome * World;
  (** [time.Now()]. *)
  time_Now : World → Z * World;
  (** [yaml.Marshal] and [os.WriteFile] of [Config.Save]; [true] when the
      file was written. *)
  write_config : list Job.t → World → bool * World;
  (** The order in which one [range] loop visits a map: every entry once,
      in an order the Go runtime picks anew for each loop. *)
  map_range : ∀ {A : Type}, gmap string A → World → list (string * A) * World;
  map_range_perm : ∀ (A : Type) (m : gmap string A) (w : World),
      (map_range m w).1 ≡ₚ map_to_list m;
  (** Whether robfig/cron accepts a schedule expression. *)
  cron_valid : string → bool;
  (** [json.Unmarshal] into an [interface{}]; [None] on a syntax error. *)
  json_Unmarshal : string → option value;
  (** [json.Marshal]; [None] when it returns an error. *)
  json_Marshal : value → option string;
  (** [fmt.Sprintf("%v", v)]. *)
  fmt_Sprint : value → string;
  (** [gojq.Parse] ([None] on a parse error) and [query.Run(data)], the
      results its iterator yields, in order. *)
  Query : Type;
  gojq_Parse : string → option Query;
  gojq_Run : Query → value → list jq_result
}.

(** A one-shot timer made by [time.AfterFunc(duration, action)], whose
    [action] runs [executeReminder(job, reminder)]. *)
Record Timer := mkTimer {
  timer_duration : Z;
  timer_job : Job.t;
  timer_reminder : Rem.t
}.

(** The calls a run of the engine makes, in order: the observable trace. *)
Inductive event :=
| EvWebhook (webhook : Webhook.t)
| EvExtract (jsonData : string) (selectors : gmap string string)
| EvTemplate (templateStr : string) (variables : gmap string value)
| EvSave (Jobs : list Job.t) (written : bool).

(** [time.Duration] is an [int64]: [Time.Sub] saturates at its bounds. *)
Definition maxDuration : Z := 2 ^ 63 - 1.
Definition minDuration : Z := - 2 ^ 63.
Definition Sub (t u : Z) : Z := Z.max minDuration (Z.min maxDuration (t - u)).

(** [s != ""]. *)
Definition nonempty (s : string) : bool := negb (s =? "")%string.

(** ** Package [scheduler] *)

Section Engine.
Context `{RT : Runtime}.

(** The [Scheduler] struct ([jobs], [outputs], [reminders]), the
    [cron.Cron] it owns (its entries, each running [executeJob] on the
    job it was added with, and its id counter), the [Jobs] of the
    [config.Config] it points to, the timers of the Go runtime that are
    pending, the world outside, and the trace so far. *)
Record State := mkState {
  cron_entries : gmap Z Job.t;
  cron_nextID : Z;
  jobs : gmap string Z;
  config_Jobs : list Job.t;
  outputs : gmap string string;
  reminders : gmap string positive;
  timers : gmap positive Timer;
  timer_next : positive;
  world : World;
  trace : list event
}.

Definition with_cron (e : gmap Z Job.t) (n : Z) (st : State) : State :=
  mkState e n (jobs st) (config_Jobs st) (outputs st) (reminders st)
          (timers st) (timer_next st) (world st) (trace st).
Definition with_jobs (j : gmap string Z) (st : State) : State :=
  mkState (cron_entries st) (cron_nextID st) j (config_Jobs st) (outputs st)
          (reminders st) (timers st) (timer_next st) (world st) (trace st).
Definition with_config (c : list Job.t) (st : State) : State :=
  mkState (cron_entries st) (cron_nextID st) (jobs st) c (outputs st)
          (reminders st) (timers st) (timer_next st) (world st) (trace st).
Definition with_outputs (o : gmap string string) (st : State) : State :=
  mkState (cron_entries st) (cron_nextID st) (jobs st) (config_Jobs st) o
          (reminders st) (timers st) (timer_next st) (world st) (trace st).
Definition with_reminders (r : gmap string positive) (st : State) : State :=
  mkState (cron_entries st) (cron_nextID st) (jobs st) (config_Jobs st)
          (outputs st) r (timers st) (timer_next st) (world st) (trace st).
Definition with_timers (t : gmap positive Timer) (n : positive) (st : State)
    : State :=
  mkState (cron_entries st) (cron_nextID st) (jobs st) (config_Jobs st)
          (outputs st) (reminders st) t n (world st) (trace st).
Definition with_world (w : World) (st : State) : State :=
  mkState (cron_entries st) (cron_nextID st) (jobs st) (config_Jobs st)
          (outputs st) (reminders st) (timers st) (timer_next st) w (trace st).
Definition with_trace (t : list event) (st : State) : State :=
  mkState (cron_entries st) (cron_nextID st) (jobs st) (config_Jobs st)
          (outputs st) (reminders st) (timers st) (timer_next st) (world st) t.

(** [New(cfg)]. *)
Definition New (cfg : list Job.t) (w : World) : State :=
  mkState ∅ 0 ∅ cfg ∅ ∅ ∅ 1%positive w [].

(** *** The state monad of the engine *)

Definition M (A : Type) : Type := State → A * State.

#[global] Instance M_ret : MRet M := λ A a st, (a, st).
#[global] Instance M_bind : MBind M :=
  λ A B f m st, let '(a, st') := m st in f a st'.

Definition get {A} (f : State → A) : M A := λ st, (f st, st).
Definition modify (f : State → State) : M unit := λ st, (tt, f st).
Definition emit (e : event) : M unit :=
  modify (λ st, with_trace (trace st ++ [e]) st).
Definition ask {A} (f : World → A * World) : M A :=
  λ st, let '(a, w) := f (world st) in (a, with_world w st).

(** A [for _, x := range xs] loop over a slice. *)
Fixpoint for_each {A} (xs : list A) (body : A → M unit) : M unit :=
  match xs with
  | [] => mret tt
  | x :: xs' => body x ;; for_each xs' body
  end.

(** *** The libraries that keep state *)

(** [s.cron.AddFunc(spec, action)] with [action] running
    [executeJob(job)]: the ids are 1, 2, ... *)
Definition cron_AddFunc (spec : string) (job : Job.t) : M (Z * option error) :=
  if cron_valid spec then
    st ← get id;
    let entryID := cron_nextID st + 1 in
    modify (with_cron (<[entryID := job]> (cron_entries st)) entryID) ;;
    mret (entryID, None)
  else mret (0, Some ErrAddCronJob).

(** [s.cron.Remove(entryID)]. *)
Definition cron_Remove (entryID : Z) : M unit :=
  modify (λ st, with_cron (delete entryID (cron_entries st)) (cron_nextID st) st).

(** [time.AfterFunc(duration, action)]: a new pending timer. *)
Definition AfterFunc (duration : Z) (job : Job.t) (reminder : Rem.t)
    : M positive :=
  st ← get id;
  let timer := timer_next st in
  modify (with_timers (<[timer := mkTimer duration job reminder]> (timers st))
                      (Pos.succ timer)) ;;
  mret timer.

(** [timer.Stop()]: the timer is no longer pending. *)
Definition Stop (timer : positive) : M unit :=
  modify (λ st, with_timers (delete timer (timers st)) (timer_next st) st).

(** [s.config.DeleteReminder(jobID, reminderID)]. *)
Definition config_DeleteReminder (jobID reminderID : string) : M (option error) :=
  st ← get id;
  let '(Jobs, err) := DeleteReminder (config_Jobs st) jobID reminderID in
  modify (with_config Jobs) ;;
  mret err.

(** [s.config.Save()]. *)
Definition config_Save : M (option error) :=
  st ← get id;
  written ← ask (write_config (config_Jobs st));
  emit (EvSave (config_Jobs st) written) ;;
  mret (if written : bool then None else Some ErrSave).

(** *** [executeWebhook] *)

(** Lines 650-656: a response with status 400 or more is an error that
    carries the status code and the body; each failure returns the empty
    string with its error. *)
Definition classify (o : http_outcome) : string * option error :=
  match o with
  | RequestFailed => ("", Some ErrCreateRequest)
  | TransportFailed => ("", Some ErrExecuteWebhook)
  | ReadFailed => ("", Some ErrReadBody)
  | Response StatusCode responseBody =>
      if 400 <=? StatusCode
      then ("", Some (ErrStatus StatusCode responseBody))
      else (responseBody, None)
  end.

Definition executeWebhook (webhook : Webhook.t) : M (string * option error) :=
  emit (EvWebhook webhook) ;;
  o ← ask (http_exchange webhook);
  mret (classify o).

(** *** [extractVariables] *)

(** The inner [for] loop over [iter.Next()]: an error is logged and the
    loop goes on to the next result; the first value ends it. *)
Fixpoint first_value (results : list jq_result) : option value :=
  match results with
  | [] => None
  | JQError _ :: rest => first_value rest
  | JQValue v :: _ => Some v
  end.

(** One round of the loop over the selectors. *)
Definition extract_step (data : value) (variables : gmap string value)
    (kv : string * string) : gmap string value :=
  let '(varName, selector) := kv in
  match gojq_Parse selector with
  | None => variables
  | Some query =>
      match first_value (gojq_Run query data) with
      | Some v => <[varName := v]> variables
      | None => variables
      end
  end.

(** [extractVariables] when its [range] visits the selectors in [order]. *)
Definition extractVariables_in (order : list (string * string))
    (jsonData : string) (selectors : gmap string string)
    : gmap string value * option error :=
  if bool_decide (size selectors = 0%nat) then (∅, None)
  else
    match json_Unmarshal jsonData with
    | None => (∅, Some ErrParseJSON)
    | Some data => (foldl (extract_step data) ∅ order, None)
    end.

Definition extractVariables (jsonData : string) (selectors : gmap string string)
    : M (gmap string value * option error) :=
  emit (EvExtract jsonData selectors) ;;
  if bool_decide (size selectors = 0%nat) then mret (∅, None)
  else
    match json_Unmarshal jsonData with
    | None => mret (∅, Some ErrParseJSON)
    | Some data =>
        order ← ask (map_range selectors);
        mret (extractVariables_in order jsonData selectors)
    end.

(** *** [processTemplate] *)

(** The four [strings.ReplaceAll] calls applied to a string value. *)
Definition escape (str : string) : string :=
  let escapedStr := ReplaceAll str LF (BSL +:+ "n") in
  let escapedStr := ReplaceAll escapedStr CR (BSL +:+ "r") in
  let escapedStr := ReplaceAll escapedStr TAB (BSL +:+ "t") in
  ReplaceAll escapedStr DQ (BSL +:+ DQ).

(** The replacement of one placeholder; the source has this block twice,
    at lines 517-536 for [REMINDER] and at lines 557-576 for the others. *)
Definition substitute (result placeholder : string) (v : value) : string :=
  match v with
  | VString str => ReplaceAll result placeholder (escape str)
  | _ =>
      match json_Marshal v with
      | None => ReplaceAll result placeholder (fmt_Sprint v)
      | Some valueBytes => ReplaceAll result placeholder valueBytes
      end
  end.

(** One round of the loop over the variables. *)
Definition template_step (result : string) (kv : string * value) : string :=
  let '(varName, v) := kv in
  if (varName =? "REMINDER")%string then result
  else
    let placeholder := placeholder_of varName in
    if negb (Contains result placeholder) then result
    else substitute result placeholder v.

(** The handling of [{{REMINDER}}] before the loop. *)
Definition reminder_step (result : string) (variables : gmap string value)
    : string :=
  let reminderPlaceholder := "{{REMINDER}}" in
  if Contains result reminderPlaceholder then
    match variables !! "REMINDER" with
    | Some reminderText => substitute result reminderPlaceholder reminderText
    | None => ReplaceAll result reminderPlaceholder ""
    end
  else result.

(** [processTemplate] when its [range] visits the variables in [order]. *)
Definition processTemplate_in (order : list (string * value))
    (templateStr : string) (variables : gmap string value)
    : string * option error :=
  if (templateStr =? "")%string then (templateStr, None)
  else (foldl template_step (reminder_step templateStr variables) order, None).

Definition processTemplate (templateStr : string)
    (variables : gmap string value) : M (string * option error) :=
  emit (EvTemplate templateStr variables) ;;
  if (templateStr =? "")%string then mret (templateStr, None)
  else
    order ← ask (map_range variables);
    mret (processTemplate_in order templateStr variables).

(** *** [executeJob] *)

(** The variables the secondary body is rendered with: extracted when
    selectors are configured, and none ([nil]) when there are no selectors
    or the extraction returned an error. *)
Definition extracted_variables (data : string) (selectors : gmap string string)
    : M (gmap string value) :=
  if bool_decide (0 < size selectors)%nat then
    '(vars, err) ← extractVariables data selectors;
    mret (match err with Some _ => ∅ | None => vars end)
  else mret ∅.

Definition executeJob (job : Job.t) : M unit :=
  '(output, err) ← executeWebhook (Job.Primary job);
  match err with
  | Some _ => mret tt
  | None =>
      (if Job.SaveOutput job && nonempty output
       then modify (λ st, with_outputs (<[Job.ID job := output]> (outputs st)) st)
       else mret tt) ;;
      match Job.Secondary job with
      | Some jobSecondary =>
          if negb (Webhook.Enabled jobSecondary) then mret tt
          else if Job.SaveOutput job then
            data ← get (λ st, default "" (outputs st !! Job.ID job));
            if nonempty data then
              variables ← extracted_variables data (Webhook.JQSelectors jobSecondary);
              let secondary := jobSecondary in
              secondary ←
                (if nonempty (Webhook.BodyTemplate secondary) then
                   '(processedBody, err) ←
                     processTemplate (Webhook.BodyTemplate secondary) variables;
                   mret (match err with
                         | Some _ => Webhook.with_Body secondary data
                         | None => Webhook.with_Body secondary processedBody
                         end)
                 else mret (Webhook.with_Body secondary data));
              executeWebhook secondary ;; mret tt
            else mret tt
          else
            executeWebhook jobSecondary ;; mret tt
      | None => mret tt
      end
  end.

(** *** [executeReminder] *)

(** [fmt.Sprintf] of the default body at lines 274 and 290. *)
Definition default_reminder_body (text : string) : string :=
  "{" +:+ DQ +:+ "reminder" +:+ DQ +:+ ": " +:+ DQ +:+ text +:+ DQ +:+
  ", " +:+ DQ +:+ "message" +:+ DQ +:+ ": " +:+ DQ +:+ text +:+ DQ +:+ "}".

(** Lines 236-259 and 268-291: the body of the secondary call of a
    reminder; [fallback] is what the body becomes when the template fails
    or when there is neither a template nor a body. *)
Definition reminder_secondary_body (secondaryWebhook : Webhook.t)
    (variables : gmap string value) (fallback : string) : M Webhook.t :=
  if nonempty (Webhook.BodyTemplate secondaryWebhook) then
    '(processedBody, err) ←
      processTemplate (Webhook.BodyTemplate secondaryWebhook) variables;
    mret (match err with
          | Some _ => Webhook.with_Body secondaryWebhook fallback
          | None => Webhook.with_Body secondaryWebhook processedBody
          end)
  else if nonempty (Webhook.Body secondaryWebhook) then
    '(processedBody, err) ←
      processTemplate (Webhook.Body secondaryWebhook) variables;
    mret (match err with
          | Some _ => secondaryWebhook
          | None => Webhook.with_Body secondaryWebhook processedBody
          end)
  else mret (Webhook.with_Body secondaryWebhook fallback).

(** Lines 306-323: the timer handle is dropped, the reminder is deleted
    from the repository and, when that worked, the repository is saved. *)
Definition reminder_cleanup (job : Job.t) (reminder : Rem.t) : M unit :=
  modify (λ st, with_reminders
                  (delete (Job.ID job +:+ "_" +:+ Rem.ID reminder) (reminders st)) st) ;;
  err ← config_DeleteReminder (Job.ID job) (Rem.ID reminder);
  match err with
  | Some _ => mret tt
  | None => config_Save ;; mret tt
  end.

Definition executeReminder (job : Job.t) (reminder : Rem.t) : M unit :=
  let reminderWebhook := Job.Primary job in
  reminderWebhook ←
    (if nonempty (Webhook.Body reminderWebhook) then
       let variables : gmap string value :=
         {[ "REMINDER" := VString (Rem.Text reminder) ]} in
       '(processedBody, err) ←
         processTemplate (Webhook.Body reminderWebhook) variables;
       mret (match err with
             | Some _ => reminderWebhook
             | None => Webhook.with_Body reminderWebhook processedBody
             end)
     else mret reminderWebhook);
  '(primaryResponse, _) ← executeWebhook reminderWebhook;
  match Job.Secondary job with
  | Some jobSecondary =>
      if Webhook.Enabled jobSecondary then
        let secondaryWebhook := jobSecondary in
        secondaryWebhook ←
          (if nonempty primaryResponse then
             variables ←
               extracted_variables primaryResponse (Webhook.JQSelectors jobSecondary);
             let variables := <["REMINDER" := VString (Rem.Text reminder)]> variables in
             let variables :=
               match variables !! "message" with
               | Some _ => variables
               | None => <["message" := VString primaryResponse]> variables
               end in
             reminder_secondary_body secondaryWebhook variables primaryResponse
           else
             let variables : gmap string value :=
               <["REMINDER" := VString (Rem.Text reminder)]>
                 {[ "message" := VString (Rem.Text reminder) ]} in
             reminder_secondary_body secondaryWebhook variables
               (default_reminder_body (Rem.Text reminder)));
        executeWebhook secondaryWebhook ;; mret tt
      else mret tt
  | None => mret tt
  end ;;
  reminder_cleanup job reminder.

(** *** Jobs and reminders *)

(** One round of the loop of [removeJobReminders]. *)
Definition remove_if_prefixed (jobID : string) (kv : string * positive) : M unit :=
  let '(reminderID, timer) := kv in
  if HasPrefix reminderID (jobID +:+ "_") then
    Stop timer ;;
    modify (λ st, with_reminders (delete reminderID (reminders st)) st)
  else mret tt.

Definition removeJobReminders (jobID : string) : M unit :=
  st ← get id;
  order ← ask (map_range (reminders st));
  for_each order (remove_if_prefixed jobID).

Definition removeReminder (jobID reminderID : string) : M unit :=
  let reminderKey := jobID +:+ "_" +:+ reminderID in
  st ← get id;
  match reminders st !! reminderKey with
  | Some timer =>
      Stop timer ;;
      modify (λ st, with_reminders (delete reminderKey (reminders st)) st)
  | None => mret tt
  end.

Definition scheduleReminder (job : Job.t) (reminder : Rem.t) : M (option error) :=
  now ← ask time_Now;
  if Rem.Datetime reminder <? now then mret None
  else
    let duration := Sub (Rem.Datetime reminder) now in
    timer ← AfterFunc duration job reminder;
    modify (λ st, with_reminders
                    (<[Job.ID job +:+ "_" +:+ Rem.ID reminder := timer]> (reminders st)) st) ;;
    mret None.

Definition AddJob (job : Job.t) : M (option error) :=
  st ← get id;
  match jobs st !! Job.ID job with
  | Some entryID =>
      cron_Remove entryID ;;
      modify (λ st, with_jobs (delete (Job.ID job) (jobs st)) st)
  | None => mret tt
  end ;;
  removeJobReminders (Job.ID job) ;;
  if negb (Job.Enabled job) then mret None
  else
    '(entryID, err) ← cron_AddFunc (Job.Schedule job) job;
    match err with
    | Some _ => mret (Some ErrAddCronJob)
    | None =>
        modify (λ st, with_jobs (<[Job.ID job := entryID]> (jobs st)) st) ;;
        for_each (Job.Reminders job)
                 (λ reminder, scheduleReminder job reminder ;; mret tt) ;;
        mret None
    end.

Definition RemoveJob (jobID : string) : M (option error) :=
  st ← get id;
  match jobs st !! jobID with
  | Some entryID =>
      cron_Remove entryID ;;
      modify (λ st, with_jobs (delete jobID (jobs st)) st) ;;
      modify (λ st, with_outputs (delete jobID (outputs st)) st)
  | None => mret tt
  end ;;
  removeJobReminders jobID ;;
  mret None.

(** [TestJob]; the goroutine it starts is run at once. *)
Definition TestJob (jobID : string) : M (option error) :=
  st ← get id;
  match GetJob (config_Jobs st) jobID with
  | None => mret (Some (ErrJobNotFound jobID))
  | Some job => executeJob job ;; mret None
  end.

Definition LoadJobs : M (option error) :=
  st ← get id;
  for_each (config_Jobs st) (λ job, AddJob job ;; mret tt) ;;
  mret None.

(** *** Firings *)


End Engine.

(** ** A runtime to run the engine on

    Test doubles for the libraries: a scripted HTTP server, a fixed clock,
    and small evaluators that cover the JSON texts and jq paths of the
    scenarios below (objects, arrays, strings, integers and literals;
    [.], [.name], [.[]] and their compositions). *)
Module Fake.
Definition is_ws (c : ascii) : bool :=
  (c =? " ")%char || (c =? "010")%char || (c =? "013")%char || (c =? "009")%char.

Fixpoint skip_ws (s : string) : string :=
  match s with
  | String c s' => if is_ws c then skip_ws s' else s
  | EmptyString => EmptyString
  end.

(** The characters of a JSON string up to its closing quote. *)
Fixpoint parse_chars (s : string) : option (string * string) :=
  match s with
  | EmptyString => None
  | String c s' =>
      if (c =? "034")%char then Some (EmptyString, s')
      else if (c =? "092")%char then
        match s' with
        | String d s'' =>
            let d' := if (d =? "n")%char then "010"%char
                      else if (d =? "r")%char then "013"%char
                      else if (d =? "t")%char then "009"%char else d in
            match parse_chars s'' with
            | Some (str, rest) => Some (String d' str, rest)
            | None => None
            end
        | EmptyString => None
        end
      else
        match parse_chars s' with
        | Some (str, rest) => Some (String c str, rest)
        | None => None
        end
  end.

Definition digit_of (c : ascii) : option Z :=
  let n := Z.of_nat (nat_of_ascii c) in
  if (48 <=? n) && (n <=? 57) then Some (n - 48) else None.

Fixpoint parse_digits (acc : Z) (s : string) : Z * string :=
  match s with
  | String c s' =>
      match digit_of c with
      | Some d => parse_digits (10 * acc + d) s'
      | None => (acc, s)
      end
  | EmptyString => (acc, s)
  end.

Fixpoint parse_value (fuel : nat) (s : string) : option (value * string) :=
  match fuel with
  | O => None
  | S fuel' =>
      match skip_ws s with
      | String c rest =>
          if (c =? "{")%char then
            match skip_ws rest with
            | String "}" rest' => Some (VObject [], rest')
            | _ =>
                match parse_members fuel' rest with
                | Some (fields, rest') => Some (VObject fields, rest')
                | None => None
                end
            end
          else if (c =? "[")%char then
            match skip_ws rest with
            | String "]" rest' => Some (VArray [], rest')
            | _ =>
                match parse_elements fuel' rest with
                | Some (elems, rest') => Some (VArray elems, rest')
                | None => None
                end
            end
          else if (c =? "034")%char then
            match parse_chars rest with
            | Some (str, rest') => Some (VString str, rest')
            | None => None
            end
          else if (c =? "-")%char then
            match rest with
            | String d _ =>
                match digit_of d with
                | Some _ => let '(n, rest') := parse_digits 0 rest in
                            Some (VNumber (NInt (- n)), rest')
                | None => None
                end
            | EmptyString => None
            end
          else if HasPrefix (String c rest) "true" then
            Some (VBool true, string_of_list_ascii (drop 4 (list_ascii_of_string (String c rest))))
          else if HasPrefix (String c rest) "false" then
            Some (VBool false, string_of_list_ascii (drop 5 (list_ascii_of_string (String c rest))))
          else if HasPrefix (String c rest) "null" then
            Some (VNil, string_of_list_ascii (drop 4 (list_ascii_of_string (String c rest))))
          else
            match digit_of c with
            | Some _ => let '(n, rest') := parse_digits 0 (String c rest) in
                        Some (VNumber (NInt n), rest')
            | None => None
            end
      | EmptyString => None
      end
  end
with parse_members (fuel : nat) (s : string)
    : option (list (string * value) * string) :=
  match fuel with
  | O => None
  | S fuel' =>
      match skip_ws s with
      | String "034" rest =>
          match parse_chars rest with
          | Some (key, rest1) =>
              match skip_ws rest1 with
              | String ":" rest2 =>
                  match parse_value fuel' rest2 with
                  | Some (v, rest3) =>
                      match skip_ws rest3 with
                      | String "," rest4 =>
                          match parse_members fuel' rest4 with
                          | Some (fields, rest5) => Some ((key, v) :: fields, rest5)
                          | None => None
                          end
                      | String "}" rest4 => Some ([(key, v)], rest4)
                      | _ => None
                      end
                  | None => None
                  end
              | _ => None
              end
          | None => None
          end
      | _ => None
      end
  end
with parse_elements (fuel : nat) (s : string) : option (list value * string) :=
  match fuel with
  | O => None
  | S fuel' =>
      match parse_value fuel' s with
      | Some (v, rest) =>
          match skip_ws rest with
          | String "," rest' =>
              match parse_elements fuel' rest' with
              | Some (elems, rest'') => Some (v :: elems, rest'')
              | None => None
              end
          | String "]" rest' => Some ([v], rest')
          | _ => None
          end
      | None => None
      end
  end.

Definition Unmarshal (s : string) : option value :=
  match parse_value (S (String.length s)) s with
  | Some (v, rest) =>
      match skip_ws rest with
      | EmptyString => Some v
      | String _ _ => None
      end
  | None => None
  end.

Fixpoint digits (fuel : nat) (n : Z) (acc : string) : string :=
  match fuel with
  | O => acc
  | S fuel' =>
      let acc' := String (ascii_of_nat (Z.to_nat (48 + n mod 10))) acc in
      if n <? 10 then acc' else digits fuel' (n / 10) acc'
  end.

Definition Z_to_string (z : Z) : string :=
  if z <? 0 then "-" +:+ digits (S (Z.to_nat (Z.log2 (- z)))) (- z) ""
  else digits (S (Z.to_nat (Z.log2 z))) z "".

Fixpoint quote_chars (s : string) : string :=
  match s with
  | EmptyString => EmptyString
  | String c s' =>
      if (c =? "034")%char then BSL +:+ DQ +:+ quote_chars s'
      else if (c =? "092")%char then BSL +:+ BSL +:+ quote_chars s'
      else if (c =? "010")%char then BSL +:+ "n" +:+ quote_chars s'
      else if (c =? "013")%char then BSL +:+ "r" +:+ quote_chars s'
      else if (c =? "009")%char then BSL +:+ "t" +:+ quote_chars s'
      else String c (quote_chars s')
  end.

Definition quoted (s : string) : string := DQ +:+ quote_chars s +:+ DQ.

(** Like [json.Marshal], numbers that are not finite are refused. *)
Fixpoint Marshal (v : value) : option string :=
  match v with
  | VNil => Some "null"
  | VBool b => Some (if b then "true" else "false")
  | VNumber (NInt z) => Some (Z_to_string z)
  | VNumber _ => None
  | VString s => Some (quoted s)
  | VArray elems =>
      let fix go (l : list value) : option string :=
        match l with
        | [] => Some ""
        | [x] => Marshal x
        | x :: l' =>
            match Marshal x, go l' with
            | Some a, Some b => Some (a +:+ "," +:+ b)
            | _, _ => None
            end
        end in
      match go elems with
      | Some body => Some ("[" +:+ body +:+ "]")
      | None => None
      end
  | VObject fields =>
      let fix go (l : list (string * value)) : option string :=
        match l with
        | [] => Some ""
        | [(k, x)] =>
            match Marshal x with
            | Some a => Some (quoted k +:+ ":" +:+ a)
            | None => None
            end
        | (k, x) :: l' =>
            match Marshal x, go l' with
            | Some a, Some b => Some (quoted k +:+ ":" +:+ a +:+ "," +:+ b)
            | _, _ => None
            end
        end in
      match go fields with
      | Some body => Some ("{" +:+ body +:+ "}")
      | None => None
      end
  end.

Definition Sprint (v : value) : string :=
  match v with
  | VString s => s
  | VNumber NNaN => "NaN"
  | VNumber (NInf false) => "+Inf"
  | VNumber (NInf true) => "-Inf"
  | _ => default "" (Marshal v)
  end.

(** jq paths. *)
Inductive step :=
| Field (name : string)
| Iterate.

Fixpoint split_dots (s cur : string) : list string :=
  match s with
  | EmptyString => [String.rev cur]
  | String c s' =>
      if (c =? ".")%char then String.rev cur :: split_dots s' EmptyString
      else split_dots s' (String c cur)
  end.

Definition is_name_char (c : ascii) : bool :=
  let n := Z.of_nat (nat_of_ascii c) in
  ((48 <=? n) && (n <=? 57)) || ((65 <=? n) && (n <=? 90)) ||
  ((97 <=? n) && (n <=? 122)) || (n =? 95).

Definition parse_step (seg : string) : option step :=
  if (seg =? "[]")%string then Some Iterate
  else if nonempty seg && forallb is_name_char (list_ascii_of_string seg)
  then Some (Field seg)
  else None.

Definition Parse (src : string) : option (list step) :=
  match src with
  | String "." EmptyString => Some []
  | String "." rest => mapM parse_step (split_dots rest EmptyString)
  | _ => None
  end.

Fixpoint field_of (name : string) (fields : list (string * value)) : value :=
  match fields with
  | [] => VNil
  | (k, v) :: rest => if (k =? name)%string then v else field_of name rest
  end.

Definition apply_step (st : step) (v : value) : list jq_result :=
  match st, v with
  | Field name, VObject fields => [JQValue (field_of name fields)]
  | Field _, VNil => [JQValue VNil]
  | Field name, _ => [JQError ("cannot index with " +:+ name)]
  | Iterate, VArray elems => JQValue <$> elems
  | Iterate, VObject fields => JQValue <$> fields.*2
  | Iterate, _ => [JQError "cannot iterate"]
  end.

Fixpoint eval (q : list step) (v : value) : list jq_result :=
  match q with
  | [] => [JQValue v]
  | st :: q' =>
      r ← apply_step st v;
      match r with
      | JQValue v' => eval q' v'
      | JQError e => [JQError e]
      end
  end.

(** A gojq iterator yields nothing after an error. *)
Fixpoint until_error (rs : list jq_result) : list jq_result :=
  match rs with
  | [] => []
  | JQValue v :: rest => JQValue v :: until_error rest
  | JQError e :: _ => [JQError e]
  end.

Definition Run (q : list step) (v : value) : list jq_result :=
  until_error (eval q v).

(** The world: a clock that stands still, the answers the HTTP server
    will give, in order, and whether the configuration file can be
    written. *)
Record world := mkWorld {
  clock : Z;
  script : list http_outcome;
  disk_ok : bool
}.

Definition exchange (_ : Webhook.t) (w : world) : http_outcome * world :=
  match script w with
  | o :: rest => (o, mkWorld (clock w) rest (disk_ok w))
  | [] => (TransportFailed, w)
  end.

#[export] Instance runtime : Runtime := {|
  World := world;
  http_exchange := exchange;
  time_Now := λ w, (clock w, w);
  write_config := λ _ w, (disk_ok w, w);
  map_range := λ A m w, (map_to_list m, w);
  map_range_perm := λ A m w, reflexivity _;
  cron_valid := λ spec, bool_decide (length (String.words spec) = 5%nat);
  json_Unmarshal := Unmarshal;
  json_Marshal := Marshal;
  fmt_Sprint := Sprint;
  Query := list step;
  gojq_Parse := Parse;
  gojq_Run := Run
|}.
End Fake.

(** [s] between double quotes. *)
Definition dq (s : string) : string := DQ +:+ s +:+ DQ.


(** ** Descriptions used in the statements *)

(** JSON escaping of the four characters, one character at a time. *)
Definition json_escaped_char (c : ascii) : string :=
  if (c =? "010")%char then BSL +:+ "n"
  else if (c =? "013")%char then BSL +:+ "r"
  else if (c =? "009")%char then BSL +:+ "t"
  else if (c =? "034")%char then BSL +:+ DQ
  else String c EmptyString.

Fixpoint json_escaped (str : string) : string :=
  match str with
  | EmptyString => EmptyString
  | String c str' => json_escaped_char c +:+ json_escaped str'
  end.

(** No opening brace occurs in the string. *)
Fixpoint no_open (s : string) : bool :=
  match s with
  | EmptyString => true
  | String c s' => negb (c =? "{")%char && no_open s'
  end.

(** Neither brace occurs in the name. *)
Fixpoint brace_free (name : string) : bool :=
  match name with
  | EmptyString => true
  | String c name' =>
      negb (c =? "{")%char && negb (c =? "}")%char && brace_free name'
  end.

(** No match of [old] that starts in [a] runs into what follows [a]. *)
Definition no_straddle (a m old : string) : Prop :=
  ∀ a1 a2 : string, a = a1 +:+ a2 → a2 ≠ "" →
           HasPrefix (a2 +:+ m) old = true → HasPrefix a2 old = true.

(** No match of [old] starts inside [s], whatever follows it. *)
Definition untouched (s old : string) : Prop :=
  ∀ s1 s2 b : string, s = s1 +:+ s2 → s2 ≠ "" → HasPrefix (s2 +:+ b) old = false.

Section Descriptions.
Context `{RT : Runtime}.

(** What one selector gives on [data]: nothing when it does not parse,
    else the first value its iterator comes to. *)
Definition select (data : value) (selector : string) : option value :=
  match gojq_Parse selector with
  | Some query => first_value (gojq_Run query data)
  | None => None
  end.

(** The variables a secondary body is rendered with. *)
Definition chained_variables (jsonData : string)
    (selectors : gmap string string) : gmap string value :=
  match json_Unmarshal jsonData with
  | Some data => omap (select data) selectors
  | None => ∅
  end.

(** The text put in place of a placeholder: a string with its newlines,
    carriage returns, tabs and double quotes escaped, any other value as
    [json.Marshal] prints it, and as [%v] prints it when that fails. *)
Definition inserted (v : value) : string :=
  match v with
  | VString str => escape str
  | _ =>
      match json_Marshal v with
      | Some valueBytes => valueBytes
      | None => fmt_Sprint v
      end
  end.

(** Rendering as a chain of replacements: [{{REMINDER}}] first, by its
    value or by the empty string, then every other variable of the
    mapping, in the order of the visit. *)
Definition render_step (result : string) (kv : string * value) : string :=
  if (kv.1 =? "REMINDER")%string then result
  else ReplaceAll result (placeholder_of kv.1) (inserted kv.2).

Definition render (order : list (string * value)) (templateStr : string)
    (variables : gmap string value) : string :=
  foldl render_step
        (ReplaceAll templateStr "{{REMINDER}}"
                    (match variables !! "REMINDER" with
                     | Some reminderText => inserted reminderText
                     | None => ""
                     end))
        order.

(** [st'] is [st] after the calls [evs]: only the world and the trace
    have changed. *)
Definition ran (st st' : State) (evs : list event) : Prop :=
  st' = with_world (world st') (with_trace (trace st ++ evs) st).

(** The cache after the step that saves the output. *)
Definition saved (job : Job.t) (output : string) (st : State)
    : gmap string string :=
  if Job.SaveOutput job && nonempty output
  then <[Job.ID job := output]> (outputs st)
  else outputs st.

(** A computation that only talks to the world: it leaves the
    scheduler and the repository as they are. *)
Definition quiet {A} (m : M A) : Prop :=
  ∀ st, ∃ evs, ran st (m st).2 evs.

End Descriptions.

(** ** The texts of the chaining scenario *)

Definition status_ok_json : string := "{" +:+ dq "status" +:+ ":" +:+ dq "ok" +:+ "}".
Definition result_template : string := "{" +:+ dq "result" +:+ ":" +:+ dq "{{s}}" +:+ "}".
Definition result_ok_json : string := "{" +:+ dq "result" +:+ ":" +:+ dq "ok" +:+ "}".

(** ** Jobs and worlds of the scenarios *)

Definition webhook (url body : string) : Webhook.t :=
  Webhook.mk url "POST" ∅ body ∅ "" false 0 true.

(** A secondary webhook that takes [s] from [.status] and renders
    [result_template]. *)
Definition chained_secondary : Webhook.t :=
  Webhook.mk "http://hooks/second" "POST" ∅ "" {[ "s" := ".status" ]}
             result_template false 0 true.

Definition chained_job : Job.t :=
  Job.mk "report" "Report" "*/5 * * * *" true (webhook "http://hooks/first" "")
         (Some chained_secondary) true "" [].

(** A secondary webhook with both a body and a template, in a job that
    does not save its output. *)
Definition plain_secondary : Webhook.t :=
  Webhook.mk "http://hooks/second" "POST" ∅ "plain" ∅ "from template" false 0 true.

Definition unsaved_job : Job.t :=
  Job.mk "ping" "Ping" "0 * * * *" true (webhook "http://hooks/first" "")
         (Some plain_secondary) false "" [].

(** A scheduler with nothing in it, at time [now], whose HTTP server will
    give the answers [answers]. *)
Definition fresh (now : Z) (answers : list http_outcome) : State (RT := Fake.runtime) :=
  New (RT := Fake.runtime) [] (Fake.mkWorld now answers true).

(** A job with one reminder, due at [due]. *)
Definition reminding_job (id : string) (reminderID : string) (due : Z) : Job.t :=
  Job.mk id "Reminding" "0 9 * * *" true (webhook "http://hooks/first" "{{REMINDER}}")
         None false "" [Rem.mk reminderID "call back" due].

(** ** The scheduler as a machine *)


(** The key under which the timer of a reminder is registered. *)
Definition key_of (t : Timer) : string :=
  Job.ID (timer_job t) +:+ "_" +:+ Rem.ID (timer_reminder t).

(** The reminders of the job have pairwise distinct ids. *)
Definition distinct_reminders (job : Job.t) : Prop :=
  NoDup (Rem.ID <$> Job.Reminders job).

Section Machine.
Context `{RT : Runtime}.





(** Every active trigger and every pending timer is registered, under
    the id of its job and under its key, and the counters are ahead of
    the ids in use. *)
Record registered (st : State) : Prop := mkRegistered {
  entries_registered :
    ∀ e job, cron_entries st !! e = Some job → jobs st !! Job.ID job = Some e;
  entries_below :
    ∀ e job, cron_entries st !! e = Some job → e ≤ cron_nextID st;
  jobs_below :
    ∀ jobID e, jobs st !! jobID = Some e → e ≤ cron_nextID st;
  timers_registered :
    ∀ t timer, timers st !! t = Some timer → reminders st !! key_of timer = Some t;
  timers_below :
    ∀ t timer, timers st !! t = Some timer → (t < timer_next st)%positive
}.

(** Only the outputs, the repository, the world and the trace differ. *)
Definition same_registry (st st' : State) : Prop :=
  cron_entries st' = cron_entries st ∧ cron_nextID st' = cron_nextID st ∧
  jobs st' = jobs st ∧ reminders st' = reminders st ∧
  timers st' = timers st ∧ timer_next st' = timer_next st.

(** The first step of [AddJob] and of [RemoveJob]: the trigger
    registered for the job id, if any, is removed. *)
Definition unregistered (jobID : string) (st : State) : State :=
  match jobs st !! jobID with
  | Some entryID =>
      with_jobs (delete jobID (jobs st))
        (with_cron (delete entryID (cron_entries st)) (cron_nextID st) st)
  | None => st
  end.

(** The step of [AddJob] that installs the trigger. *)
Definition triggered (job : Job.t) (st : State) : State :=
  with_jobs (<[Job.ID job := cron_nextID st + 1]> (jobs st))
    (with_cron (<[cron_nextID st + 1 := job]> (cron_entries st))
               (cron_nextID st + 1) st).

(** One round of the loop of [AddJob] over the reminders, on the
    state. *)
Definition scheduled (job : Job.t) (st : State) (reminder : Rem.t) : State :=
  (scheduleReminder job reminder st).2.

(** One round of [removeJobReminders], on the state. *)
Definition stop_prefixed (jobID : string) (st : State) (kv : string * positive)
    : State :=
  (remove_if_prefixed jobID kv st).2.
End Machine.

(** Two jobs whose ids share a prefix up to the separator, and a job with
    two reminders of the same id. *)
Definition job_a : Job.t := reminding_job "a" "r" 500.
Definition job_a_b : Job.t := reminding_job "a_b" "r" 600.




Definition sample_selectors : gmap string string :=
  {[ "s" := ".status"; "first" := ".items.[]"; "bad" := "status";
     "deep" := ".status.code" ]}.

(** A scheduler at time 0 whose repository holds [job], after
    [AddJob(job)]. *)
Definition loaded (job : Job.t) (answers : list http_outcome)
    : State (RT := Fake.runtime) :=
  (AddJob (RT := Fake.runtime) job
     (New (RT := Fake.runtime) [job] (Fake.mkWorld 0 answers true))).2.

(** ** The rest of package [config] *)

(** [Config.AddJob(job)] on [c.Jobs]: the job with the same id is
    replaced where it stands, or the job is appended; the error is always
    nil. *)
Fixpoint ConfigAddJob (Jobs : list Job.t) (job : Job.t) : list Job.t :=
  match Jobs with
  | [] => [job]
  | existingJob :: rest =>
      if (Job.ID existingJob =? Job.ID job)%string
      then job :: rest
      else existingJob :: ConfigAddJob rest job
  end.

(** [Config.DeleteJob(id)] on [c.Jobs]: the new [c.Jobs] and the error
    returned. *)
Fixpoint DeleteJob (Jobs : list Job.t) (id : string) : list Job.t * option error :=
  match Jobs with
  | [] => ([], Some (ErrJobNotFound id))
  | job :: rest =>
      if (Job.ID job =? id)%string then (rest, None)
      else
        let '(rest', err) := DeleteJob rest id in
        (job :: rest', err)
  end.

(** ** More descriptions *)

(** The webhook calls among the events. *)
Fixpoint webhooks_of (evs : list event) : list Webhook.t :=
  match evs with
  | [] => []
  | EvWebhook webhook :: rest => webhook :: webhooks_of rest
  | _ :: rest => webhooks_of rest
  end.

(** The savings of the repository among the events: what was written,
    and whether the file could be written. *)
Fixpoint saves_of (evs : list event) : list (list Job.t * bool) :=
  match evs with
  | [] => []
  | EvSave Jobs written :: rest => (Jobs, written) :: saves_of rest
  | _ :: rest => saves_of rest
  end.

(** The primary webhook of a reminder: the job's, with [{{REMINDER}}] in
    its body replaced by the escaped text of the reminder. *)
Definition reminder_primary (job : Job.t) (reminder : Rem.t) : Webhook.t :=
  if nonempty (Webhook.Body (Job.Primary job))
  then Webhook.with_Body (Job.Primary job)
         (ReplaceAll (Webhook.Body (Job.Primary job)) "{{REMINDER}}"
                     (json_escaped (Rem.Text reminder)))
  else Job.Primary job.

(** The variables of the secondary call of a reminder whose primary call
    gave [response]: those extracted, then [REMINDER], then [message]
    unless it was extracted. *)
Definition reminder_variables (text response : string)
    (extracted : gmap string value) : gmap string value :=
  let variables := <["REMINDER" := VString text]> extracted in
  match variables !! "message" with
  | Some _ => variables
  | None => <["message" := VString response]> variables
  end.

Section ReminderDescriptions.
Context `{RT : Runtime}.

(** The variables of the secondary call of a reminder: with a response
    of the primary, [reminder_variables] of what the selectors extract
    from it; without one, the text of the reminder under both names. *)
Definition reminder_secondary_variables (text response : string)
    (selectors : gmap string string) : gmap string value :=
  if nonempty response
  then reminder_variables text response (chained_variables response selectors)
  else <["REMINDER" := VString text]> {[ "message" := VString text ]}.

(** The body of the secondary call of a reminder: the template
    rendered, else the body rendered, else the response of the primary,
    else the default body. *)
Definition reminder_secondary_text (order : list (string * value))
    (secondary : Webhook.t) (variables : gmap string value)
    (text response : string) : string :=
  if nonempty (Webhook.BodyTemplate secondary)
  then render order (Webhook.BodyTemplate secondary) variables
  else if nonempty (Webhook.Body secondary)
  then render order (Webhook.Body secondary) variables
  else if nonempty response then response
  else default_reminder_body text.
End ReminderDescriptions.

(** None of newline, carriage return and tab occurs in the string. *)
Fixpoint control_free (s : string) : bool :=
  match s with
  | EmptyString => true
  | String c s' =>
      negb (c =? "010")%char && negb (c =? "013")%char &&
      negb (c =? "009")%char && control_free s'
  end.

(** None of the four characters that [escape] replaces occurs in the
    string. *)
Fixpoint plain (s : string) : bool :=
  match s with
  | EmptyString => true
  | String c s' =>
      negb (c =? "010")%char && negb (c =? "013")%char &&
      negb (c =? "009")%char && negb (c =? "034")%char && plain s'
  end.

(** ** Package [server]

    A handler is given what the request comes to: its method, the ids
    taken from its path, and the value decoded from its body ([None] when
    [Decode] returns an error). It returns the status code it writes. *)

Definition StatusOK : Z := 200.
Definition StatusNoContent : Z := 204.
Definition StatusBadRequest : Z := 400.
Definition StatusNotFound : Z := 404.
Definition StatusMethodNotAllowed : Z := 405.
Definition StatusInternalServerError : Z := 500.

(** The loop of the [PUT] branch of [handleReminder]: the first reminder
    with the id is replaced, and whether there was one. *)
Fixpoint replace_reminder (reminders : list Rem.t) (reminderID : string)
    (updatedReminder : Rem.t) : list Rem.t * bool :=
  match reminders with
  | [] => ([], false)
  | reminder :: rest =>
      if (Rem.ID reminder =? reminderID)%string
      then (updatedReminder :: rest, true)
      else
        let '(rest', reminderFound) :=
          replace_reminder rest reminderID updatedReminder in
        (reminder :: rest', reminderFound)
  end.

Section Server.
Context `{RT : Runtime}.

(** Whether [json.NewEncoder(w).Encode] succeeds on a job, on the list
    of jobs, on a reminder. *)
Variable encodes_job : Job.t → bool.
Variable encodes_jobs : list Job.t → bool.
Variable encodes_reminder : Rem.t → bool.

(** The state after the repository has been set to [Jobs] and saved. *)
Definition stored (Jobs : list Job.t) (st : State) : State :=
  with_trace (trace st ++ [EvSave Jobs (write_config Jobs (world st)).1])
    (with_world (write_config Jobs (world st)).2 (with_config Jobs st)).

(** [s.config.AddJob(job)]. *)
Definition config_AddJob (job : Job.t) : M (option error) :=
  modify (λ st, with_config (ConfigAddJob (config_Jobs st) job) st) ;;
  mret None.

(** [s.config.DeleteJob(jobID)]. *)
Definition config_DeleteJob (jobID : string) : M (option error) :=
  st ← get id;
  let '(Jobs, err) := DeleteJob (config_Jobs st) jobID in
  modify (with_config Jobs) ;;
  mret err.

(** The steps that [POST] and [PUT] of a job and [DELETE] and [PUT] of a
    reminder share (server.go 86-105 and 143-162): the job is stored in
    the repository, the repository is saved, the job is given to the
    scheduler, and the answer is sent; [sent] is the status of that
    answer. *)
Definition store_job (job : Job.t) (sent : Z) : M Z :=
  err ← config_AddJob job;
  match err with
  | Some _ => mret StatusInternalServerError
  | None =>
      err ← config_Save;
      match err with
      | Some _ => mret StatusInternalServerError
      | None =>
          err ← AddJob job;
          match err with
          | Some _ => mret StatusInternalServerError
          | None => mret sent
          end
      end
  end.

Definition handleJobs (Method : string) (decoded : option Job.t) : M Z :=
  if (Method =? "GET")%string then
    jobs ← get config_Jobs;
    mret (if encodes_jobs jobs then StatusOK else StatusInternalServerError)
  else if (Method =? "POST")%string then
    match decoded with
    | None => mret StatusBadRequest
    | Some job =>
        store_job job
          (if encodes_job job then StatusOK else StatusInternalServerError)
    end
  else mret StatusMethodNotAllowed.

Definition handleJob (Method jobID : string) (decoded : option Job.t) : M Z :=
  if (Method =? "GET")%string then
    found ← get (λ st, GetJob (config_Jobs st) jobID);
    match found with
    | None => mret StatusNotFound
    | Some job =>
        mret (if encodes_job job then StatusOK else StatusInternalServerError)
    end
  else if (Method =? "PUT")%string then
    match decoded with
    | None => mret StatusBadRequest
    | Some job =>
        if negb (Job.ID job =? jobID)%string then mret StatusBadRequest
        else
          store_job job
            (if encodes_job job then StatusOK else StatusInternalServerError)
    end
  else if (Method =? "DELETE")%string then
    err ← config_DeleteJob jobID;
    match err with
    | Some _ => mret StatusNotFound
    | None =>
        err ← config_Save;
        match err with
        | Some _ => mret StatusInternalServerError
        | None =>
            err ← RemoveJob jobID;
            match err with
            | Some _ => mret StatusInternalServerError
            | None => mret StatusNoContent
            end
        end
    end
  else mret StatusMethodNotAllowed.

Definition handleTestJob (Method jobID : string) : M Z :=
  if negb (Method =? "POST")%string then mret StatusMethodNotAllowed
  else
    err ← TestJob jobID;
    match err with
    | Some _ => mret StatusNotFound
    | None => mret StatusNoContent
    end.

(** [handleReminder], for a path of four parts. In the [PUT] branch the
    source writes the new reminder into the slice it got from [GetJob],
    which shares its array with the repository; [config.AddJob], which
    cannot fail, then stores the same job at the same place. *)
Definition handleReminder (Method jobID reminderID : string)
    (decoded : option Rem.t) : M Z :=
  if (Method =? "DELETE")%string then
    found ← get (λ st, GetJob (config_Jobs st) jobID);
    match found with
    | None => mret StatusNotFound
    | Some job =>
        let '(updatedReminders, reminderFound) :=
          foldl (drop_reminder reminderID) ([], false) (Job.Reminders job) in
        if negb reminderFound then mret StatusNotFound
        else store_job (Job.with_Reminders job updatedReminders) StatusNoContent
    end
  else if (Method =? "PUT")%string then
    found ← get (λ st, GetJob (config_Jobs st) jobID);
    match found with
    | None => mret StatusNotFound
    | Some job =>
        match decoded with
        | None => mret StatusBadRequest
        | Some updatedReminder =>
            if negb (Rem.ID updatedReminder =? reminderID)%string
            then mret StatusBadRequest
            else
              let '(reminders, reminderFound) :=
                replace_reminder (Job.Reminders job) reminderID updatedReminder in
              if negb reminderFound then mret StatusNotFound
              else
                store_job (Job.with_Reminders job reminders)
                  (if encodes_reminder updatedReminder
                   then StatusOK else StatusInternalServerError)
        end
    end
  else mret StatusMethodNotAllowed.
End Server.

(** ** More jobs for the scenarios *)

(** A job that is not enabled, a job whose schedule is not a cron
    expression, and a job with a reminder and a secondary webhook. *)
Definition paused_job : Job.t :=
  Job.mk "paused" "Paused" "0 9 * * *" false (webhook "http://hooks/first" "")
         None false "" [].

Definition misscheduled_job : Job.t :=
  Job.mk "report" "Report" "every day" true (webhook "http://hooks/first" "")
         None false "" [].

Definition reminding_chained_job : Job.t :=
  Job.mk "report" "Report" "*/5 * * * *" true
         (webhook "http://hooks/first" "{{REMINDER}}")
         (Some chained_secondary) true "" [Rem.mk "r1" "call back" 500].

(** Every value can be encoded. *)
Definition always {A} (_ : A) : bool := true.
(** * Properties *)

(** ** Sanity checks of the embedding *)

Example ReplaceAll_ex1 : ReplaceAll "aXXXbXX" "XX" "-" = "a-Xb-".
Proof. reflexivity. Qed.

Example Contains_ex1 : Contains "say {{x}}" (placeholder_of "x") = true.
Proof. reflexivity. Qed.

Example fake_unmarshal :
  Fake.Unmarshal ("{" +:+ dq "status" +:+ ":" +:+ dq "ok" +:+ ", " +:+ dq "n" +:+ ": [1, -2, null]}")
  = Some (VObject [("status", VString "ok");
                   ("n", VArray [VNumber (NInt 1); VNumber (NInt (-2)); VNil])]).
Proof. vm_compute. reflexivity. Qed.

Example fake_jq :
  (Fake.Parse ".n.[]" ≫= λ query,
     Some (Fake.Run query (VObject [("n", VArray [VBool true; VNil])])))
  = Some [JQValue (VBool true); JQValue VNil].
Proof. vm_compute. reflexivity. Qed.

Example fake_marshal :
  Fake.Marshal (VArray [VNumber (NInt 105); VString "a"; VObject [("k", VNil)]])
  = Some ("[105," +:+ dq "a" +:+ ",{" +:+ dq "k" +:+ ":null}]").
Proof. vm_compute. reflexivity. Qed.

(** ** Strings *)

Section Strings.
Implicit Types s t u old new pre : string.

Lemma str_app_nil_l s : "" +:+ s = s.
Proof. reflexivity. Qed.

Lemma str_app_cons a s t : String a s +:+ t = String a (s +:+ t).
Proof. reflexivity. Qed.

Lemma str_app_nil_r s : s +:+ "" = s.
Proof. induction s; rewrite ?str_app_cons; [done | by f_equal]. Qed.

Lemma str_app_assoc s t u : (s +:+ t) +:+ u = s +:+ (t +:+ u).
Proof. induction s; rewrite ?str_app_cons; [done | by f_equal]. Qed.

Lemma str_app_length s t :
  String.length (s +:+ t) = (String.length s + String.length t)%nat.
Proof. induction s; rewrite ?str_app_cons; simpl; [done | by f_equal]. Qed.

Lemma str_eqb_eq s t : (s =? t)%string = true ↔ s = t.
Proof. apply String.eqb_eq. Qed.

Lemma HasPrefix_iff s pre : HasPrefix s pre = true ↔ ∃ rest, s = pre +:+ rest.
Proof.
  revert s. induction pre as [|a pre IH]; intros s; simpl.
  - split; [intros _; exists s; reflexivity | done].
  - destruct s as [|b s].
    { split; [done | intros [rest Heq]; rewrite str_app_cons in Heq; done]. }
    rewrite andb_true_iff, Ascii.eqb_eq, IH. split.
    + intros [-> [rest ->]]. by exists rest.
    + intros [rest Heq]. rewrite str_app_cons in Heq.
      injection Heq as -> ->. eauto.
Qed.

Lemma HasPrefix_app s pre : HasPrefix (pre +:+ s) pre = true.
Proof. apply HasPrefix_iff. by exists s. Qed.

Lemma HasPrefix_length s pre :
  HasPrefix s pre = true → (String.length pre ≤ String.length s)%nat.
Proof.
  intros [rest ->]%HasPrefix_iff. rewrite str_app_length. lia.
Qed.

(** Two ways to cut the same string are nested. *)
Lemma str_app_eq_app s1 s2 t1 t2 :
  s1 +:+ s2 = t1 +:+ t2 →
  (∃ e, t1 = s1 +:+ e ∧ s2 = e +:+ t2) ∨ (∃ e, s1 = t1 +:+ e ∧ t2 = e +:+ s2).
Proof.
  revert t1. induction s1 as [|a s1 IH]; intros t1 Heq.
  - left. by exists t1.
  - destruct t1 as [|b t1].
    + right. by exists (String a s1).
    + rewrite !str_app_cons in Heq. injection Heq as -> Heq.
      destruct (IH _ Heq) as [[e [-> ->]]|[e [-> ->]]].
      * left. by exists e.
      * right. by exists e.
Qed.

Lemma Contains_false_HasPrefix s old :
  Contains s old = false → HasPrefix s old = false.
Proof. destruct s; simpl; by intros [? ?]%orb_false_iff. Qed.

Lemma replace_from_not_contains s old new :
  Contains s old = false → replace_from 0 s old new = s.
Proof.
  induction s as [|c s IH]; [done |]. intros Hc.
  pose proof (Contains_false_HasPrefix _ _ Hc) as Hp.
  cbn [replace_from]. rewrite Hp.
  simpl in Hc. apply orb_false_iff in Hc as [_ Hc]. by rewrite IH.
Qed.

(** A string without the pattern is left as it is. *)
Lemma ReplaceAll_not_contains s old new :
  Contains s old = false → ReplaceAll s old new = s.
Proof.
  destruct old as [|a old]; [by destruct s |].
  apply replace_from_not_contains.
Qed.

(** The test [strings.Contains] before a replacement changes nothing. *)
Lemma ReplaceAll_guarded s old new :
  (if Contains s old then ReplaceAll s old new else s) = ReplaceAll s old new.
Proof.
  destruct (Contains s old) eqn:E; [done |].
  by rewrite ReplaceAll_not_contains.
Qed.

Lemma replace_from_empty skip old new : replace_from skip "" old new = "".
Proof. by destruct skip. Qed.

(** *** Replacing around a piece no match touches *)

Lemma no_straddle_tail c a m old :
  no_straddle (String c a) m old → no_straddle a m old.
Proof.
  intros H a1 a2 -> Hne Hp. apply (H (String c a1) a2); done.
Qed.

Lemma HasPrefix_app_l a m old :
  HasPrefix a old = true → HasPrefix (a +:+ m) old = true.
Proof.
  intros [rest ->]%HasPrefix_iff. rewrite str_app_assoc. apply HasPrefix_app.
Qed.

Lemma replace_from_split skip a m old new :
  no_straddle a m old →
  (skip ≤ String.length a)%nat →
  replace_from skip (a +:+ m) old new
  = replace_from skip a old new +:+ replace_from 0 m old new.
Proof.
  revert skip. induction a as [|c a IH]; intros skip Hns Hskip.
  - simpl in Hskip. assert (skip = 0%nat) as -> by lia. reflexivity.
  - pose proof (no_straddle_tail _ _ _ _ Hns) as Hns'.
    rewrite str_app_cons. destruct skip as [|k].
    + cbn [replace_from]. rewrite <-str_app_cons.
      destruct (HasPrefix (String c a +:+ m) old) eqn:Hp.
      * assert (HasPrefix (String c a) old = true) as Hp'.
        { apply (Hns "" (String c a)); done. }
        rewrite Hp'. apply HasPrefix_length in Hp'. simpl in Hp'.
        rewrite IH by (done || lia). by rewrite str_app_assoc.
      * destruct (HasPrefix (String c a) old) eqn:Hp'.
        { apply (HasPrefix_app_l _ m) in Hp'. congruence. }
        rewrite IH by (done || lia). reflexivity.
    + cbn [replace_from]. simpl in Hskip. apply IH; [done | lia].
Qed.

Lemma untouched_tail c s old : untouched (String c s) old → untouched s old.
Proof. intros H s1 s2 b -> Hne. apply (H (String c s1) s2); done. Qed.

Lemma untouched_not_contains s old :
  old ≠ "" → untouched s old → Contains s old = false.
Proof.
  intros Hold. induction s as [|c s IH]; intros Hu.
  - destruct old; done.
  - cbn [Contains]. rewrite IH by eauto using untouched_tail.
    rewrite orb_false_r. rewrite <-(str_app_nil_r (String c s)).
    apply (Hu "" (String c s)); done.
Qed.

(** A replacement works on the two sides of an untouched piece. *)
Lemma ReplaceAll_around a s b old new :
  old ≠ "" →
  untouched s old →
  no_straddle a (s +:+ b) old →
  ReplaceAll (a +:+ s +:+ b) old new
  = ReplaceAll a old new +:+ s +:+ ReplaceAll b old new.
Proof.
  intros Hold Hu Hns. destruct old as [|o old]; [done |].
  unfold ReplaceAll.
  rewrite replace_from_split by (done || lia). f_equal.
  rewrite replace_from_split; [| |lia].
  - f_equal. apply replace_from_not_contains.
    by apply untouched_not_contains.
  - intros s1 s2 -> Hne Hp. by rewrite (Hu s1 s2 b) in Hp.
Qed.

(** *** Placeholders *)

Lemma placeholder_of_unfold k :
  placeholder_of k = String "{" (String "{" (k +:+ "}}")).
Proof. reflexivity. Qed.

Lemma no_open_app s t : no_open (s +:+ t) = no_open s && no_open t.
Proof.
  induction s as [|c s IH]; [done |].
  rewrite str_app_cons. cbn [no_open]. by rewrite IH, andb_assoc.
Qed.

Lemma brace_free_no_open k : brace_free k = true → no_open k = true.
Proof.
  induction k as [|c k IH]; [done |]. cbn [brace_free no_open].
  intros [[-> _]%andb_true_iff ?]%andb_true_iff. eauto.
Qed.

Lemma brace_free_close k : brace_free k = true → no_open (k +:+ "}}") = true.
Proof.
  intros H. by rewrite no_open_app, (brace_free_no_open _ H).
Qed.

(** A string without an opening brace has no suffix that starts with
    one. *)
Lemma no_open_suffix s s1 c s2 :
  no_open s = true → s = s1 +:+ String c s2 → c ≠ "{"%char.
Proof.
  intros H ->. rewrite no_open_app in H.
  apply andb_true_iff in H as [_ H]. cbn [no_open] in H.
  apply andb_true_iff in H as [H _]. intros ->. done.
Qed.

(** The name of a placeholder ends at its first closing brace. *)
Lemma brace_free_name_inj k x u v :
  brace_free k = true → brace_free x = true →
  k +:+ String "}" u = x +:+ String "}" v → k = x.
Proof.
  revert x. induction k as [|c k IH]; intros [|d x] Hk Hx Heq;
    rewrite ?str_app_cons, ?str_app_nil_l in Heq.
  - done.
  - injection Heq as <- _. cbn [brace_free] in Hx. done.
  - injection Heq as -> _. cbn [brace_free] in Hk. done.
  - injection Heq as -> Heq. cbn [brace_free] in Hk, Hx.
    apply andb_true_iff in Hk as [_ Hk]. apply andb_true_iff in Hx as [_ Hx].
    f_equal. eauto.
Qed.

Lemma brace_free_head k rest :
  brace_free k = true → ∀ t, k +:+ "}}" +:+ rest ≠ String "{" t.
Proof.
  intros Hk t Heq. destruct k as [|c k];
    rewrite ?str_app_cons, ?str_app_nil_l in Heq; [done |].
  injection Heq as -> _. cbn [brace_free] in Hk. done.
Qed.

(** No placeholder of another name starts inside a placeholder. *)
Lemma placeholder_untouched k x :
  brace_free k = true → brace_free x = true → k ≠ x →
  untouched (placeholder_of x) (placeholder_of k).
Proof.
  intros Hk Hx Hne s1 s2 b Hcut Hs2.
  destruct (HasPrefix (s2 +:+ b) (placeholder_of k)) eqn:Hp; [|done].
  exfalso. apply HasPrefix_iff in Hp as [rest Hp].
  rewrite !placeholder_of_unfold in *. rewrite !str_app_cons in Hp.
  destruct s1 as [|c1 s1]; rewrite ?str_app_cons, ?str_app_nil_l in Hcut.
  { subst s2. rewrite !str_app_cons, !str_app_assoc in Hp.
    injection Hp as Hp. rewrite !str_app_cons, !str_app_nil_l in Hp.
    apply Hne. symmetry in Hp.
    by apply (brace_free_name_inj _ _ _ _ Hk Hx) in Hp. }
  injection Hcut as <- Hcut.
  destruct s1 as [|c2 s1]; rewrite ?str_app_cons, ?str_app_nil_l in Hcut.
  { subst s2. rewrite !str_app_cons, !str_app_assoc in Hp.
    injection Hp as Hp. by apply brace_free_head in Hp. }
  injection Hcut as <- Hcut.
  destruct s2 as [|c s2]; [done |]. rewrite str_app_cons in Hp.
  injection Hp as -> _.
  by apply (no_open_suffix _ _ _ _ (brace_free_close _ Hx) Hcut).
Qed.

(** No placeholder of another name starts before a placeholder and runs
    into it. *)
Lemma placeholder_no_straddle a k x b :
  brace_free k = true → brace_free x = true →
  no_straddle a (placeholder_of x +:+ b) (placeholder_of k).
Proof.
  intros Hk Hx a1 a2 _ Ha2 Hp.
  apply HasPrefix_iff in Hp as [rest Hp].
  apply str_app_eq_app in Hp as [[e [Hold Hrest]]|[e [-> _]]];
    [|apply HasPrefix_app].
  destruct e as [|c e].
  { rewrite str_app_nil_r in Hold. subst a2.
    rewrite <-(str_app_nil_r (placeholder_of k)) at 1. apply HasPrefix_app. }
  exfalso. rewrite !placeholder_of_unfold in *.
  rewrite !str_app_cons in Hrest. injection Hrest as <- Hrest.
  destruct a2 as [|c1 a2]; [done |]. rewrite str_app_cons in Hold.
  injection Hold as <- Hold.
  destruct a2 as [|c2 a2]; rewrite ?str_app_cons, ?str_app_nil_l in Hold.
  { injection Hold as Hold. subst e. symmetry in Hrest.
    rewrite str_app_assoc in Hrest. by apply brace_free_head in Hrest. }
  injection Hold as <- Hold.
  by apply (no_open_suffix _ _ _ _ (brace_free_close _ Hk) Hold).
Qed.

Lemma placeholder_nonempty k : placeholder_of k ≠ "".
Proof. by rewrite placeholder_of_unfold. Qed.

(** Replacing the placeholder of [k] leaves the placeholder of another
    name [x] where it is. *)
Lemma ReplaceAll_keeps_placeholder a b k x new :
  brace_free k = true → brace_free x = true → k ≠ x →
  ReplaceAll (a +:+ placeholder_of x +:+ b) (placeholder_of k) new
  = ReplaceAll a (placeholder_of k) new +:+ placeholder_of x
    +:+ ReplaceAll b (placeholder_of k) new.
Proof.
  intros Hk Hx Hne. apply ReplaceAll_around.
  - apply placeholder_nonempty.
  - by apply placeholder_untouched.
  - by apply placeholder_no_straddle.
Qed.
End Strings.

(** ** Running the monad *)

Section Monad.
Context `{RT : Runtime}.

Lemma bind_run {A B} (m : M A) (f : A → M B) (st : State) :
  (m ≫= f) st = f (m st).1 (m st).2.
Proof. unfold mbind, M_bind. by destruct (m st). Qed.

Lemma ret_run {A} (a : A) (st : State) : (mret a : M A) st = (a, st).
Proof. reflexivity. Qed.

Lemma ask_run {A} (f : World → A * World) (st : State) :
  ask f st = ((f (world st)).1, with_world (f (world st)).2 st).
Proof. unfold ask. by destruct (f (world st)). Qed.

Lemma emit_run (e : event) (st : State) :
  emit e st = (tt, with_trace (trace st ++ [e]) st).
Proof. reflexivity. Qed.

Lemma modify_run (f : State → State) (st : State) : modify f st = (tt, f st).
Proof. reflexivity. Qed.

Lemma get_run {A} (f : State → A) (st : State) : get f st = (f st, st).
Proof. reflexivity. Qed.
End Monad.

Ltac run :=
  repeat (rewrite ?bind_run, ?ret_run, ?ask_run, ?emit_run, ?modify_run, ?get_run;
          cbn [fst snd id]).

(** ** The job execution algorithm *)

Section ExecuteJob.
Context `{RT : Runtime}.

(** What [executeWebhook] leaves behind: one more event and the world
    after the exchange. *)
Lemma executeWebhook_run (webhook : Webhook.t) (st : State) :
  executeWebhook webhook st =
    (classify (http_exchange webhook (world st)).1,
     with_world (http_exchange webhook (world st)).2
                (with_trace (trace st ++ [EvWebhook webhook]) st)).
Proof.
  unfold executeWebhook. run. by destruct st.
Qed.

Lemma classify_error_empty (o : http_outcome) (e : error) :
  (classify o).2 = Some e → (classify o).1 = "".
Proof.
  destruct o; simpl; try done.
  destruct (400 <=? StatusCode); simpl; done.
Qed.

Lemma ran_nil (st : State) : ran st st [].
Proof. unfold ran. rewrite app_nil_r. by destruct st. Qed.

Lemma ran_trans (st1 st2 st3 : State) (evs1 evs2 : list event) :
  ran st1 st2 evs1 → ran st2 st3 evs2 → ran st1 st3 (evs1 ++ evs2).
Proof.
  unfold ran, with_world, with_trace. intros H1 H2.
  destruct st1, st2, st3; simpl in *.
  inversion H1; subst. inversion H2; subst. by rewrite app_assoc.
Qed.

Lemma ran_outputs (st st' : State) (evs : list event) :
  ran st st' evs → outputs st' = outputs st.
Proof. intros ->. reflexivity. Qed.

Lemma ran_trace (st st' : State) (evs : list event) :
  ran st st' evs → trace st' = trace st ++ evs.
Proof. intros ->. reflexivity. Qed.

Lemma executeWebhook_ran (webhook : Webhook.t) (st : State) :
  ran st (executeWebhook webhook st).2 [EvWebhook webhook].
Proof. rewrite executeWebhook_run. reflexivity. Qed.

(** C1. When the primary webhook fails, the firing ends there: a
    response with status 400 or more is such a failure and carries the
    status code and the body; after a failure the output cache is as it
    was and the primary call is the only webhook call of the firing. *)
Theorem executeJob_primary_failure_stops (job : Job.t) (st : State) :
  (∀ StatusCode responseBody w,
      http_exchange (Job.Primary job) (world st) = (Response StatusCode responseBody, w) →
      400 ≤ StatusCode →
      (executeWebhook (Job.Primary job) st).1
      = ("", Some (ErrStatus StatusCode responseBody))) ∧
  (∀ e, (executeWebhook (Job.Primary job) st).1.2 = Some e →
        executeJob job st = (tt, (executeWebhook (Job.Primary job) st).2) ∧
        outputs (executeJob job st).2 = outputs st ∧
        trace (executeJob job st).2 = trace st ++ [EvWebhook (Job.Primary job)]).
Proof.
  split.
  - intros code body w Hx Hcode. rewrite executeWebhook_run, Hx. simpl.
    destruct (400 <=? code) eqn:E; [done | lia].
  - intros e He.
    assert (executeJob job st = (tt, (executeWebhook (Job.Primary job) st).2)) as Hrun.
    { unfold executeJob, mbind, M_bind at 1.
      destruct (executeWebhook (Job.Primary job) st) as [[output err] st1].
      simpl in He. subst err. reflexivity. }
    split; [exact Hrun |]. rewrite Hrun. simpl.
    rewrite executeWebhook_run. simpl. done.
Qed.
End ExecuteJob.

(** ** Variable extraction *)

Section Extraction.
Context `{RT : Runtime}.

Lemma extract_step_select (data : value) (variables : gmap string value)
    (varName selector : string) :
  extract_step data variables (varName, selector) =
    match select data selector with
    | Some v => <[varName := v]> variables
    | None => variables
    end.
Proof. unfold extract_step, select. by destruct (gojq_Parse selector). Qed.

(** The loop over the selectors, one name at a time. *)
Lemma foldl_extract_lookup (data : value) (order : list (string * string))
    (acc : gmap string value) (name : string) :
  NoDup order.*1 →
  foldl (extract_step data) acc order !! name =
    match (list_to_map order : gmap string string) !! name ≫= select data with
    | Some v => Some v
    | None => acc !! name
    end.
Proof.
  revert acc. induction order as [|[k sel] order IH]; intros acc Hnd.
  - simpl. by rewrite lookup_empty.
  - apply NoDup_cons in Hnd as [Hk Hnd]. cbn [foldl].
    rewrite IH by done. cbn [list_to_map foldr uncurry].
    destruct (decide (k = name)) as [->|Hne].
    + rewrite lookup_insert_eq.
      rewrite (not_elem_of_list_to_map_1 (M := gmap string)) by done.
      rewrite extract_step_select. simpl.
      destruct (select data sel); [by rewrite lookup_insert_eq | done].
    + rewrite lookup_insert_ne by done.
      destruct (_ ≫= select data); [done |].
      rewrite extract_step_select.
      destruct (select data sel); [by rewrite lookup_insert_ne | done].
Qed.

(** The result of the loop does not depend on the order of the visit. *)
Lemma foldl_extract_omap (data : value) (order : list (string * string))
    (selectors : gmap string string) :
  order ≡ₚ map_to_list selectors →
  foldl (extract_step data) ∅ order = omap (select data) selectors.
Proof.
  intros Hperm. apply map_eq. intros name.
  assert (NoDup order.*1) as Hnd.
  { rewrite Hperm. apply NoDup_fst_map_to_list. }
  rewrite foldl_extract_lookup by done.
  rewrite lookup_empty, lookup_omap.
  assert ((list_to_map order : gmap string string) = selectors) as ->.
  { rewrite (list_to_map_proper (M := gmap string) _ _ Hnd Hperm).
    apply list_to_map_to_list. }
  by destruct (_ ≫= _).
Qed.

Lemma extractVariables_in_spec (order : list (string * string))
    (jsonData : string) (selectors : gmap string string) :
  order ≡ₚ map_to_list selectors →
  extractVariables_in order jsonData selectors =
    (chained_variables jsonData selectors,
     if bool_decide (size selectors = 0%nat) then None
     else match json_Unmarshal jsonData with
          | Some _ => None
          | None => Some ErrParseJSON
          end).
Proof.
  intros Hperm. unfold extractVariables_in, chained_variables.
  case_bool_decide as Hsz.
  - apply map_size_empty_iff in Hsz as ->.
    destruct (json_Unmarshal jsonData); [by rewrite omap_empty | done].
  - destruct (json_Unmarshal jsonData); [|done].
    by rewrite (foldl_extract_omap _ _ selectors).
Qed.

(** The call as a whole: the result is the same whatever order the
    runtime picks. *)
Lemma extractVariables_run (jsonData : string)
    (selectors : gmap string string) (st : State) :
  (extractVariables jsonData selectors st).1 =
    (chained_variables jsonData selectors,
     if bool_decide (size selectors = 0%nat) then None
     else match json_Unmarshal jsonData with
          | Some _ => None
          | None => Some ErrParseJSON
          end) ∧
  ran st (extractVariables jsonData selectors st).2 [EvExtract jsonData selectors].
Proof.
  unfold extractVariables, ran. run. case_bool_decide as Hsz.
  - run. split; [|destruct st; reflexivity]. apply map_size_empty_iff in Hsz as ->.
    unfold chained_variables.
    destruct (json_Unmarshal jsonData); [by rewrite omap_empty | done].
  - unfold chained_variables.
    destruct (json_Unmarshal jsonData) as [data|] eqn:Hj;
      [|run; split; [done | destruct st; reflexivity]].
    run. split; [|destruct st; reflexivity].
    pose proof (map_range_perm _ selectors (world st)) as Hperm.
    rewrite (extractVariables_in_spec _ _ _ Hperm).
    unfold chained_variables. rewrite Hj.
    by rewrite bool_decide_eq_false_2.
Qed.


End Extraction.

(** ** Template rendering *)

Section Template.
Context `{RT : Runtime}.

Lemma substitute_inserted (result placeholder : string) (v : value) :
  substitute result placeholder v = ReplaceAll result placeholder (inserted v).
Proof.
  unfold substitute, inserted.
  destruct v; try done; by destruct (json_Marshal _).
Qed.

Lemma template_step_render (result : string) (kv : string * value) :
  template_step result kv = render_step result kv.
Proof.
  destruct kv as [varName v]. unfold template_step, render_step. cbn [fst snd].
  destruct (varName =? "REMINDER")%string; [done |].
  rewrite substitute_inserted.
  destruct (Contains result (placeholder_of varName)) eqn:E; cbn [negb]; [done |].
  by rewrite ReplaceAll_not_contains.
Qed.

Lemma reminder_step_render (result : string) (variables : gmap string value) :
  reminder_step result variables =
    ReplaceAll result "{{REMINDER}}"
               (match variables !! "REMINDER" with
                | Some reminderText => inserted reminderText
                | None => ""
                end).
Proof.
  unfold reminder_step.
  destruct (Contains result "{{REMINDER}}") eqn:E.
  - destruct (variables !! "REMINDER"); [apply substitute_inserted | done].
  - by rewrite ReplaceAll_not_contains.
Qed.

Lemma foldl_template_render (order : list (string * value)) (result : string) :
  foldl template_step result order = foldl render_step result order.
Proof.
  revert result. induction order as [|kv order IH]; intros result; [done |].
  cbn [foldl]. by rewrite template_step_render, IH.
Qed.

Lemma render_step_empty (kv : string * value) : render_step "" kv = "".
Proof.
  unfold render_step. destruct (kv.1 =? "REMINDER")%string; [done |].
  reflexivity.
Qed.

Lemma foldl_render_empty (order : list (string * value)) :
  foldl render_step "" order = "".
Proof.
  induction order as [|kv order IH]; [done |].
  cbn [foldl]. by rewrite render_step_empty.
Qed.

(** The source, with its tests and its two copies of the replacement
    block, is the chain of replacements, and its error is always nil. *)
Lemma processTemplate_in_render (order : list (string * value))
    (templateStr : string) (variables : gmap string value) :
  processTemplate_in order templateStr variables
  = (render order templateStr variables, None).
Proof.
  unfold processTemplate_in, render.
  destruct (templateStr =? "")%string eqn:E.
  - apply str_eqb_eq in E as ->.
    change (ReplaceAll "" "{{REMINDER}}" _) with "".
    by rewrite foldl_render_empty.
  - by rewrite foldl_template_render, reminder_step_render.
Qed.

(** *** Escaping *)

Lemma ReplaceAll_single_cons (a c : ascii) (new s : string) :
  ReplaceAll (String c s) (String a "") new =
    (if (c =? a)%char then new else String c "") +:+ ReplaceAll s (String a "") new.
Proof.
  unfold ReplaceAll. cbn [replace_from HasPrefix String.length Nat.sub].
  rewrite andb_true_r, (Ascii.eqb_sym a c).
  by destruct (c =? a)%char.
Qed.

Lemma ReplaceAll_single_app (a : ascii) (new s t : string) :
  ReplaceAll (s +:+ t) (String a "") new =
    ReplaceAll s (String a "") new +:+ ReplaceAll t (String a "") new.
Proof.
  induction s as [|c s IH]; [done |].
  by rewrite str_app_cons, !ReplaceAll_single_cons, IH, str_app_assoc.
Qed.

Lemma escape_cons (c : ascii) (str : string) :
  escape (String c str) = json_escaped_char c +:+ escape str.
Proof.
  unfold escape, LF, CR, TAB, DQ, json_escaped_char.
  rewrite ReplaceAll_single_cons, !ReplaceAll_single_app. f_equal.
  destruct (c =? "010")%char eqn:E1; [reflexivity |].
  rewrite ReplaceAll_single_cons.
  destruct (c =? "013")%char eqn:E2; [reflexivity |].
  rewrite !ReplaceAll_single_app, ReplaceAll_single_cons.
  destruct (c =? "009")%char eqn:E3; [reflexivity |].
  rewrite !ReplaceAll_single_app, ReplaceAll_single_cons.
  destruct (c =? "034")%char eqn:E4; reflexivity.
Qed.

(** The four replacements in a row escape each character by itself. *)
Lemma escape_json_escaped (str : string) : escape str = json_escaped str.
Proof.
  induction str as [|c str IH]; [done |].
  by rewrite escape_cons, IH.
Qed.

(** C9. Rendering never fails and puts in place of each placeholder the
    text of its value: for a string, the string with newline, carriage
    return, tab and double quote replaced by their JSON escapes; for any
    other value, what [json.Marshal] prints, and what [%v] prints when
    [json.Marshal] returns an error. *)
Theorem processTemplate_inserts_escaped (order : list (string * value))
    (templateStr : string) (variables : gmap string value) :
  processTemplate_in order templateStr variables
  = (render order templateStr variables, None) ∧
  (∀ str, inserted (VString str) = json_escaped str) ∧
  (∀ v, (∀ str, v ≠ VString str) →
        (∀ valueBytes, json_Marshal v = Some valueBytes → inserted v = valueBytes) ∧
        (json_Marshal v = None → inserted v = fmt_Sprint v)).
Proof.
  split; [apply processTemplate_in_render |]. split.
  - intros str. apply escape_json_escaped.
  - intros v Hv. unfold inserted.
    destruct v; try (split; [by intros ? -> | by intros ->]).
    by destruct (Hv s).
Qed.

(** *** Placeholders without a variable *)

Lemma render_step_keeps (a b name : string) (kv : string * value) :
  brace_free kv.1 = true → brace_free name = true → kv.1 ≠ name →
  render_step (a +:+ placeholder_of name +:+ b) kv
  = render_step a kv +:+ placeholder_of name +:+ render_step b kv.
Proof.
  intros Hk Hx Hne. unfold render_step.
  destruct (kv.1 =? "REMINDER")%string; [done |].
  by apply ReplaceAll_keeps_placeholder.
Qed.

Lemma foldl_render_keeps (order : list (string * value)) (a b name : string) :
  Forall (λ kv, brace_free kv.1 = true ∧ kv.1 ≠ name) order →
  brace_free name = true →
  foldl render_step (a +:+ placeholder_of name +:+ b) order
  = foldl render_step a order +:+ placeholder_of name +:+ foldl render_step b order.
Proof.
  intros Hall Hx. revert a b.
  induction Hall as [|kv order [Hk Hne] _ IH]; intros a b; [done |].
  cbn [foldl]. by rewrite render_step_keeps, IH.
Qed.

Lemma render_keeps (order : list (string * value)) (variables : gmap string value)
    (pre post name : string) :
  Forall (λ kv, brace_free kv.1 = true ∧ kv.1 ≠ name) order →
  brace_free name = true → name ≠ "REMINDER" →
  render order (pre +:+ placeholder_of name +:+ post) variables
  = render order pre variables +:+ placeholder_of name
    +:+ render order post variables.
Proof.
  intros Hall Hx Hrem. unfold render.
  change "{{REMINDER}}" with (placeholder_of "REMINDER").
  rewrite ReplaceAll_keeps_placeholder by done.
  by apply foldl_render_keeps.
Qed.

(** C8, as the code has it. Rendering never returns an error. When
    [REMINDER] is not in the mapping, [{{REMINDER}}] is replaced by the
    empty string before the other variables are substituted; rendering
    [{{REMINDER}}] with the empty mapping gives the empty string. When
    no key of the mapping contains a brace, every placeholder whose name
    contains no brace, is not a key and is not [REMINDER] stays where it
    is: the text before it and the text after it are rendered on their
    own. *)
Theorem processTemplate_keeps_unknown_placeholders
    (order : list (string * value)) (templateStr : string)
    (variables : gmap string value) :
  (processTemplate_in order templateStr variables).2 = None ∧
  (variables !! "REMINDER" = None →
     (processTemplate_in order templateStr variables).1
     = foldl render_step (ReplaceAll templateStr "{{REMINDER}}" "") order) ∧
  (∀ name pre post,
     templateStr = pre +:+ placeholder_of name +:+ post →
     order ≡ₚ map_to_list variables →
     (∀ k, is_Some (variables !! k) → brace_free k = true) →
     brace_free name = true →
     variables !! name = None →
     name ≠ "REMINDER" →
     (processTemplate_in order templateStr variables).1
     = (processTemplate_in order pre variables).1 +:+ placeholder_of name
       +:+ (processTemplate_in order post variables).1) ∧
  processTemplate_in [] "{{REMINDER}}" ∅ = ("", None).
Proof.
  rewrite !processTemplate_in_render. cbn [fst snd].
  split; [done |]. split; [|split; [|done]].
  - intros Hrem. unfold render. by rewrite Hrem.
  - intros name pre post -> Hperm Hkeys Hname Hnone Hrem.
    rewrite !processTemplate_in_render. cbn [fst].
    apply render_keeps; [|done..].
    apply Forall_forall. intros [k v] Hin. cbn [fst].
    rewrite Hperm in Hin. apply elem_of_map_to_list in Hin.
    split; [apply Hkeys; eauto |]. intros ->. congruence.
Qed.
End Template.

(** C8, as stated, fails when a key of the mapping contains a brace: the
    template [{{x}}}] holds the placeholder [{{x}}], [x] is not a key of
    the mapping, and rendering with the key [x}] takes the placeholder
    away. *)
Lemma processTemplate_brace_key_counterexample :
  let variables : gmap string value := {[ "x}" := VString "v" ]} in
  let order := [("x}", VString "v")] in
  order ≡ₚ map_to_list variables ∧
  variables !! "x" = None ∧
  "x" ≠ "REMINDER" ∧
  Contains "{{x}}}" (placeholder_of "x") = true ∧
  processTemplate_in (RT := Fake.runtime) order "{{x}}}" variables = ("v", None) ∧
  Contains "v" (placeholder_of "x") = false.
Proof.
  cbv zeta. split; [by rewrite map_to_list_singleton |].
  split; [by apply lookup_singleton_ne |].
  split; [done |]. split; [reflexivity |]. split; reflexivity.
Qed.

(** ** Chaining the secondary webhook *)

Section Chaining.
Context `{RT : Runtime}.

Lemma processTemplate_run (templateStr : string)
    (variables : gmap string value) (st : State) :
  ∃ order,
    order ≡ₚ map_to_list variables ∧
    (processTemplate templateStr variables st).1
    = (render order templateStr variables, None) ∧
    ran st (processTemplate templateStr variables st).2
        [EvTemplate templateStr variables].
Proof.
  exists (map_range variables (world st)).1.
  split; [apply map_range_perm |].
  unfold processTemplate, ran. run.
  destruct (templateStr =? "")%string eqn:E; run.
  - split; [|by destruct st].
    pose proof (processTemplate_in_render (map_range variables (world st)).1
                  templateStr variables) as H.
    unfold processTemplate_in in H. rewrite E in H. exact H.
  - split; [apply processTemplate_in_render | by destruct st].
Qed.

Lemma chained_variables_empty (jsonData : string) :
  chained_variables jsonData ∅ = ∅.
Proof.
  unfold chained_variables.
  destruct (json_Unmarshal jsonData); [by rewrite omap_empty | done].
Qed.

Lemma extracted_variables_run (data : string)
    (selectors : gmap string string) (st : State) :
  (extracted_variables data selectors st).1 = chained_variables data selectors ∧
  ran st (extracted_variables data selectors st).2
      (if bool_decide (0 < size selectors)%nat
       then [EvExtract data selectors] else []).
Proof.
  unfold extracted_variables. case_bool_decide as Hsz.
  - run. destruct (extractVariables_run data selectors st) as [Hres Hran].
    destruct (extractVariables data selectors st) as [[vars err] st'].
    cbn [fst snd] in *. run. split; [|done].
    injection Hres as -> ->.
    rewrite bool_decide_eq_false_2 by lia.
    unfold chained_variables. by destruct (json_Unmarshal data).
  - run. split; [|apply ran_nil].
    assert (selectors = ∅) as -> by (apply map_size_empty_iff; lia).
    by rewrite chained_variables_empty.
Qed.

(** The firing after a primary call that succeeded, with an enabled
    secondary, [saveOutput] and a cached output. *)
Lemma executeJob_chained (job : Job.t) (secondary : Webhook.t) (st : State)
    (output data : string) :
  Job.SaveOutput job = true →
  Job.Secondary job = Some secondary →
  Webhook.Enabled secondary = true →
  (executeWebhook (Job.Primary job) st).1 = (output, None) →
  saved job output st !! Job.ID job = Some data →
  data ≠ "" →
  ∃ order body,
    order ≡ₚ map_to_list (chained_variables data (Webhook.JQSelectors secondary)) ∧
    body = (if nonempty (Webhook.BodyTemplate secondary)
            then render order (Webhook.BodyTemplate secondary)
                        (chained_variables data (Webhook.JQSelectors secondary))
            else data) ∧
    outputs (executeJob job st).2 = saved job output st ∧
    trace (executeJob job st).2 =
      trace st ++ [EvWebhook (Job.Primary job)]
      ++ (if bool_decide (0 < size (Webhook.JQSelectors secondary))%nat
          then [EvExtract data (Webhook.JQSelectors secondary)] else [])
      ++ (if nonempty (Webhook.BodyTemplate secondary)
          then [EvTemplate (Webhook.BodyTemplate secondary)
                           (chained_variables data (Webhook.JQSelectors secondary))]
          else [])
      ++ [EvWebhook (Webhook.with_Body secondary body)].
Proof.
  intros Hsave Hsec Hen Hprim Hdata Hne.
  pose proof (executeWebhook_ran (Job.Primary job) st) as Hran1.
  unfold executeJob. rewrite bind_run, Hprim.
  set (st1 := (executeWebhook (Job.Primary job) st).2) in *.
  cbn beta iota. rewrite bind_run, Hsec, Hen, Hsave. cbn [negb].
  set (st2 := ((if true && nonempty output
                then modify (λ st0 : State,
                       with_outputs (<[Job.ID job:=output]> (outputs st0)) st0)
                else mret ()) st1).2).
  assert (outputs st2 = saved job output st ∧ trace st2 = trace st1 ∧
          ∀ st3 evs, ran st2 st3 evs →
             outputs st3 = saved job output st ∧
             trace st3 = trace st ++ [EvWebhook (Job.Primary job)] ++ evs)
    as (Hout2 & Htr2 & Hframe).
  { assert (outputs st2 = saved job output st ∧ trace st2 = trace st1) as [Ho Ht].
    { unfold st2, saved. rewrite Hsave.
      destruct (true && nonempty output); cbn;
        by rewrite (ran_outputs _ _ _ Hran1). }
    split; [done |]. split; [done |]. intros st3 evs Hran.
    rewrite (ran_outputs _ _ _ Hran), (ran_trace _ _ _ Hran), Ho, Ht.
    by rewrite (ran_trace _ _ _ Hran1), <-app_assoc. }
  clearbody st2. run. rewrite Hout2, Hdata. unfold default, from_option, id.
  assert (nonempty data = true) as ->.
  { unfold nonempty. destruct (data =? "")%string eqn:E; [|done].
    by apply str_eqb_eq in E. }
  run.
  destruct (extracted_variables_run data (Webhook.JQSelectors secondary) st2)
    as [Hvars Hran3].
  rewrite Hvars.
  set (st3 := (extracted_variables data (Webhook.JQSelectors secondary) st2).2) in *.
  set (variables := chained_variables data (Webhook.JQSelectors secondary)) in *.
  destruct (nonempty (Webhook.BodyTemplate secondary)) eqn:Htmpl.
  - destruct (processTemplate_run (Webhook.BodyTemplate secondary) variables st3)
      as (order & Hperm & Hres & Hran4).
    exists order, (render order (Webhook.BodyTemplate secondary) variables).
    split; [done |]. split; [done |].
    run. rewrite Hres. cbn beta iota. run.
    set (st4 := (processTemplate _ variables st3).2) in *.
    apply Hframe.
    eapply ran_trans; [exact Hran3 |].
    eapply ran_trans; [exact Hran4 | apply executeWebhook_ran].
  - exists (map_to_list variables), data.
    split; [done |]. split; [done |]. run.
    apply Hframe. rewrite app_nil_l.
    eapply ran_trans; [exact Hran3 | apply executeWebhook_ran].
Qed.

Lemma nonempty_true (s : string) : s ≠ "" → nonempty s = true.
Proof.
  intros Hne. unfold nonempty. destruct (s =? "")%string eqn:E; [|done].
  by apply str_eqb_eq in E.
Qed.

(** C2. In a firing whose primary call succeeds, with [saveOutput], an
    enabled secondary and a non-empty cached output [data]: the variables
    are those the secondary's selectors extract from [data]; the body of
    the secondary call is the template rendered with them when there is
    a template, and [data] itself when there is none; that call is the
    last of the firing. In the scenario where the primary answers
    [{"status":"ok"}], the selectors map [s] to [.status] and the
    template is [{"result":"{{s}}"}], the body sent is
    [{"result":"ok"}]. *)
Theorem executeJob_secondary_body_from_cache (job : Job.t)
    (secondary : Webhook.t) (st : State) :
  Job.SaveOutput job = true →
  Job.Secondary job = Some secondary →
  Webhook.Enabled secondary = true →
  (∀ output data,
     (executeWebhook (Job.Primary job) st).1 = (output, None) →
     saved job output st !! Job.ID job = Some data →
     data ≠ "" →
     let variables := chained_variables data (Webhook.JQSelectors secondary) in
     ∃ order body,
       order ≡ₚ map_to_list variables ∧
       body = (if nonempty (Webhook.BodyTemplate secondary)
               then render order (Webhook.BodyTemplate secondary) variables
               else data) ∧
       outputs (executeJob job st).2 = saved job output st ∧
       trace (executeJob job st).2 =
         trace st ++ [EvWebhook (Job.Primary job)]
         ++ (if bool_decide (0 < size (Webhook.JQSelectors secondary))%nat
             then [EvExtract data (Webhook.JQSelectors secondary)] else [])
         ++ (if nonempty (Webhook.BodyTemplate secondary)
             then [EvTemplate (Webhook.BodyTemplate secondary) variables]
             else [])
         ++ [EvWebhook (Webhook.with_Body secondary body)]) ∧
  (∀ StatusCode w data query rest,
     Webhook.JQSelectors secondary = {[ "s" := ".status" ]} →
     Webhook.BodyTemplate secondary = result_template →
     http_exchange (Job.Primary job) (world st)
     = (Response StatusCode status_ok_json, w) →
     StatusCode < 400 →
     json_Unmarshal status_ok_json = Some data →
     gojq_Parse ".status" = Some query →
     gojq_Run query data = JQValue (VString "ok") :: rest →
     last (trace (executeJob job st).2)
     = Some (EvWebhook (Webhook.with_Body secondary result_ok_json))).
Proof.
  intros Hsave Hsec Hen. split.
  - intros output data Hprim Hdata Hne. by apply executeJob_chained.
  - intros code w data query rest Hsel Htmpl Hx Hcode Hjson Hparse Hrun.
    assert ((executeWebhook (Job.Primary job) st).1 = (status_ok_json, None))
      as Hprim.
    { rewrite executeWebhook_run, Hx. cbn [fst classify].
      destruct (400 <=? code) eqn:E; [lia | done]. }
    assert (saved job status_ok_json st !! Job.ID job = Some status_ok_json)
      as Hdata.
    { unfold saved. rewrite Hsave. cbn. apply lookup_insert_eq. }
    destruct (executeJob_chained job secondary st _ _ Hsave Hsec Hen Hprim Hdata)
      as (order & body & Hperm & Hbody & _ & Htrace); [done |].
    assert (chained_variables status_ok_json (Webhook.JQSelectors secondary)
            = {[ "s" := VString "ok" ]}) as Hvars.
    { unfold chained_variables. rewrite Hjson, Hsel.
      apply omap_singleton_Some. unfold select. by rewrite Hparse, Hrun. }
    rewrite Hvars, map_to_list_singleton in Hperm.
    apply Permutation_singleton_r in Hperm. subst order.
    rewrite Hvars, Htmpl in Hbody.
    assert (body = result_ok_json) as -> by (subst body; reflexivity).
    rewrite Htrace, !app_assoc. apply last_snoc.
Qed.
End Chaining.

Section Unsaved.
Context `{RT : Runtime}.

(** C5, as the code has it. In a firing whose primary call succeeds,
    with an enabled secondary and without [saveOutput]: nothing is
    extracted, nothing is rendered, and the secondary webhook is called
    with its configuration as it is, so with [secondary.body] as the
    body; [secondary.bodyTemplate] is not used. *)
Theorem executeJob_unsaved_secondary_as_is (job : Job.t)
    (secondary : Webhook.t) (st : State) (output : string) :
  Job.SaveOutput job = false →
  Job.Secondary job = Some secondary →
  Webhook.Enabled secondary = true →
  (executeWebhook (Job.Primary job) st).1 = (output, None) →
  outputs (executeJob job st).2 = outputs st ∧
  trace (executeJob job st).2
  = trace st ++ [EvWebhook (Job.Primary job); EvWebhook secondary].
Proof.
  intros Hsave Hsec Hen Hprim.
  pose proof (executeWebhook_ran (Job.Primary job) st) as Hran1.
  unfold executeJob. rewrite bind_run, Hprim. cbn beta iota.
  rewrite Hsave, Hsec, Hen. cbn [andb negb]. run.
  set (st1 := (executeWebhook (Job.Primary job) st).2) in *.
  pose proof (ran_trans _ _ _ _ _ Hran1 (executeWebhook_ran secondary st1)) as Hran.
  by rewrite (ran_outputs _ _ _ Hran), (ran_trace _ _ _ Hran).
Qed.
End Unsaved.

(** C5, as stated, fails when the secondary has a template: the body sent
    is [secondary.body], not the rendered template. *)
Lemma executeJob_unsaved_template_counterexample :
  let st := fresh 0 [Response 200 "ok"; Response 200 ""] in
  Job.SaveOutput unsaved_job = false ∧
  Job.Secondary unsaved_job = Some plain_secondary ∧
  Webhook.Enabled plain_secondary = true ∧
  trace (executeJob unsaved_job st).2
  = [EvWebhook (Job.Primary unsaved_job); EvWebhook plain_secondary] ∧
  Webhook.Body plain_secondary = "plain" ∧
  (processTemplate_in (RT := Fake.runtime) []
     (Webhook.BodyTemplate plain_secondary) ∅).1
  = "from template" ∧
  (processTemplate_in (RT := Fake.runtime) []
     (Webhook.BodyTemplate plain_secondary) ∅).1
  ≠ Webhook.Body plain_secondary.
Proof. cbv zeta. repeat split; (reflexivity || discriminate). Qed.

(** A job without [saveOutput] whose secondary has a body and a template: both webhooks are called, the secondary as configured. *)
Lemma executeJob_unsaved_secondary_as_is_witness :
  let st := fresh 0 [Response 200 "ok"; Response 200 ""] in
  outputs (executeJob unsaved_job st).2 = ∅ ∧
  trace (executeJob unsaved_job st).2
  = [EvWebhook (Job.Primary unsaved_job); EvWebhook plain_secondary].
Proof.
  exact (executeJob_unsaved_secondary_as_is unsaved_job plain_secondary
           (fresh 0 [Response 200 "ok"; Response 200 ""]) "ok"
           eq_refl eq_refl eq_refl eq_refl).
Defined.

(** The primary answers 500: the error carries 500 and the body, nothing is cached and the secondary is not called. *)
Lemma executeJob_primary_failure_stops_witness :
  let st := fresh 0 [Response 500 "boom"; Response 200 ""] in
  (executeWebhook (Job.Primary chained_job) st).1 = ("", Some (ErrStatus 500 "boom")) ∧
  outputs (executeJob chained_job st).2 = ∅ ∧
  trace (executeJob chained_job st).2 = [EvWebhook (Job.Primary chained_job)].
Proof.
  cbv zeta.
  pose proof (executeJob_primary_failure_stops chained_job
                (fresh 0 [Response 500 "boom"; Response 200 ""])) as [H1 H2].
  split.
  - apply (H1 500 "boom" (Fake.mkWorld 0 [Response 200 ""] true)); [reflexivity | lia].
  - destruct (H2 (ErrStatus 500 "boom") eq_refl) as (_ & Ho & Ht).
    split; [exact Ho | exact Ht].
Defined.

(** The chaining scenario, run: the primary answers [{"status":"ok"}] and the secondary is sent [{"result":"ok"}]. *)
Lemma executeJob_secondary_body_from_cache_witness :
  let st := fresh 0 [Response 200 status_ok_json; Response 200 ""] in
  last (trace (executeJob chained_job st).2)
  = Some (EvWebhook (Webhook.with_Body chained_secondary result_ok_json)).
Proof.
  cbv zeta.
  destruct (executeJob_secondary_body_from_cache chained_job chained_secondary
              (fresh 0 [Response 200 status_ok_json; Response 200 ""])
              eq_refl eq_refl eq_refl) as [_ H].
  apply (H 200 (Fake.mkWorld 0 [Response 200 ""] true)
           (VObject [("status", VString "ok")]) [Fake.Field "status"] []);
    first [reflexivity | lia].
Defined.

(** ** Scheduling a reminder *)

Section Schedule.
Context `{RT : Runtime}.

Lemma scheduleReminder_past (job : Job.t) (reminder : Rem.t) (st : State) :
  Rem.Datetime reminder < (time_Now (world st)).1 →
  scheduleReminder job reminder st
  = (None, with_world (time_Now (world st)).2 st).
Proof.
  intros Hlt. unfold scheduleReminder. run.
  destruct (Rem.Datetime reminder <? (time_Now (world st)).1) eqn:E; [done | lia].
Qed.

Lemma scheduleReminder_due (job : Job.t) (reminder : Rem.t) (st : State) :
  (time_Now (world st)).1 ≤ Rem.Datetime reminder →
  scheduleReminder job reminder st
  = (None,
     with_reminders
       (<[Job.ID job +:+ "_" +:+ Rem.ID reminder := timer_next st]> (reminders st))
       (with_timers
          (<[timer_next st :=
               mkTimer (Sub (Rem.Datetime reminder) (time_Now (world st)).1)
                       job reminder]> (timers st))
          (Pos.succ (timer_next st))
          (with_world (time_Now (world st)).2 st))).
Proof.
  intros Hle. unfold scheduleReminder. run.
  destruct (Rem.Datetime reminder <? (time_Now (world st)).1) eqn:E; [lia |].
  unfold AfterFunc. run. reflexivity.
Qed.

(** C3, as the code has it. A reminder whose datetime is strictly before
    the current time is skipped: no timer is made, the timer registry and
    the job records are as they were, only the clock has been read. A
    reminder whose datetime is the current time or later, the current
    time included, gets a new one-shot timer with duration
    [datetime - now], registered under the key [jobID_reminderID]; the
    job records are as they were. *)
Theorem scheduleReminder_skips_strict_past (job : Job.t) (reminder : Rem.t)
    (st : State) :
  let now := (time_Now (world st)).1 in
  let st' := (scheduleReminder job reminder st).2 in
  (Rem.Datetime reminder < now →
     st' = with_world (time_Now (world st)).2 st ∧
     reminders st' = reminders st ∧ timers st' = timers st ∧
     config_Jobs st' = config_Jobs st) ∧
  (now ≤ Rem.Datetime reminder →
     reminders st' !! (Job.ID job +:+ "_" +:+ Rem.ID reminder) = Some (timer_next st) ∧
     timers st' = <[timer_next st :=
                      mkTimer (Sub (Rem.Datetime reminder) now) job reminder]>
                    (timers st) ∧
     timers st' !! timer_next st
     = Some (mkTimer (Sub (Rem.Datetime reminder) now) job reminder) ∧
     config_Jobs st' = config_Jobs st).
Proof.
  cbv zeta. split.
  - intros Hlt. rewrite scheduleReminder_past by done. by destruct st.
  - intros Hle. rewrite scheduleReminder_due by done. cbn.
    by rewrite !lookup_insert_eq.
Qed.
End Schedule.

(** C3, as stated, fails for a reminder due exactly now: it is not
    skipped, a timer with duration 0 is made for it. *)
Lemma scheduleReminder_now_counterexample :
  let job := reminding_job "daily" "r1" 100 in
  let reminder := Rem.mk "r1" "call back" 100 in
  let st := fresh 100 [] in
  Rem.Datetime reminder = (time_Now (world st)).1 ∧
  Sub (Rem.Datetime reminder) (time_Now (world st)).1 = 0 ∧
  reminders (scheduleReminder job reminder st).2 !! "daily_r1" = Some 1%positive ∧
  timers (scheduleReminder job reminder st).2 !! 1%positive
  = Some (mkTimer 0 job reminder).
Proof. cbv zeta. repeat split; reflexivity. Qed.

(** At time 100, a reminder due at 50 is skipped and one due at 160 gets a timer of duration 60. *)
Lemma scheduleReminder_skips_strict_past_witness :
  let job := reminding_job "daily" "r1" 50 in
  let late := Rem.mk "r1" "call back" 50 in
  let soon := Rem.mk "r2" "call again" 160 in
  let st := fresh 100 [] in
  timers (scheduleReminder job late st).2 = ∅ ∧
  reminders (scheduleReminder job late st).2 = ∅ ∧
  reminders (scheduleReminder job soon st).2 !! "daily_r2" = Some 1%positive ∧
  timers (scheduleReminder job soon st).2 !! 1%positive
  = Some (mkTimer 60 job soon).
Proof.
  cbv zeta.
  pose proof (scheduleReminder_skips_strict_past
                (reminding_job "daily" "r1" 50) (Rem.mk "r1" "call back" 50)
                (fresh 100 [])) as [Hpast _].
  pose proof (scheduleReminder_skips_strict_past
                (reminding_job "daily" "r1" 50) (Rem.mk "r2" "call again" 160)
                (fresh 100 [])) as [_ Hdue].
  cbv zeta in Hpast, Hdue.
  destruct Hpast as (_ & Hr & Ht & _); [reflexivity |].
  destruct Hdue as (Hr' & _ & Ht' & _); [cbn; lia |].
  repeat split; assumption.
Defined.

(** ** A reminder that fires *)

Section Firing.
Context `{RT : Runtime}.

Lemma quiet_ret {A} (a : A) : quiet (mret a : M A).
Proof. intros st. exists []. apply ran_nil. Qed.

Lemma quiet_bind {A B} (m : M A) (f : A → M B) :
  quiet m → (∀ a, quiet (f a)) → quiet (m ≫= f).
Proof.
  intros Hm Hf st. rewrite bind_run.
  destruct (Hm st) as [evs1 H1].
  destruct (Hf (m st).1 (m st).2) as [evs2 H2].
  exists (evs1 ++ evs2). by eapply ran_trans.
Qed.

Lemma quiet_executeWebhook (webhook : Webhook.t) : quiet (executeWebhook webhook).
Proof. intros st. eexists. apply executeWebhook_ran. Qed.

Lemma quiet_processTemplate (templateStr : string) (variables : gmap string value) :
  quiet (processTemplate templateStr variables).
Proof.
  intros st. destruct (processTemplate_run templateStr variables st)
    as (_ & _ & _ & H). eauto.
Qed.

Lemma quiet_extracted_variables (data : string) (selectors : gmap string string) :
  quiet (extracted_variables data selectors).
Proof.
  intros st. destruct (extracted_variables_run data selectors st) as [_ H]. eauto.
Qed.

Lemma quiet_reminder_secondary_body (secondaryWebhook : Webhook.t)
    (variables : gmap string value) (fallback : string) :
  quiet (reminder_secondary_body secondaryWebhook variables fallback).
Proof.
  unfold reminder_secondary_body.
  destruct (nonempty (Webhook.BodyTemplate secondaryWebhook)).
  - apply quiet_bind; [apply quiet_processTemplate |].
    intros [? ?]. apply quiet_ret.
  - destruct (nonempty (Webhook.Body secondaryWebhook)); [|apply quiet_ret].
    apply quiet_bind; [apply quiet_processTemplate |].
    intros [? ?]. apply quiet_ret.
Qed.

(** The two webhook calls of a reminder change nothing in the scheduler;
    then the cleanup runs, whatever the calls came to. *)
Lemma executeReminder_run (job : Job.t) (reminder : Rem.t) (st : State) :
  ∃ st1 evs,
    ran st st1 evs ∧
    executeReminder job reminder st = reminder_cleanup job reminder st1.
Proof.
  unfold executeReminder.
  match goal with
  | |- context [ (?m ≫= ?f) st ] =>
      assert (quiet m) as Hq1
  end.
  { destruct (nonempty (Webhook.Body (Job.Primary job))); [|apply quiet_ret].
    apply quiet_bind; [apply quiet_processTemplate |].
    intros [? ?]. apply quiet_ret. }
  rewrite bind_run. destruct (Hq1 st) as [evs1 Hran1].
  match type of Hran1 with ran _ ?s _ => set (st1 := s) in * end.
  match goal with
  | |- context [ (executeWebhook ?w ≫= _) st1 ] => set (reminderWebhook := w)
  end.
  rewrite bind_run.
  pose proof (executeWebhook_ran reminderWebhook st1) as Hran2.
  destruct (executeWebhook reminderWebhook st1) as [[primaryResponse err] st2].
  cbn [fst snd] in *. rewrite bind_run.
  match goal with
  | |- context [ reminder_cleanup job reminder (?m st2).2 ] =>
      assert (quiet m) as Hq3
  end.
  { destruct (Job.Secondary job) as [jobSecondary|]; [|apply quiet_ret].
    destruct (Webhook.Enabled jobSecondary); [|apply quiet_ret].
    apply quiet_bind.
    - destruct (nonempty primaryResponse).
      + apply quiet_bind; [apply quiet_extracted_variables |].
        intros variables. apply quiet_reminder_secondary_body.
      + apply quiet_reminder_secondary_body.
    - intros w. apply quiet_bind; [apply quiet_executeWebhook |].
      intros ?. apply quiet_ret. }
  destruct (Hq3 st2) as [evs3 Hran3].
  eexists _, _. split; [|reflexivity].
  eapply ran_trans; [exact Hran1 |]. eapply ran_trans; [exact Hran2 | exact Hran3].
Qed.

(** *** Deleting the reminder from the repository *)

Lemma drop_reminder_foldl (reminderID : string) (rs : list Rem.t)
    (acc : list Rem.t * bool) :
  foldl (drop_reminder reminderID) acc rs
  = (acc.1 ++ filter (λ r, Rem.ID r ≠ reminderID) rs,
     acc.2 || existsb (λ r, (Rem.ID r =? reminderID)%string) rs).
Proof.
  revert acc. induction rs as [|r rs IH]; intros [kept found].
  - cbn. by rewrite app_nil_r, orb_false_r.
  - cbn [foldl]. rewrite IH. unfold drop_reminder. cbn [fst snd existsb].
    rewrite filter_cons.
    destruct (Rem.ID r =? reminderID)%string eqn:E.
    + apply str_eqb_eq in E. rewrite decide_False by auto.
      cbn. by rewrite orb_true_r.
    + assert (Rem.ID r ≠ reminderID) as Hne.
      { intros Heq. apply str_eqb_eq in Heq. congruence. }
      rewrite decide_True by done. cbn. by rewrite <-app_assoc.
Qed.

Lemma existsb_reminder (reminderID : string) (rs : list Rem.t) :
  (∃ r, r ∈ rs ∧ Rem.ID r = reminderID) →
  existsb (λ r, (Rem.ID r =? reminderID)%string) rs = true.
Proof.
  intros (r & Hin & Hid). apply existsb_exists. exists r.
  split; [by apply list_elem_of_In | by apply str_eqb_eq].
Qed.


Lemma config_DeleteReminder_run (jobID reminderID : string) (st : State) :
  config_DeleteReminder jobID reminderID st
  = ((DeleteReminder (config_Jobs st) jobID reminderID).2,
     with_config (DeleteReminder (config_Jobs st) jobID reminderID).1 st).
Proof.
  unfold config_DeleteReminder. rewrite bind_run, get_run. cbn [fst snd id].
  destruct (DeleteReminder (config_Jobs st) jobID reminderID) as [Jobs' err].
  reflexivity.
Qed.

Lemma config_Save_run (st : State) :
  config_Save st
  = ((if (write_config (config_Jobs st) (world st)).1 then None else Some ErrSave),
     with_trace (trace st ++ [EvSave (config_Jobs st)
                                     (write_config (config_Jobs st) (world st)).1])
                (with_world (write_config (config_Jobs st) (world st)).2 st)).
Proof.
  unfold config_Save. rewrite bind_run, get_run. cbn [fst snd id]. run.
  reflexivity.
Qed.

Lemma reminder_cleanup_run (job : Job.t) (reminder : Rem.t) (st : State) :
  let st' := (reminder_cleanup job reminder st).2 in
  let deleted := DeleteReminder (config_Jobs st) (Job.ID job) (Rem.ID reminder) in
  reminders st' = delete (Job.ID job +:+ "_" +:+ Rem.ID reminder) (reminders st) ∧
  timers st' = timers st ∧
  timer_next st' = timer_next st ∧
  cron_entries st' = cron_entries st ∧
  cron_nextID st' = cron_nextID st ∧
  jobs st' = jobs st ∧
  outputs st' = outputs st ∧
  config_Jobs st' = deleted.1 ∧
  trace st' = trace st ++
              match deleted.2 with
              | Some _ => []
              | None => [EvSave deleted.1 (write_config deleted.1 (world st)).1]
              end.
Proof.
  cbv zeta. unfold reminder_cleanup. run.
  rewrite config_DeleteReminder_run. cbn [fst snd config_Jobs with_reminders].
  destruct (DeleteReminder (config_Jobs st) (Job.ID job) (Rem.ID reminder))
    as [Jobs' [e|]]; cbn [fst snd].
  - run. cbn. by rewrite app_nil_r.
  - run. rewrite config_Save_run. cbn. done.
Qed.

End Firing.

(** ** The registries *)

Section Registry.
Context `{RT : Runtime}.

Lemma for_each_foldl {A} (xs : list A) (body : A → M unit) (st : State) :
  (for_each xs body st).2 = foldl (λ st x, (body x st).2) st xs.
Proof.
  revert st. induction xs as [|x xs IH]; intros st; [done |].
  cbn [for_each foldl]. rewrite bind_run. apply IH.
Qed.

(** *** [removeJobReminders] *)

Lemma stop_prefixed_run (jobID : string) (st : State) (k : string) (t : positive) :
  stop_prefixed jobID st (k, t) =
    if HasPrefix k (jobID +:+ "_")
    then with_reminders (delete k (reminders st))
           (with_timers (delete t (timers st)) (timer_next st) st)
    else st.
Proof.
  unfold stop_prefixed, remove_if_prefixed, Stop.
  destruct (HasPrefix k (jobID +:+ "_")); [|done]. run. reflexivity.
Qed.

(** What the loop leaves alone. *)
Lemma foldl_stop_prefixed_frame (jobID : string) (l : list (string * positive))
    (st : State) :
  let st' := foldl (stop_prefixed jobID) st l in
  cron_entries st' = cron_entries st ∧ cron_nextID st' = cron_nextID st ∧
  jobs st' = jobs st ∧ outputs st' = outputs st ∧
  config_Jobs st' = config_Jobs st ∧ timer_next st' = timer_next st ∧
  world st' = world st ∧ trace st' = trace st.
Proof.
  cbv zeta. revert st. induction l as [|[k t] l IH]; intros st; [done |].
  cbn [foldl]. destruct (IH (stop_prefixed jobID st (k, t)))
    as (-> & -> & -> & -> & -> & -> & -> & ->).
  rewrite stop_prefixed_run. by destruct (HasPrefix k (jobID +:+ "_")).
Qed.

Lemma foldl_stop_prefixed_reminders (jobID : string)
    (l : list (string * positive)) (st : State) (k : string) :
  reminders (foldl (stop_prefixed jobID) st l) !! k =
    if HasPrefix k (jobID +:+ "_") && bool_decide (k ∈ l.*1)
    then None else reminders st !! k.
Proof.
  revert st. induction l as [|[k0 t0] l IH]; intros st.
  - cbn. by rewrite andb_false_r.
  - cbn [foldl]. rewrite IH, stop_prefixed_run. cbn [fmap list_fmap fst].
    destruct (HasPrefix k (jobID +:+ "_")) eqn:Hk; cbn [andb].
    + destruct (decide (k = k0)) as [->|Hne].
      * rewrite Hk. cbn [reminders with_reminders].
        rewrite lookup_delete_eq.
        rewrite (bool_decide_eq_true_2 (k0 ∈ k0 :: _)) by apply list_elem_of_here.
        by destruct (bool_decide _).
      * assert (bool_decide (k ∈ k0 :: l.*1) = bool_decide (k ∈ l.*1)) as ->.
        { apply bool_decide_ext. rewrite elem_of_cons.
          split; [intros [?|?]; [done | done] | by right]. }
        destruct (bool_decide (k ∈ l.*1)); [done |].
        destruct (HasPrefix k0 (jobID +:+ "_")); [|done].
        cbn [reminders with_reminders]. by rewrite lookup_delete_ne.
    + destruct (HasPrefix k0 (jobID +:+ "_")) eqn:Hk0; [|done].
      cbn [reminders with_reminders].
      rewrite lookup_delete_ne; [done |]. intros ->. congruence.
Qed.

Lemma foldl_stop_prefixed_timers (jobID : string)
    (l : list (string * positive)) (st : State) (t : positive) (timer : Timer) :
  timers (foldl (stop_prefixed jobID) st l) !! t = Some timer ↔
  timers st !! t = Some timer ∧
  ∀ k, (k, t) ∈ l → HasPrefix k (jobID +:+ "_") = false.
Proof.
  revert st. induction l as [|[k0 t0] l IH]; intros st.
  - cbn. split; [|by intros [? _]]. intros H. split; [done |].
    intros k Hin. by apply elem_of_nil in Hin.
  - cbn [foldl]. rewrite IH, stop_prefixed_run.
    destruct (HasPrefix k0 (jobID +:+ "_")) eqn:Hk0.
    + cbn [timers with_reminders with_timers]. split.
      * intros [Hlook Hall].
        apply lookup_delete_Some in Hlook as [Hne Hlook].
        split; [done |]. intros k [Heq|Hin]%elem_of_cons; [|by apply Hall].
        congruence.
      * intros [Hlook Hall]. split.
        -- apply lookup_delete_Some. split; [|done]. intros <-.
           specialize (Hall k0). rewrite Hk0 in Hall.
           by discriminate Hall; left.
        -- intros k Hin. apply Hall. by right.
    + split.
      * intros [Hlook Hall]. split; [done |].
        intros k [Heq|Hin]%elem_of_cons; [|by apply Hall]. congruence.
      * intros [Hlook Hall]. split; [done |].
        intros k Hin. apply Hall. by right.
Qed.

Lemma removeJobReminders_run (jobID : string) (st : State) :
  ∃ order,
    order ≡ₚ map_to_list (reminders st) ∧
    (removeJobReminders jobID st).2
    = foldl (stop_prefixed jobID)
            (with_world (map_range (reminders st) (world st)).2 st) order.
Proof.
  exists (map_range (reminders st) (world st)).1.
  split; [apply map_range_perm |].
  unfold removeJobReminders. run. by rewrite for_each_foldl.
Qed.

(** After [removeJobReminders(jobID)]: the registered timers are those
    whose key does not start with [jobID_]; the pending timers are those
    that were registered under no such key; nothing else has changed. *)
Lemma removeJobReminders_spec (jobID : string) (st : State) :
  let st' := (removeJobReminders jobID st).2 in
  (∀ k, reminders st' !! k =
          if HasPrefix k (jobID +:+ "_") then None else reminders st !! k) ∧
  (∀ t timer, timers st' !! t = Some timer ↔
              timers st !! t = Some timer ∧
              ∀ k, reminders st !! k = Some t → HasPrefix k (jobID +:+ "_") = false) ∧
  cron_entries st' = cron_entries st ∧ cron_nextID st' = cron_nextID st ∧
  jobs st' = jobs st ∧ outputs st' = outputs st ∧
  config_Jobs st' = config_Jobs st ∧ timer_next st' = timer_next st ∧
  trace st' = trace st.
Proof.
  cbv zeta. destruct (removeJobReminders_run jobID st) as (order & Hperm & ->).
  set (st0 := with_world _ st).
  pose proof (foldl_stop_prefixed_frame jobID order st0) as Hframe.
  cbv zeta in Hframe. destruct Hframe as (-> & -> & -> & -> & -> & -> & _ & ->).
  split; [|split; [|done]].
  - intros k. rewrite foldl_stop_prefixed_reminders.
    change (reminders st0) with (reminders st).
    destruct (HasPrefix k (jobID +:+ "_")); [|done]. cbn [andb].
    case_bool_decide as Hin; [done |].
    destruct (reminders st !! k) as [t|] eqn:Hk; [|done].
    exfalso. apply Hin. apply list_elem_of_fmap. exists (k, t).
    split; [done |]. rewrite Hperm. by apply elem_of_map_to_list.
  - intros t timer. rewrite foldl_stop_prefixed_timers.
    change (timers st0) with (timers st).
    split; intros [Hlook Hall]; (split; [done |]); intros k Hk; apply Hall.
    + rewrite Hperm. by apply elem_of_map_to_list.
    + rewrite Hperm in Hk. by apply elem_of_map_to_list in Hk.
Qed.

(** *** Keys *)

Lemma key_has_prefix (jobID reminderID : string) :
  HasPrefix (jobID +:+ "_" +:+ reminderID) (jobID +:+ "_") = true.
Proof. rewrite <-str_app_assoc. apply HasPrefix_app. Qed.

Lemma key_inj (jobID r1 r2 : string) :
  jobID +:+ "_" +:+ r1 = jobID +:+ "_" +:+ r2 → r1 = r2.
Proof. intros H. by do 2 apply String.app_inj in H. Qed.

(** *** Operations that leave the registries alone *)

Lemma registered_New (cfg : list Job.t) (w : World) : registered (New cfg w).
Proof. split; intros ? ?; cbn; by rewrite lookup_empty. Qed.



Lemma same_registry_trans (st1 st2 st3 : State) :
  same_registry st1 st2 → same_registry st2 st3 → same_registry st1 st3.
Proof.
  intros (? & ? & ? & ? & ? & ?) (? & ? & ? & ? & ? & ?).
  repeat split; congruence.
Qed.

Lemma ran_same_registry (st st' : State) (evs : list event) :
  ran st st' evs → same_registry st st'.
Proof. intros ->. by repeat split. Qed.

Lemma quiet_same_registry {A} (m : M A) (st : State) :
  quiet m → same_registry st (m st).2.
Proof. intros Hq. destruct (Hq st) as [evs H]. by eapply ran_same_registry. Qed.

Lemma executeJob_same_registry (job : Job.t) (st : State) :
  same_registry st (executeJob job st).2.
Proof.
  unfold executeJob. rewrite bind_run.
  pose proof (executeWebhook_ran (Job.Primary job) st) as Hran1.
  destruct (executeWebhook (Job.Primary job) st) as [[output [e|]] st1];
    cbn [fst snd] in *.
  { by eapply ran_same_registry. }
  eapply same_registry_trans; [by eapply ran_same_registry |].
  rewrite bind_run.
  set (st2 := ((if Job.SaveOutput job && nonempty output
                then modify (λ st0 : State,
                       with_outputs (<[Job.ID job:=output]> (outputs st0)) st0)
                else mret ()) st1).2).
  assert (same_registry st1 st2) as Hs2.
  { unfold st2. destruct (Job.SaveOutput job && nonempty output); by repeat split. }
  eapply same_registry_trans; [exact Hs2 |]. clearbody st2.
  cbn beta. apply quiet_same_registry.
  destruct (Job.Secondary job) as [jobSecondary|]; [|apply quiet_ret].
  destruct (negb (Webhook.Enabled jobSecondary)); [apply quiet_ret |].
  destruct (Job.SaveOutput job).
  - apply quiet_bind; [intros s; exists []; apply ran_nil |].
    intros data. destruct (nonempty data); [|apply quiet_ret].
    apply quiet_bind; [apply quiet_extracted_variables |]. intros variables.
    apply quiet_bind.
    + destruct (nonempty (Webhook.BodyTemplate jobSecondary)); [|apply quiet_ret].
      apply quiet_bind; [apply quiet_processTemplate |].
      intros [? ?]. apply quiet_ret.
    + intros secondary. apply quiet_bind; [apply quiet_executeWebhook |].
      intros ?. apply quiet_ret.
  - apply quiet_bind; [apply quiet_executeWebhook |]. intros ?. apply quiet_ret.
Qed.



(** *** Operations on timers *)



Lemma removeReminder_run (jobID reminderID : string) (st : State) :
  (removeReminder jobID reminderID st).2 =
    match reminders st !! (jobID +:+ "_" +:+ reminderID) with
    | Some timer =>
        with_reminders (delete (jobID +:+ "_" +:+ reminderID) (reminders st))
          (with_timers (delete timer (timers st)) (timer_next st) st)
    | None => st
    end.
Proof.
  unfold removeReminder, Stop. run.
  destruct (reminders st !! (jobID +:+ "_" +:+ reminderID)); [|done].
  run. reflexivity.
Qed.


(** *** [AddJob] and [RemoveJob], step by step *)

Lemma AddJob_run (job : Job.t) (st : State) :
  (AddJob job st).2 =
    let st2 := (removeJobReminders (Job.ID job) (unregistered (Job.ID job) st)).2 in
    if Job.Enabled job && cron_valid (Job.Schedule job)
    then foldl (scheduled job) (triggered job st2) (Job.Reminders job)
    else st2.
Proof.
  cbv zeta. unfold AddJob. run.
  assert (((match jobs st !! Job.ID job with
            | Some entryID =>
                cron_Remove entryID ;;
                modify (λ st0, with_jobs (delete (Job.ID job) (jobs st0)) st0)
            | None => mret ()
            end) st).2 = unregistered (Job.ID job) st) as ->.
  { unfold unregistered, cron_Remove.
    destruct (jobs st !! Job.ID job); [|done]. run. reflexivity. }
  set (st2 := (removeJobReminders _ _).2).
  destruct (Job.Enabled job); cbn [negb andb]; [|done].
  unfold cron_AddFunc. destruct (cron_valid (Job.Schedule job)); [|by run].
  run. rewrite for_each_foldl. cbn [fst snd].
  unfold triggered. cbn [jobs with_cron cron_nextID].
  generalize (with_jobs (<[Job.ID job:=cron_nextID st2 + 1]> (jobs st2))
                (with_cron (<[cron_nextID st2 + 1:=job]> (cron_entries st2))
                   (cron_nextID st2 + 1) st2)).
  induction (Job.Reminders job) as [|r rs IH]; intros s; [done |].
  cbn [foldl]. rewrite IH. unfold scheduled at 2. by rewrite bind_run.
Qed.

Lemma RemoveJob_run (jobID : string) (st : State) :
  (RemoveJob jobID st).2 =
    (removeJobReminders jobID
       (match jobs st !! jobID with
        | Some _ => with_outputs (delete jobID (outputs st)) (unregistered jobID st)
        | None => st
        end)).2.
Proof.
  unfold RemoveJob. run. f_equal. f_equal.
  unfold unregistered, cron_Remove.
  destruct (jobs st !! jobID); [|done]. run. reflexivity.
Qed.

(** *** The registries stay in order *)

Lemma registered_unregistered (jobID : string) (st : State) :
  registered st →
  registered (unregistered jobID st) ∧
  (∀ e job, cron_entries (unregistered jobID st) !! e = Some job →
            Job.ID job ≠ jobID ∧ cron_entries st !! e = Some job) ∧
  (∀ e, jobs st !! jobID = Some e → cron_entries (unregistered jobID st) !! e = None).
Proof.
  intros [H1 H2 H5 H3 H4]. unfold unregistered.
  destruct (jobs st !! jobID) as [entryID|] eqn:Hj.
  - assert (∀ e job, delete entryID (cron_entries st) !! e = Some job →
                     Job.ID job ≠ jobID ∧ cron_entries st !! e = Some job) as Hid.
    { intros e job [Hne Hlook]%lookup_delete_Some. split; [|done].
      intros Heq. apply Hne. apply H1 in Hlook. congruence. }
    split; [split; cbn|split; cbn].
    + intros e job Hlook. destruct (Hid _ _ Hlook) as [Hne Hlook'].
      rewrite lookup_delete_ne by done. by apply H1.
    + intros e job Hlook. destruct (Hid _ _ Hlook) as [_ Hlook']. by eapply H2.
    + intros jobID' e [_ Hlook]%lookup_delete_Some. by eapply H5.
    + done.
    + done.
    + exact Hid.
    + intros e [= <-]. apply lookup_delete_eq.
  - split; [done |]. split; [|done].
    intros e job Hlook. split; [|done]. intros Heq.
    apply H1 in Hlook. congruence.
Qed.

Lemma registered_removeJobReminders (jobID : string) (st : State) :
  registered st →
  registered (removeJobReminders jobID st).2 ∧
  (∀ t timer, timers (removeJobReminders jobID st).2 !! t = Some timer →
              HasPrefix (key_of timer) (jobID +:+ "_") = false ∧
              timers st !! t = Some timer).
Proof.
  intros [H1 H2 H5 H3 H4].
  pose proof (removeJobReminders_spec jobID st) as Hs. cbv zeta in Hs.
  destruct Hs as (Hrem & Htim & He & Hn & Hj & _ & _ & Htn & _).
  assert (∀ t timer, timers (removeJobReminders jobID st).2 !! t = Some timer →
              HasPrefix (key_of timer) (jobID +:+ "_") = false ∧
              timers st !! t = Some timer) as Hkept.
  { intros t timer [Hlook Hall]%Htim. split; [|done].
    apply Hall. by apply H3. }
  split; [|exact Hkept].
  split; rewrite ?He, ?Hn, ?Hj, ?Htn; [done | done | done | |].
  - intros t timer Hlook. destruct (Hkept _ _ Hlook) as [Hpre Hlook'].
    rewrite Hrem, Hpre. by apply H3.
  - intros t timer Hlook. destruct (Hkept _ _ Hlook) as [_ Hlook']. by eapply H4.
Qed.

Lemma registered_triggered (job : Job.t) (st : State) :
  registered st →
  (∀ e job', cron_entries st !! e = Some job' → Job.ID job' ≠ Job.ID job) →
  registered (triggered job st).
Proof.
  intros [H1 H2 H5 H3 H4] Hfree. unfold triggered. split; cbn.
  - intros e job' [[<- <-]|[Hne Hlook]]%lookup_insert_Some.
    + apply lookup_insert_eq.
    + rewrite lookup_insert_ne; [by apply H1 | by eapply not_eq_sym, Hfree].
  - intros e job' [[<- <-]|[Hne Hlook]]%lookup_insert_Some; [lia |].
    apply H2 in Hlook. lia.
  - intros jobID e [[<- <-]|[Hne Hlook]]%lookup_insert_Some; [lia |].
    apply H5 in Hlook. lia.
  - done.
  - done.
Qed.

(** The loop of [AddJob] over reminders with distinct ids, none of them
    in [seen], from a state whose pending timers with a key of this job
    all belong to reminders in [seen]. *)
Lemma registered_scheduled (job : Job.t) (rs : list Rem.t) (seen : list string)
    (st : State) :
  NoDup (Rem.ID <$> rs) →
  (∀ r, r ∈ rs → Rem.ID r ∉ seen) →
  registered st →
  (∀ t timer, timers st !! t = Some timer →
              HasPrefix (key_of timer) (Job.ID job +:+ "_") = true →
              ∃ rid, rid ∈ seen ∧ key_of timer = Job.ID job +:+ "_" +:+ rid) →
  let st' := foldl (scheduled job) st rs in
  registered st' ∧
  cron_entries st' = cron_entries st ∧ cron_nextID st' = cron_nextID st ∧
  jobs st' = jobs st ∧
  (∀ t timer, timers st' !! t = Some timer → (t < timer_next st)%positive →
              timers st !! t = Some timer).
Proof.
  cbv zeta. revert seen st.
  induction rs as [|r rs IH]; intros seen st Hnd Hseen Hreg Hown; [done |].
  cbn [foldl]. rewrite fmap_cons in Hnd. apply NoDup_cons in Hnd as [Hr Hnd].
  set (now := (time_Now (world st)).1).
  assert (∃ st1, scheduled job st r = st1 ∧
            registered st1 ∧
            cron_entries st1 = cron_entries st ∧ cron_nextID st1 = cron_nextID st ∧
            jobs st1 = jobs st ∧
            (timer_next st ≤ timer_next st1)%positive ∧
            (∀ t timer, timers st1 !! t = Some timer → (t < timer_next st)%positive →
                        timers st !! t = Some timer) ∧
            (∀ t timer, timers st1 !! t = Some timer →
               HasPrefix (key_of timer) (Job.ID job +:+ "_") = true →
               ∃ rid, rid ∈ Rem.ID r :: seen ∧
                      key_of timer = Job.ID job +:+ "_" +:+ rid))
    as (st1 & -> & Hreg1 & He1 & Hn1 & Hj1 & Hle1 & Hold1 & Hown1).
  { eexists. split; [reflexivity |]. unfold scheduled.
    destruct (decide (Rem.Datetime r < now)) as [Hpast|Hdue].
    - rewrite scheduleReminder_past by done. cbn [snd].
      destruct Hreg as [H1 H2 H5 H3 H4].
      split; [by split |]. do 4 (split; [done || (cbn; lia) |]).
      split; [done |]. intros t timer Hlook Hpre.
      destruct (Hown _ _ Hlook Hpre) as (rid & Hin & Hkey).
      exists rid. split; [by right | done].
    - rewrite scheduleReminder_due by lia. cbn [snd].
      destruct Hreg as [H1 H2 H5 H3 H4].
      assert (timers st !! timer_next st = None) as Hfresh.
      { destruct (timers st !! timer_next st) as [timer|] eqn:E; [|done].
        apply H4 in E. lia. }
      split; [split; cbn; [done | done | done | |] |].
      + intros t timer [[<- <-]|[Hne Hlook]]%lookup_insert_Some.
        * apply lookup_insert_eq.
        * rewrite lookup_insert_ne; [by apply H3 |].
          intros Hkey.
          change (Job.ID job +:+ "_" +:+ Rem.ID r = key_of timer) in Hkey.
          symmetry in Hkey.
          destruct (Hown _ _ Hlook) as (rid & Hin & Hkey').
          { rewrite Hkey. apply key_has_prefix. }
          rewrite Hkey' in Hkey. apply key_inj in Hkey. subst rid.
          apply (Hseen r); [by left | done].
      + intros t timer [[<- <-]|[Hne Hlook]]%lookup_insert_Some; [lia |].
        apply H4 in Hlook. lia.
      + cbn. do 3 (split; [done |]). split; [lia |]. split.
        * intros t timer [[<- <-]|[Hne Hlook]]%lookup_insert_Some; [lia | done].
        * intros t timer [[<- <-]|[Hne Hlook]]%lookup_insert_Some Hpre.
          -- exists (Rem.ID r). split; [by left | done].
          -- destruct (Hown _ _ Hlook Hpre) as (rid & Hin & Hkey).
             exists rid. split; [by right | done]. }
  destruct (IH (Rem.ID r :: seen) st1) as (Hreg' & He' & Hn' & Hj' & Hold');
    [done | | done | done |].
  { intros r' Hin [Heq|Hin']%elem_of_cons.
    - apply Hr. rewrite <-Heq. by apply list_elem_of_fmap_2.
    - apply (Hseen r'); [by right | done]. }
  split; [done |]. rewrite He', Hn', Hj', He1, Hn1, Hj1.
  do 3 (split; [done |]). intros t timer Hlook Hlt.
  apply Hold1; [|done]. apply Hold'; [done | lia].
Qed.

Lemma registered_AddJob (job : Job.t) (st : State) :
  distinct_reminders job → registered st → registered (AddJob job st).2.
Proof.
  intros Hnd Hreg. rewrite AddJob_run. cbv zeta.
  destruct (registered_unregistered (Job.ID job) st Hreg) as (Hreg1 & Hfree & _).
  destruct (registered_removeJobReminders (Job.ID job) _ Hreg1) as [Hreg2 Hkept].
  pose proof (removeJobReminders_spec (Job.ID job) (unregistered (Job.ID job) st))
    as Hs. cbv zeta in Hs. destruct Hs as (_ & _ & He & _).
  set (st2 := (removeJobReminders _ _).2) in *.
  destruct (Job.Enabled job && cron_valid (Job.Schedule job)); [|done].
  destruct (registered_scheduled job (Job.Reminders job) [] (triggered job st2))
    as [Hreg' _]; [done | | | | done].
  - intros r _ Hin. by apply elem_of_nil in Hin.
  - apply registered_triggered; [done |].
    intros e job' Hlook. rewrite He in Hlook. by apply Hfree in Hlook as [? _].
  - intros t timer Hlook Hpre. apply Hkept in Hlook as [Hno _]. congruence.
Qed.




(** *** What a re-added job replaces *)

Lemma foldl_scheduled_frame (job : Job.t) (rs : list Rem.t) (st : State) :
  let st' := foldl (scheduled job) st rs in
  cron_entries st' = cron_entries st ∧ cron_nextID st' = cron_nextID st ∧
  jobs st' = jobs st ∧ outputs st' = outputs st ∧
  (timer_next st ≤ timer_next st')%positive ∧
  (∀ t, (t < timer_next st)%positive → timers st' !! t = timers st !! t).
Proof.
  cbv zeta. revert st. induction rs as [|r rs IH]; intros st.
  { repeat split; (done || lia). }
  cbn [foldl].
  destruct (IH (scheduled job st r)) as (-> & -> & -> & -> & Hle & Hold).
  unfold scheduled in *.
  destruct (decide (Rem.Datetime r < (time_Now (world st)).1)) as [Hpast|Hdue].
  - rewrite scheduleReminder_past in * by done. cbn [snd] in *.
    do 4 (split; [done |]). split; [exact Hle |].
    intros t Hlt. by rewrite Hold.
  - rewrite scheduleReminder_due in * by lia. cbn in *.
    do 4 (split; [done |]). split; [lia |].
    intros t Hlt. rewrite Hold by lia. apply lookup_insert_ne. lia.
Qed.

(** [AddJob] takes away the trigger registered for the job id and the
    pending timers of that job before it installs new ones. *)
Lemma AddJob_replaces (job : Job.t) (st : State) :
  registered st →
  (∀ e, jobs st !! Job.ID job = Some e → cron_entries (AddJob job st).2 !! e = None) ∧
  (∀ t timer, timers st !! t = Some timer →
              Job.ID (timer_job timer) = Job.ID job →
              timers (AddJob job st).2 !! t = None).
Proof.
  intros Hreg. rewrite AddJob_run. cbv zeta.
  destruct (registered_unregistered (Job.ID job) st Hreg) as (Hreg1 & _ & Hgone).
  pose proof (removeJobReminders_spec (Job.ID job) (unregistered (Job.ID job) st))
    as Hs. cbv zeta in Hs.
  destruct Hs as (_ & Htim & He & Hn & _ & _ & _ & Htn & _).
  set (st2 := (removeJobReminders _ _).2) in *.
  assert (cron_nextID (unregistered (Job.ID job) st) = cron_nextID st ∧
          timers (unregistered (Job.ID job) st) = timers st ∧
          reminders (unregistered (Job.ID job) st) = reminders st ∧
          timer_next (unregistered (Job.ID job) st) = timer_next st)
    as (Hn1 & Ht1 & Hr1 & Htn1).
  { unfold unregistered. by destruct (jobs st !! Job.ID job). }
  assert (∀ e, jobs st !! Job.ID job = Some e → cron_entries st2 !! e = None)
    as Hgone2.
  { intros e Hj. rewrite He. by apply Hgone. }
  assert (∀ t timer, timers st !! t = Some timer →
                     Job.ID (timer_job timer) = Job.ID job →
                     timers st2 !! t = None) as Hstopped.
  { intros t timer Hlook Hid.
    destruct (timers st2 !! t) as [timer'|] eqn:E; [|done]. exfalso.
    apply Htim in E as [_ Hall]. rewrite Hr1 in Hall.
    specialize (Hall (key_of timer) (timers_registered _ Hreg _ _ Hlook)).
    unfold key_of in Hall. rewrite Hid, key_has_prefix in Hall. done. }
  destruct (Job.Enabled job && cron_valid (Job.Schedule job)); [|done].
  pose proof (foldl_scheduled_frame job (Job.Reminders job) (triggered job st2))
    as Hf. cbv zeta in Hf. destruct Hf as (-> & _ & _ & _ & _ & Hold).
  split.
  - intros e Hj. unfold triggered. cbn.
    rewrite lookup_insert_ne; [by apply Hgone2 |].
    apply (jobs_below _ Hreg) in Hj. lia.
  - intros t timer Hlook Hid. rewrite Hold.
    + by eapply Hstopped.
    + cbn. rewrite Htn, Htn1. by eapply timers_below.
Qed.


(** Removing a job leaves the triggers registered for other ids and the
    outputs cached for other ids, and the timers registered under keys
    that do not start with its id and the separator. *)
Lemma RemoveJob_frame (jobID : string) (st : State) :
  (∀ other, other ≠ jobID →
            jobs (RemoveJob jobID st).2 !! other = jobs st !! other ∧
            outputs (RemoveJob jobID st).2 !! other = outputs st !! other) ∧
  (∀ k, HasPrefix k (jobID +:+ "_") = false →
        reminders (RemoveJob jobID st).2 !! k = reminders st !! k).
Proof.
  rewrite RemoveJob_run.
  set (st1 := match jobs st !! jobID with Some _ => _ | None => st end).
  pose proof (removeJobReminders_spec jobID st1) as Hs. cbv zeta in Hs.
  destruct Hs as (Hrem & _ & _ & _ & -> & -> & _).
  assert (reminders st1 = reminders st) as Hr1.
  { unfold st1, unregistered. by destruct (jobs st !! jobID). }
  split.
  - intros other Hne. unfold st1, unregistered.
    destruct (jobs st !! jobID); [|done]. cbn.
    by rewrite !lookup_delete_ne.
  - intros k Hk. by rewrite Hrem, Hk, Hr1.
Qed.
End Registry.


(** C10 at the failing input: with jobs [a] and [a_b], each with a pending
    reminder [r], removing [a] also stops and unregisters the timer of
    [a_b], whose key [a_b_r] starts with [a_]; the trigger of [a_b]
    stays. *)
Lemma RemoveJob_prefix_stops_other_job :
  let st := (AddJob job_a_b (AddJob job_a (fresh 0 [])).2).2 in
  let st' := (RemoveJob "a" st).2 in
  Job.ID job_a = "a" ∧ Job.ID job_a_b = "a_b" ∧
  reminders st !! "a_b_r" = Some 2%positive ∧
  timers st !! 2%positive = Some (mkTimer 600 job_a_b (Rem.mk "r" "call back" 600)) ∧
  reminders st' !! "a_b_r" = None ∧
  timers st' !! 2%positive = None ∧
  jobs st' !! "a_b" = Some 2 ∧
  cron_entries st' !! 2 = Some job_a_b.
Proof. cbv zeta. repeat split; reflexivity. Qed.

(** ** The properties on the scenarios *)


(** The placeholder [{{x}}] has no variable and stays, between the renderings of what is before and after it. *)
Lemma processTemplate_keeps_unknown_placeholders_witness :
  let variables : gmap string value := {[ "name" := VString "Bob" ]} in
  let order := [("name", VString "Bob")] in
  (processTemplate_in (RT := Fake.runtime) order "Hi {{name}}, {{x}}!" variables).1
  = (processTemplate_in (RT := Fake.runtime) order "Hi {{name}}, " variables).1
    +:+ placeholder_of "x"
    +:+ (processTemplate_in (RT := Fake.runtime) order "!" variables).1 ∧
  (processTemplate_in (RT := Fake.runtime) order "Hi {{name}}, {{x}}!" variables).1
  = foldl (render_step (RT := Fake.runtime))
          (ReplaceAll "Hi {{name}}, {{x}}!" "{{REMINDER}}" "") order.
Proof.
  cbv zeta.
  destruct (processTemplate_keeps_unknown_placeholders (RT := Fake.runtime)
              [("name", VString "Bob")] "Hi {{name}}, {{x}}!"
              {[ "name" := VString "Bob" ]}) as (_ & Hrem & Hkeep & _).
  split.
  - apply (Hkeep "x" "Hi {{name}}, " "!");
      first [ reflexivity | discriminate
            | intros k [v Hk]; apply lookup_singleton_Some in Hk as [<- _];
              reflexivity ].
  - apply Hrem. reflexivity.
Defined.

(** An integer is inserted as [json.Marshal] prints it, a NaN as [%v] prints it, a string with its quote and newline escaped. *)
Lemma processTemplate_inserts_escaped_witness :
  inserted (RT := Fake.runtime) (VNumber (NInt 42)) = "42" ∧
  inserted (RT := Fake.runtime) (VNumber NNaN) = "NaN" ∧
  inserted (RT := Fake.runtime) (VString ("a" +:+ DQ +:+ "b" +:+ LF))
  = "a" +:+ BSL +:+ DQ +:+ "b" +:+ BSL +:+ "n".
Proof.
  destruct (processTemplate_inserts_escaped (RT := Fake.runtime) [] "" ∅)
    as (_ & Hstr & Hother).
  destruct (Hother (VNumber (NInt 42))) as [Hint _]; [discriminate |].
  destruct (Hother (VNumber NNaN)) as [_ Hnan]; [discriminate |].
  split; [exact (Hint "42" eq_refl) |].
  split; [exact (Hnan eq_refl) |].
  rewrite Hstr. reflexivity.
Defined.



(** ** The repository *)

Section Repository.
Implicit Types (Jobs : list Job.t) (job : Job.t) (id : string).

Lemma str_eqb_refl (s : string) : (s =? s)%string = true.
Proof. by apply str_eqb_eq. Qed.

Lemma str_eqb_neq (s t : string) : s ≠ t → (s =? t)%string = false.
Proof.
  intros Hne. destruct (s =? t)%string eqn:E; [|done].
  by apply str_eqb_eq in E.
Qed.

(** X1. After [Config.AddJob(job)], [GetJob] gives [job] for its id and
    what it gave before for every other id. *)
Theorem GetJob_ConfigAddJob Jobs job id :
  GetJob (ConfigAddJob Jobs job) id
  = if (Job.ID job =? id)%string then Some job else GetJob Jobs id.
Proof.
  induction Jobs as [|existing rest IH]; cbn [ConfigAddJob GetJob].
  - by destruct (Job.ID job =? id)%string.
  - destruct (Job.ID existing =? Job.ID job)%string eqn:E; cbn [GetJob].
    + apply str_eqb_eq in E. rewrite E.
      by destruct (Job.ID job =? id)%string.
    + rewrite IH. destruct (Job.ID existing =? id)%string eqn:E'; [|done].
      apply str_eqb_eq in E'. subst id.
      destruct (Job.ID job =? Job.ID existing)%string eqn:E''; [|done].
      apply str_eqb_eq in E''. rewrite E'', str_eqb_refl in E. done.
Qed.

(** X2. [Config.AddJob] keeps the ids of the repository and their order
    when the id is already there (the job is replaced in place), and
    appends the job when it is not. *)
Theorem ConfigAddJob_ids Jobs job :
  (is_Some (GetJob Jobs (Job.ID job)) →
     Job.ID <$> ConfigAddJob Jobs job = Job.ID <$> Jobs) ∧
  (GetJob Jobs (Job.ID job) = None → ConfigAddJob Jobs job = Jobs ++ [job]).
Proof.
  induction Jobs as [|existing rest [IH1 IH2]]; cbn [ConfigAddJob GetJob].
  - split; [by intros [? ?] | done].
  - destruct (Job.ID existing =? Job.ID job)%string eqn:E.
    + split; [|done]. intros _. apply str_eqb_eq in E.
      change (Job.ID job :: (Job.ID <$> rest)
              = Job.ID existing :: (Job.ID <$> rest)). by rewrite E.
    + split.
      * intros H. cbn. f_equal. by apply IH1.
      * intros H. cbn. f_equal. by apply IH2.
Qed.

Lemma GetJob_None_ids Jobs id :
  GetJob Jobs id = None ↔ id ∉ Job.ID <$> Jobs.
Proof.
  induction Jobs as [|job rest IH]; cbn [GetJob].
  - split; [intros _ H; by apply elem_of_nil in H | done].
  - rewrite fmap_cons, not_elem_of_cons.
    destruct (Job.ID job =? id)%string eqn:E.
    + apply str_eqb_eq in E. split; [done | by intros [? _]].
    + rewrite IH. split; [|by intros [_ ?]]. intros H. split; [|done].
      intros ->. by rewrite str_eqb_refl in E.
Qed.

(** X3. [Config.DeleteJob(id)] fails with "not found", leaving the
    repository as it is, exactly when no job has the id. Otherwise it
    removes one job, the first with that id: the other ids are looked up
    as before, and when ids are unique the id is gone. *)
Theorem DeleteJob_spec Jobs id :
  (GetJob Jobs id = None →
     DeleteJob Jobs id = (Jobs, Some (ErrJobNotFound id))) ∧
  (is_Some (GetJob Jobs id) →
     (DeleteJob Jobs id).2 = None ∧
     S (length (DeleteJob Jobs id).1) = length Jobs ∧
     (NoDup (Job.ID <$> Jobs) → GetJob (DeleteJob Jobs id).1 id = None)) ∧
  (∀ other, other ≠ id → GetJob (DeleteJob Jobs id).1 other = GetJob Jobs other).
Proof.
  induction Jobs as [|job rest (IH1 & IH2 & IH3)]; cbn [DeleteJob GetJob].
  - split; [done |]. split; [by intros [? ?] | done].
  - destruct (Job.ID job =? id)%string eqn:E.
    + apply str_eqb_eq in E. split; [done |]. split.
      * intros _. cbn [fst snd length]. split; [done |]. split; [done |].
        rewrite fmap_cons. intros [Hnotin _]%NoDup_cons.
        apply GetJob_None_ids. by rewrite <-E.
      * intros other Hne. cbn. rewrite str_eqb_neq; [done | congruence].
    + destruct (DeleteJob rest id) as [rest' err] eqn:Hd. cbn [fst snd] in *.
      split; [|split].
      * intros Hnone. by injection (IH1 Hnone) as -> ->.
      * intros Hsome. destruct (IH2 Hsome) as (-> & Hlen & Hgone).
        split; [done |]. split; [cbn [length]; by rewrite Hlen |].
        rewrite fmap_cons. intros [_ Hnd]%NoDup_cons. cbn [GetJob].
        rewrite E. by apply Hgone.
      * intros other Hne. cbn [GetJob]. by rewrite IH3.
Qed.

(** X4. [Config.DeleteReminder] fails, leaving the repository as it is,
    with "job not found" when no job has the id and with "reminder not
    found" when the first job with the id has no reminder with that id;
    in every case the jobs with other ids are looked up as before. *)
Theorem DeleteReminder_errors Jobs (jobID reminderID : string) :
  (GetJob Jobs jobID = None →
     DeleteReminder Jobs jobID reminderID = (Jobs, Some (ErrJobNotFound jobID))) ∧
  (∀ owner, GetJob Jobs jobID = Some owner →
     (∀ r, r ∈ Job.Reminders owner → Rem.ID r ≠ reminderID) →
     DeleteReminder Jobs jobID reminderID
     = (Jobs, Some (ErrReminderNotFound reminderID jobID))) ∧
  (∀ other, other ≠ jobID →
     GetJob (DeleteReminder Jobs jobID reminderID).1 other = GetJob Jobs other).
Proof.
  induction Jobs as [|job rest (IH1 & IH2 & IH3)]; cbn [DeleteReminder GetJob].
  - repeat split; done.
  - destruct (Job.ID job =? jobID)%string eqn:E.
    + rewrite drop_reminder_foldl. cbn [fst snd orb app].
      split; [done |]. split.
      * intros owner [= <-] Hnone.
        assert (existsb (λ r, (Rem.ID r =? reminderID)%string) (Job.Reminders job)
                = false) as ->; [|done].
        apply not_true_is_false. intros (r & Hin & Hid)%existsb_exists.
        apply str_eqb_eq in Hid. apply (Hnone r); [|done].
        by apply list_elem_of_In.
      * intros other Hne. apply str_eqb_eq in E.
        destruct (existsb _ _); cbn [negb fst GetJob];
          change (Job.ID (Job.with_Reminders job _)) with (Job.ID job);
          rewrite ?str_eqb_neq by congruence; done.
    + destruct (DeleteReminder rest jobID reminderID) as [rest' err] eqn:Hd.
      cbn [fst snd] in *. split; [|split].
      * intros Hnone. by injection (IH1 Hnone) as -> ->.
      * intros owner Hget Hnone. by injection (IH2 owner Hget Hnone) as -> ->.
      * intros other Hne. cbn [GetJob]. by rewrite IH3.
Qed.
End Repository.

(** ** More on webhook calls and job firings *)

Section Firings.
Context `{RT : Runtime}.

(** X5. [executeWebhook] succeeds exactly when a response arrived with a
    status below 400, and then returns its body as it is; on every
    failure the string it returns is empty. *)
Theorem executeWebhook_success_iff (webhook : Webhook.t) (st : State)
    (body : string) :
  ((executeWebhook webhook st).1 = (body, None) ↔
   ∃ StatusCode,
     (http_exchange webhook (world st)).1 = Response StatusCode body ∧
     StatusCode < 400) ∧
  (∀ e, (executeWebhook webhook st).1.2 = Some e →
        (executeWebhook webhook st).1.1 = "").
Proof.
  rewrite executeWebhook_run. cbn [fst snd]. split.
  - destruct (http_exchange webhook (world st)).1 as [| | |code b];
      cbn [classify]; try (split; [done | by intros (? & ? & ?)]).
    destruct (400 <=? code) eqn:E.
    + split; [done |]. intros (code' & [= -> ->] & Hlt). lia.
    + split.
      * intros [= ->]. exists code. split; [done | lia].
      * by intros (code' & [= -> ->] & Hlt).
  - intros e. apply classify_error_empty.
Qed.

(** A firing, as a whole: the cache gets the output of a primary call
    that succeeded, when [saveOutput] is set and the output is not
    empty; apart from that, only the world and the trace change. *)
Lemma executeJob_shape (job : Job.t) (st : State) :
  ∃ evs,
    ran (with_outputs
           (match (executeWebhook (Job.Primary job) st).1 with
            | (output, None) => saved job output st
            | (_, Some _) => outputs st
            end) st)
        (executeJob job st).2 (EvWebhook (Job.Primary job) :: evs).
Proof.
  unfold executeJob. rewrite bind_run.
  pose proof (executeWebhook_ran (Job.Primary job) st) as Hran1.
  destruct (executeWebhook (Job.Primary job) st) as [[output [e|]] st1];
    cbn [fst snd] in *.
  { exists []. rewrite Hran1. unfold ran. by destruct st. }
  rewrite bind_run.
  set (st2 := ((if Job.SaveOutput job && nonempty output
                then modify (λ st0 : State,
                       with_outputs (<[Job.ID job:=output]> (outputs st0)) st0)
                else mret ()) st1).2).
  assert (ran (with_outputs (saved job output st) st) st2
              [EvWebhook (Job.Primary job)]) as Hs2.
  { unfold st2, saved. rewrite Hran1. unfold ran.
    destruct (Job.SaveOutput job && nonempty output); by destruct st. }
  clearbody st2. cbn beta.
  match goal with
  | |- ∃ evs, ran _ (?m st2).2 _ => assert (quiet m) as Hq
  end.
  { destruct (Job.Secondary job) as [jobSecondary|]; [|apply quiet_ret].
    destruct (negb (Webhook.Enabled jobSecondary)); [apply quiet_ret |].
    destruct (Job.SaveOutput job).
    - apply quiet_bind; [intros s; exists []; apply ran_nil |].
      intros data. destruct (nonempty data); [|apply quiet_ret].
      apply quiet_bind; [apply quiet_extracted_variables |]. intros variables.
      apply quiet_bind.
      + destruct (nonempty (Webhook.BodyTemplate jobSecondary)); [|apply quiet_ret].
        apply quiet_bind; [apply quiet_processTemplate |].
        intros [? ?]. apply quiet_ret.
      + intros secondary. apply quiet_bind; [apply quiet_executeWebhook |].
        intros ?. apply quiet_ret.
    - apply quiet_bind; [apply quiet_executeWebhook |]. intros ?. apply quiet_ret. }
  destruct (Hq st2) as [evs Hran3]. exists evs.
  exact (ran_trans _ _ _ [EvWebhook (Job.Primary job)] evs Hs2 Hran3).
Qed.

(** X6. A firing never changes the triggers, the timers or the
    repository, and in the output cache it can only write the entry of
    its own job. *)
Theorem executeJob_frame (job : Job.t) (st : State) :
  same_registry st (executeJob job st).2 ∧
  config_Jobs (executeJob job st).2 = config_Jobs st ∧
  (∀ other, other ≠ Job.ID job →
            outputs (executeJob job st).2 !! other = outputs st !! other).
Proof.
  split; [apply executeJob_same_registry |].
  destruct (executeJob_shape job st) as [evs Hran].
  split; [by rewrite Hran |]. intros other Hne.
  rewrite (ran_outputs _ _ _ Hran). cbn [outputs with_outputs].
  destruct (executeWebhook (Job.Primary job) st).1 as [output [e|]]; [done |].
  unfold saved. destruct (Job.SaveOutput job && nonempty output); [|done].
  by rewrite lookup_insert_ne.
Qed.

(** X7. After a primary call that succeeded, the firing makes no other
    call when the job has no secondary webhook, when the secondary is
    disabled, or when [saveOutput] is set and the cache holds nothing
    for the job. *)
Theorem executeJob_secondary_skipped (job : Job.t) (st : State) (output : string) :
  (executeWebhook (Job.Primary job) st).1 = (output, None) →
  (Job.Secondary job = None ∨
   ∃ secondary, Job.Secondary job = Some secondary ∧
     (Webhook.Enabled secondary = false ∨
      (Job.SaveOutput job = true ∧
       default "" (saved job output st !! Job.ID job) = ""))) →
  trace (executeJob job st).2 = trace st ++ [EvWebhook (Job.Primary job)] ∧
  outputs (executeJob job st).2 = saved job output st.
Proof.
  intros Hprim Hskip.
  pose proof (executeWebhook_ran (Job.Primary job) st) as Hran1.
  unfold executeJob. rewrite bind_run, Hprim. cbn beta iota. rewrite bind_run.
  set (st1 := (executeWebhook (Job.Primary job) st).2) in *.
  set (st2 := ((if Job.SaveOutput job && nonempty output
                then modify (λ st0 : State,
                       with_outputs (<[Job.ID job:=output]> (outputs st0)) st0)
                else mret ()) st1).2).
  assert (outputs st2 = saved job output st ∧
          trace st2 = trace st ++ [EvWebhook (Job.Primary job)]) as [Ho Ht].
  { unfold st2, saved.
    destruct (Job.SaveOutput job && nonempty output); cbn;
      by rewrite ?(ran_outputs _ _ _ Hran1), (ran_trace _ _ _ Hran1). }
  clearbody st2. cbn beta.
  destruct Hskip as [-> | (secondary & -> & [-> | [-> Hempty]])]; [done | done |].
  destruct (negb (Webhook.Enabled secondary)); [done |]. run.
  rewrite Ho, Hempty. done.
Qed.

(** X8. An empty answer of the primary does not clear the cache: with
    [saveOutput] and an enabled secondary, the output cached by an
    earlier firing stays and is what the secondary call is built
    from. *)
Theorem executeJob_empty_response_reuses_cache (job : Job.t)
    (secondary : Webhook.t) (st : State) (data : string) :
  Job.SaveOutput job = true →
  Job.Secondary job = Some secondary →
  Webhook.Enabled secondary = true →
  (executeWebhook (Job.Primary job) st).1 = ("", None) →
  outputs st !! Job.ID job = Some data →
  data ≠ "" →
  outputs (executeJob job st).2 = outputs st ∧
  ∃ order,
    order ≡ₚ map_to_list (chained_variables data (Webhook.JQSelectors secondary)) ∧
    webhooks_of (drop (length (trace st)) (trace (executeJob job st).2))
    = [Job.Primary job;
       Webhook.with_Body secondary
         (if nonempty (Webhook.BodyTemplate secondary)
          then render order (Webhook.BodyTemplate secondary)
                      (chained_variables data (Webhook.JQSelectors secondary))
          else data)].
Proof.
  intros Hsave Hsec Hen Hprim Hdata Hne.
  assert (saved job "" st = outputs st) as Hsaved.
  { unfold saved. by rewrite andb_false_r. }
  destruct (executeJob_chained job secondary st "" data Hsave Hsec Hen Hprim)
    as (order & body & Hperm & -> & Ho & Ht); [by rewrite Hsaved | done |].
  rewrite Hsaved in Ho. split; [done |]. exists order. split; [done |].
  rewrite Ht, drop_app_length.
  destruct (bool_decide _), (nonempty (Webhook.BodyTemplate secondary)); done.
Qed.

(** X9. [extractVariables] with no selector returns no variable and no
    error without looking at the text, valid JSON or not; with selectors
    and a text that is not JSON it returns the parse error and no
    variable. In both cases it does not range over anything: the world
    is as it was. *)
Theorem extractVariables_edges (jsonData : string)
    (selectors : gmap string string) (st : State) :
  (selectors = ∅ →
     extractVariables jsonData selectors st
     = ((∅, None), with_trace (trace st ++ [EvExtract jsonData selectors]) st)) ∧
  (selectors ≠ ∅ → json_Unmarshal jsonData = None →
     extractVariables jsonData selectors st
     = ((∅, Some ErrParseJSON),
        with_trace (trace st ++ [EvExtract jsonData selectors]) st)).
Proof.
  unfold extractVariables. split.
  - intros ->. run. reflexivity.
  - intros Hne Hj. run. rewrite bool_decide_eq_false_2.
    + rewrite Hj. reflexivity.
    + intros Hsz. by apply map_size_empty_iff in Hsz.
Qed.
End Firings.

(** ** More on reminders that fire *)

Section ReminderCalls.
Context `{RT : Runtime}.

Lemma webhooks_of_app (evs1 evs2 : list event) :
  webhooks_of (evs1 ++ evs2) = webhooks_of evs1 ++ webhooks_of evs2.
Proof.
  induction evs1 as [|[] evs1 IH]; cbn [webhooks_of app]; by rewrite ?IH.
Qed.

Lemma saves_of_app (evs1 evs2 : list event) :
  saves_of (evs1 ++ evs2) = saves_of evs1 ++ saves_of evs2.
Proof.
  induction evs1 as [|[] evs1 IH]; cbn [saves_of app]; by rewrite ?IH.
Qed.

(** Rendering with the reminder text as the only variable. *)
Lemma processTemplate_reminder_only (body text : string) (st : State) :
  (processTemplate body {[ "REMINDER" := VString text ]} st).1
  = (ReplaceAll body "{{REMINDER}}" (json_escaped text), None).
Proof.
  destruct (processTemplate_run body {[ "REMINDER" := VString text ]} st)
    as (order & Hperm & -> & _).
  rewrite map_to_list_singleton in Hperm.
  apply Permutation_singleton_r in Hperm as ->.
  unfold render. rewrite lookup_singleton_eq. cbn [foldl].
  unfold render_step. cbn [fst]. rewrite str_eqb_refl.
  unfold inserted. by rewrite escape_json_escaped.
Qed.

(** The first step of [executeReminder]. *)
Lemma reminder_primary_run (job : Job.t) (reminder : Rem.t) (st : State) :
  let m : M Webhook.t :=
    if nonempty (Webhook.Body (Job.Primary job)) then
      '(processedBody, err) ←
        processTemplate (Webhook.Body (Job.Primary job))
                        {[ "REMINDER" := VString (Rem.Text reminder) ]};
      mret (match err with
            | Some _ => Job.Primary job
            | None => Webhook.with_Body (Job.Primary job) processedBody
            end)
    else mret (Job.Primary job) in
  (m st).1 = reminder_primary job reminder ∧
  ∃ evs, ran st (m st).2 evs ∧ webhooks_of evs = [] ∧ saves_of evs = [].
Proof.
  cbv zeta. unfold reminder_primary.
  destruct (nonempty (Webhook.Body (Job.Primary job))).
  - rewrite bind_run.
    pose proof (processTemplate_reminder_only (Webhook.Body (Job.Primary job))
                  (Rem.Text reminder) st) as Hres.
    destruct (processTemplate_run (Webhook.Body (Job.Primary job))
                {[ "REMINDER" := VString (Rem.Text reminder) ]} st)
      as (_ & _ & _ & Hran).
    rewrite Hres. cbn. split; [done |]. eexists. split; [exact Hran | done].
  - split; [done |]. exists []. split; [apply ran_nil | done].
Qed.

Lemma reminder_secondary_body_run (secondaryWebhook : Webhook.t)
    (variables : gmap string value) (fallback : string) (st : State) :
  ∃ order evs,
    order ≡ₚ map_to_list variables ∧
    (reminder_secondary_body secondaryWebhook variables fallback st).1
    = Webhook.with_Body secondaryWebhook
        (if nonempty (Webhook.BodyTemplate secondaryWebhook)
         then render order (Webhook.BodyTemplate secondaryWebhook) variables
         else if nonempty (Webhook.Body secondaryWebhook)
         then render order (Webhook.Body secondaryWebhook) variables
         else fallback) ∧
    ran st (reminder_secondary_body secondaryWebhook variables fallback st).2 evs ∧
    webhooks_of evs = [] ∧ saves_of evs = [].
Proof.
  unfold reminder_secondary_body.
  destruct (nonempty (Webhook.BodyTemplate secondaryWebhook)).
  - destruct (processTemplate_run (Webhook.BodyTemplate secondaryWebhook)
                variables st) as (order & Hperm & Hres & Hran).
    exists order, [EvTemplate (Webhook.BodyTemplate secondaryWebhook) variables].
    rewrite bind_run, Hres. cbn. done.
  - destruct (nonempty (Webhook.Body secondaryWebhook)).
    + destruct (processTemplate_run (Webhook.Body secondaryWebhook)
                  variables st) as (order & Hperm & Hres & Hran).
      exists order, [EvTemplate (Webhook.Body secondaryWebhook) variables].
      rewrite bind_run, Hres. cbn. done.
    + exists (map_to_list variables), []. cbn.
      split; [done |]. split; [done |]. split; [apply ran_nil | done].
Qed.

(** The events of a reminder that fires: the rendering of the primary
    body, the primary call, what the secondary needs and its call, and
    the saving of the repository. *)
Lemma executeReminder_trace (job : Job.t) (reminder : Rem.t) (st : State) :
  ∃ st1 evs1 evs3 evs4,
    ran st st1 evs1 ∧ webhooks_of evs1 = [] ∧ webhooks_of evs4 = [] ∧
    (saves_of evs1 = [] ∧ saves_of evs3 = [] ∧
     ((DeleteReminder (config_Jobs st) (Job.ID job) (Rem.ID reminder)).2 ≠ None →
      evs4 = [])) ∧
    trace (executeReminder job reminder st).2
    = trace st ++ evs1 ++ [EvWebhook (reminder_primary job reminder)]
      ++ evs3 ++ evs4 ∧
    let response := (executeWebhook (reminder_primary job reminder) st1).1.1 in
    match Job.Secondary job with
    | Some secondary =>
        if Webhook.Enabled secondary then
          ∃ order,
            let variables :=
              reminder_secondary_variables (Rem.Text reminder) response
                (Webhook.JQSelectors secondary) in
            order ≡ₚ map_to_list variables ∧
            webhooks_of evs3
            = [Webhook.with_Body secondary
                 (reminder_secondary_text order secondary variables
                    (Rem.Text reminder) response)]
        else evs3 = []
    | None => evs3 = []
    end.
Proof.
  unfold executeReminder.
  pose proof (reminder_primary_run job reminder st) as H1. cbv zeta in H1.
  rewrite bind_run. destruct H1 as [-> (evs1 & Hran1 & Hw1 & Hs1)].
  match type of Hran1 with ran _ ?s _ => set (st1 := s) in * end.
  exists st1, evs1.
  rewrite bind_run.
  pose proof (executeWebhook_ran (reminder_primary job reminder) st1) as Hran2.
  destruct (executeWebhook (reminder_primary job reminder) st1)
    as [[response err] st2]. cbn [fst snd] in *.
  rewrite bind_run.
  match goal with
  | |- context [ reminder_cleanup job reminder (?m st2).2 ] => set (m3 := m)
  end.
  pose proof (reminder_cleanup_run job reminder (m3 st2).2) as Hc.
  cbv zeta in Hc. destruct Hc as (_ & _ & _ & _ & _ & _ & _ & _ & Htr).
  set (evs4 := match (DeleteReminder (config_Jobs (m3 st2).2) (Job.ID job)
                        (Rem.ID reminder)).2 with
               | Some _ => []
               | None => [EvSave _ _]
               end) in Htr.
  assert (webhooks_of evs4 = []) as Hw4.
  { unfold evs4. by destruct (DeleteReminder _ _ _).2. }
  assert (∀ evs3, ran st2 (m3 st2).2 evs3 →
            ((DeleteReminder (config_Jobs st) (Job.ID job) (Rem.ID reminder)).2
             ≠ None → evs4 = []) ∧
            trace (reminder_cleanup job reminder (m3 st2).2).2
            = trace st ++ evs1 ++ [EvWebhook (reminder_primary job reminder)]
              ++ evs3 ++ evs4) as Hall.
  { intros evs3 Hran3. split.
    - assert (config_Jobs (m3 st2).2 = config_Jobs st) as Hcfg.
      { pose proof (ran_trans _ _ _ _ _ Hran1 (ran_trans _ _ _ _ _ Hran2 Hran3))
          as Hran. by rewrite Hran. }
      unfold evs4. rewrite Hcfg.
      intros Hne.
      destruct (DeleteReminder (config_Jobs st) (Job.ID job) (Rem.ID reminder)).2;
        [reflexivity | by destruct Hne].
    - rewrite Htr, (ran_trace _ _ _ Hran3),
        (ran_trace _ _ _ Hran2), (ran_trace _ _ _ Hran1).
      by rewrite <-!app_assoc. }
  unfold m3 in *. clear m3.
  destruct (Job.Secondary job) as [secondary|].
  2:{ exists [], evs4. destruct (Hall [] (ran_nil _)) as [Hd Ht].
      do 3 (split; [done |]). split; [done |]. split; done. }
  destruct (Webhook.Enabled secondary).
  2:{ exists [], evs4. destruct (Hall [] (ran_nil _)) as [Hd Ht].
      do 3 (split; [done |]). split; [done |]. split; done. }
  unfold reminder_secondary_variables, reminder_secondary_text.
  destruct (nonempty response) eqn:Hresp.
  - match goal with
    | Hall : ∀ evs3, ran st2 (?m st2).2 evs3 → _ |- _ => set (m3 := m) in *
    end.
    destruct (extracted_variables_run response (Webhook.JQSelectors secondary) st2)
      as [Hvars Hran3].
    set (variables := reminder_variables (Rem.Text reminder) response
           (chained_variables response (Webhook.JQSelectors secondary))).
    destruct (reminder_secondary_body_run secondary variables response
                (extracted_variables response (Webhook.JQSelectors secondary) st2).2)
      as (order & evsb & Hperm & Hres & Hranb & Hwb & Hsb).
    assert (ran st2 (m3 st2).2
              ((if bool_decide (0 < size (Webhook.JQSelectors secondary))%nat
                then [EvExtract response (Webhook.JQSelectors secondary)]
                else []) ++ evsb ++
               [EvWebhook (Webhook.with_Body secondary
                  (if nonempty (Webhook.BodyTemplate secondary)
                   then render order (Webhook.BodyTemplate secondary) variables
                   else if nonempty (Webhook.Body secondary)
                   then render order (Webhook.Body secondary) variables
                   else response))])) as Hran.
    { unfold m3. rewrite !bind_run, Hvars. cbn zeta.
      fold (reminder_variables (Rem.Text reminder) response
              (chained_variables response (Webhook.JQSelectors secondary))).
      fold variables. rewrite Hres. cbn [fst snd].
      eapply ran_trans; [exact Hran3 |].
      eapply ran_trans; [exact Hranb | apply executeWebhook_ran]. }
    destruct (Hall _ Hran) as [Hd Ht].
    eexists _, evs4. do 3 (split; [done |]). split; [|split; [exact Ht |]].
    + split; [done |]. split; [|done].
      rewrite !saves_of_app, Hsb. by destruct (bool_decide _).
    + exists order. split; [done |].
      rewrite !webhooks_of_app, Hwb.
      by destruct (bool_decide _).
  - match goal with
    | Hall : ∀ evs3, ran st2 (?m st2).2 evs3 → _ |- _ => set (m3 := m) in *
    end.
    set (variables := <["REMINDER" := VString (Rem.Text reminder)]>
                        {[ "message" := VString (Rem.Text reminder) ]}
                      : gmap string value).
    destruct (reminder_secondary_body_run secondary variables
                (default_reminder_body (Rem.Text reminder)) st2)
      as (order & evsb & Hperm & Hres & Hranb & Hwb & Hsb).
    assert (ran st2 (m3 st2).2
              (evsb ++
               [EvWebhook (Webhook.with_Body secondary
                  (if nonempty (Webhook.BodyTemplate secondary)
                   then render order (Webhook.BodyTemplate secondary) variables
                   else if nonempty (Webhook.Body secondary)
                   then render order (Webhook.Body secondary) variables
                   else default_reminder_body (Rem.Text reminder)))])) as Hran.
    { unfold m3. rewrite !bind_run. fold variables. rewrite Hres.
      cbn [fst snd].
      eapply ran_trans; [exact Hranb | apply executeWebhook_ran]. }
    destruct (Hall _ Hran) as [Hd Ht].
    eexists _, evs4. do 3 (split; [done |]). split; [|split; [exact Ht |]].
    + split; [done |]. split; [|done]. by rewrite !saves_of_app, Hsb.
    + exists order. split; [done |].
      by rewrite !webhooks_of_app, Hwb.
Qed.

(** X10. A reminder that fires calls the primary webhook of its job, with
    [{{REMINDER}}] in the body replaced by the escaped text, and then,
    whatever the primary call gave, the secondary webhook when the job
    has one that is enabled; it makes no other call. *)
Theorem executeReminder_calls (job : Job.t) (reminder : Rem.t) (st : State) :
  let calls :=
    webhooks_of (drop (length (trace st))
                      (trace (executeReminder job reminder st).2)) in
  match Job.Secondary job with
  | Some secondary =>
      if Webhook.Enabled secondary
      then ∃ body, calls = [reminder_primary job reminder;
                            Webhook.with_Body secondary body]
      else calls = [reminder_primary job reminder]
  | None => calls = [reminder_primary job reminder]
  end.
Proof.
  destruct (executeReminder_trace job reminder st)
    as (st1 & evs1 & evs3 & evs4 & _ & Hw1 & Hw4 & _ & -> & Hsec).
  cbv zeta in *. rewrite drop_app_length, !webhooks_of_app, Hw1, Hw4.
  cbn [webhooks_of app].
  destruct (Job.Secondary job) as [secondary|]; [|by rewrite Hsec].
  destruct (Webhook.Enabled secondary); [|by rewrite Hsec].
  destruct Hsec as (order & _ & ->). eexists. by rewrite app_nil_r.
Qed.

(** X11. The secondary call of a reminder: its body is the template
    rendered, else the body rendered, else the response of the primary
    call, else the default JSON text made of the reminder; the variables
    are those of [reminder_secondary_variables], taken from the response
    the primary call gave. *)
Theorem executeReminder_secondary_body (job : Job.t) (reminder : Rem.t)
    (secondary : Webhook.t) (st : State) :
  Job.Secondary job = Some secondary →
  Webhook.Enabled secondary = true →
  ∃ st1 evs1 order,
    ran st st1 evs1 ∧ webhooks_of evs1 = [] ∧
    let response := (executeWebhook (reminder_primary job reminder) st1).1.1 in
    let variables :=
      reminder_secondary_variables (Rem.Text reminder) response
        (Webhook.JQSelectors secondary) in
    order ≡ₚ map_to_list variables ∧
    webhooks_of (drop (length (trace st))
                      (trace (executeReminder job reminder st).2))
    = [reminder_primary job reminder;
       Webhook.with_Body secondary
         (reminder_secondary_text order secondary variables
            (Rem.Text reminder) response)].
Proof.
  intros Hsec Hen.
  destruct (executeReminder_trace job reminder st)
    as (st1 & evs1 & evs3 & evs4 & Hran & Hw1 & Hw4 & _ & -> & H).
  rewrite Hsec, Hen in H. cbv zeta in H. destruct H as (order & Hperm & Hw3).
  exists st1, evs1, order. split; [done |]. split; [done |]. cbv zeta.
  split; [done |].
  rewrite drop_app_length, !webhooks_of_app, Hw1, Hw3, Hw4.
  by rewrite app_nil_r.
Qed.

(** X12. The variables of the secondary call of a reminder: [REMINDER] is
    always the text of the reminder, also when a selector has that name;
    [message] is what a selector of that name extracted, else the
    response of the primary, else (no response) the text of the reminder;
    every other name is as the selectors give it. *)
Theorem reminder_secondary_variables_lookup (text response : string)
    (selectors : gmap string string) :
  let variables := reminder_secondary_variables text response selectors in
  variables !! "REMINDER" = Some (VString text) ∧
  variables !! "message"
  = (if nonempty response
     then Some (default (VString response)
                        (chained_variables response selectors !! "message"))
     else Some (VString text)) ∧
  (∀ name, name ≠ "REMINDER" → name ≠ "message" →
     variables !! name
     = if nonempty response
       then chained_variables response selectors !! name
       else None).
Proof.
  cbv zeta. unfold reminder_secondary_variables, reminder_variables.
  destruct (nonempty response).
  - rewrite lookup_insert_ne by done.
    destruct (chained_variables response selectors !! "message") as [v|] eqn:Hm.
    + split; [by rewrite lookup_insert_eq |].
      split; [by rewrite lookup_insert_ne |].
      intros name H1 H2. by rewrite lookup_insert_ne.
    + split; [by rewrite lookup_insert_ne, lookup_insert_eq |].
      split; [by rewrite lookup_insert_eq |].
      intros name H1 H2. by rewrite !lookup_insert_ne.
  - split; [by rewrite lookup_insert_eq |].
    split; [by rewrite lookup_insert_ne, lookup_singleton_eq |].
    intros name H1 H2. rewrite lookup_insert_ne by done.
    by rewrite lookup_singleton_ne.
Qed.

Lemma DeleteReminder_failed (Jobs : list Job.t) (jobID reminderID : string) :
  (DeleteReminder Jobs jobID reminderID).2 ≠ None →
  (DeleteReminder Jobs jobID reminderID).1 = Jobs.
Proof.
  induction Jobs as [|job rest IH]; cbn [DeleteReminder]; [done |].
  destruct (Job.ID job =? jobID)%string.
  - rewrite drop_reminder_foldl. cbn [fst snd orb app].
    by destruct (existsb _ _).
  - destruct (DeleteReminder rest jobID reminderID) as [rest' err].
    cbn [fst snd] in *. intros H. by rewrite IH.
Qed.

Lemma DeleteReminder_other (Jobs : list Job.t) (jobID reminderID other : string) :
  other ≠ jobID →
  GetJob (DeleteReminder Jobs jobID reminderID).1 other = GetJob Jobs other.
Proof.
  intros Hne. induction Jobs as [|job rest IH]; cbn [DeleteReminder GetJob]; [done |].
  destruct (Job.ID job =? jobID)%string eqn:E.
  - rewrite drop_reminder_foldl. cbn [fst snd orb app]. apply str_eqb_eq in E.
    destruct (existsb _ _); cbn [negb fst GetJob];
      change (Job.ID (Job.with_Reminders job _)) with (Job.ID job);
      rewrite ?str_eqb_neq by congruence; done.
  - destruct (DeleteReminder rest jobID reminderID) as [rest' err].
    cbn [fst snd GetJob] in *. by rewrite IH.
Qed.

(** X27. A reminder that fires never writes the output cache and never
    touches a trigger or a pending timer; it drops the registration
    under its own key and no other. In the repository only the job of
    its id can change. When that job is no longer in the repository, or
    no longer has the reminder, the repository stays as it is and is
    not saved. *)
Theorem executeReminder_frame (job : Job.t) (reminder : Rem.t) (st : State) :
  let st' := (executeReminder job reminder st).2 in
  outputs st' = outputs st ∧ jobs st' = jobs st ∧
  cron_entries st' = cron_entries st ∧ timers st' = timers st ∧
  reminders st'
  = delete (Job.ID job +:+ "_" +:+ Rem.ID reminder) (reminders st) ∧
  (∀ other, other ≠ Job.ID job →
     GetJob (config_Jobs st') other = GetJob (config_Jobs st) other) ∧
  ((DeleteReminder (config_Jobs st) (Job.ID job) (Rem.ID reminder)).2 ≠ None →
     config_Jobs st' = config_Jobs st ∧
     saves_of (drop (length (trace st)) (trace st')) = []).
Proof.
  cbv zeta.
  destruct (executeReminder_trace job reminder st)
    as (_ & evs1 & evs3 & evs4 & _ & _ & _ & (Hs1 & Hs3 & Hs4) & Htrace & _).
  rewrite Htrace. clear Htrace.
  destruct (executeReminder_run job reminder st) as (st1 & evs & Hran & ->).
  pose proof (reminder_cleanup_run job reminder st1) as Hc. cbv zeta in Hc.
  destruct Hc as (-> & -> & _ & -> & _ & -> & -> & -> & _).
  assert (outputs st1 = outputs st ∧ jobs st1 = jobs st ∧
          cron_entries st1 = cron_entries st ∧ timers st1 = timers st ∧
          reminders st1 = reminders st ∧ config_Jobs st1 = config_Jobs st)
    as (-> & -> & -> & -> & -> & ->).
  { rewrite Hran. by destruct st. }
  do 5 (split; [done |]). split.
  - intros other Hne. by apply DeleteReminder_other.
  - intros Hfailed. split; [by apply DeleteReminder_failed |].
    rewrite drop_app_length, !saves_of_app, Hs1, Hs3, (Hs4 Hfailed). done.
Qed.
End ReminderCalls.

(** ** More on the API of the scheduler *)

Section Api.
Context `{RT : Runtime}.

(** The triggers after [AddJob]. *)
Lemma AddJob_triggers (job : Job.t) (st : State) :
  let st' := (AddJob job st).2 in
  let ok := Job.Enabled job && cron_valid (Job.Schedule job) in
  let entries :=
    match jobs st !! Job.ID job with
    | Some e => delete e (cron_entries st)
    | None => cron_entries st
    end in
  jobs st' = (if ok then <[Job.ID job := cron_nextID st + 1]> (delete (Job.ID job) (jobs st))
              else delete (Job.ID job) (jobs st)) ∧
  cron_entries st' = (if ok then <[cron_nextID st + 1 := job]> entries else entries) ∧
  cron_nextID st' = (if ok then cron_nextID st + 1 else cron_nextID st) ∧
  outputs st' = outputs st ∧ config_Jobs st' = config_Jobs st ∧
  trace st' = trace st.
Proof.
  cbv zeta. rewrite AddJob_run. cbv zeta.
  pose proof (removeJobReminders_spec (Job.ID job) (unregistered (Job.ID job) st))
    as Hs. cbv zeta in Hs.
  destruct Hs as (_ & _ & He & Hn & Hj & Ho & Hc & _ & Ht).
  set (st2 := (removeJobReminders _ _).2) in *.
  assert (jobs (unregistered (Job.ID job) st) = delete (Job.ID job) (jobs st) ∧
          cron_entries (unregistered (Job.ID job) st)
          = match jobs st !! Job.ID job with
            | Some e => delete e (cron_entries st)
            | None => cron_entries st
            end ∧
          cron_nextID (unregistered (Job.ID job) st) = cron_nextID st ∧
          outputs (unregistered (Job.ID job) st) = outputs st ∧
          config_Jobs (unregistered (Job.ID job) st) = config_Jobs st ∧
          trace (unregistered (Job.ID job) st) = trace st)
    as (Hj1 & He1 & Hn1 & Ho1 & Hc1 & Ht1).
  { unfold unregistered. destruct (jobs st !! Job.ID job) eqn:E; cbn; [done |].
    by rewrite delete_id. }
  rewrite Hj1 in Hj. rewrite He1 in He. rewrite Hn1 in Hn. rewrite Ho1 in Ho.
  rewrite Hc1 in Hc. rewrite Ht1 in Ht.
  destruct (Job.Enabled job && cron_valid (Job.Schedule job)); [|done].
  pose proof (foldl_scheduled_frame job (Job.Reminders job) (triggered job st2))
    as Hf. cbv zeta in Hf. destruct Hf as (-> & -> & -> & -> & _ & _).
  assert (∀ rs s, config_Jobs (foldl (scheduled job) s rs) = config_Jobs s ∧
                  trace (foldl (scheduled job) s rs) = trace s) as Hrest.
  { induction rs as [|r rs IH]; intros s; [done |]. cbn [foldl].
    destruct (IH (scheduled job s r)) as [-> ->]. unfold scheduled.
    destruct (decide (Rem.Datetime r < (time_Now (world s)).1)).
    - by rewrite scheduleReminder_past.
    - by rewrite scheduleReminder_due by lia. }
  destruct (Hrest (Job.Reminders job) (triggered job st2)) as [-> ->].
  unfold triggered. cbn. by rewrite Hj, He, Hn, Ho, Hc, Ht.
Qed.

(** What [AddJob] returns. *)
Lemma AddJob_result (job : Job.t) (st : State) :
  (AddJob job st).1
  = if Job.Enabled job && negb (cron_valid (Job.Schedule job))
    then Some ErrAddCronJob else None.
Proof.
  unfold AddJob. run.
  destruct (Job.Enabled job); cbn [negb andb]; [|done].
  unfold cron_AddFunc. destruct (cron_valid (Job.Schedule job)); by run.
Qed.

(** The timers and their registrations after the loop of [AddJob] over
    the reminders. *)
Lemma foldl_scheduled_new (job : Job.t) (rs : list Rem.t) (st : State) :
  let st' := foldl (scheduled job) st rs in
  (∀ k, HasPrefix k (Job.ID job +:+ "_") = false →
        reminders st' !! k = reminders st !! k) ∧
  (∀ t timer, timers st' !! t = Some timer →
     timers st !! t = Some timer ∨
     (timer_job timer = job ∧ timer_reminder timer ∈ rs ∧
      0 ≤ timer_duration timer ∧ (timer_next st ≤ t)%positive)).
Proof.
  cbv zeta. revert st. induction rs as [|r rs IH]; intros st.
  { split; [done |]. intros t timer Hlook. by left. }
  cbn [foldl]. destruct (IH (scheduled job st r)) as [Hk Ht]. unfold scheduled in *.
  destruct (decide (Rem.Datetime r < (time_Now (world st)).1)) as [Hpast|Hdue].
  - rewrite scheduleReminder_past in * by done. cbn [snd] in *. split; [done |].
    intros t timer Hlook. destruct (Ht _ _ Hlook) as [?|(? & ? & ? & ?)]; [by left |].
    right. split; [done |]. split; [by apply list_elem_of_further | done].
  - rewrite scheduleReminder_due in * by lia. cbn in *. split.
    + intros k Hpre. rewrite Hk by done. apply lookup_insert_ne.
      intros <-. by rewrite key_has_prefix in Hpre.
    + intros t timer Hlook.
      destruct (Ht _ _ Hlook) as [Hold|(? & ? & ? & ?)].
      * apply lookup_insert_Some in Hold as [[<- <-]|[_ Hold]]; [|by left].
        right. cbn. split; [done |]. split; [apply list_elem_of_here |].
        split; [|lia]. unfold Sub, maxDuration, minDuration. lia.
      * right. split; [done |]. split; [by apply list_elem_of_further |].
        split; [done | lia].
Qed.

(** X13. [removeReminder] takes away the registration under the key
    [jobID_reminderID] and stops the timer registered there, and nothing
    else: every other key and every other timer is as before, and a
    second call changes nothing. *)
Theorem removeReminder_spec (jobID reminderID : string) (st : State) :
  let key := jobID +:+ "_" +:+ reminderID in
  let st' := (removeReminder jobID reminderID st).2 in
  reminders st' = delete key (reminders st) ∧
  (∀ t, timers st' !! t
        = if decide (reminders st !! key = Some t) then None else timers st !! t) ∧
  (reminders st !! key = None → st' = st) ∧
  (removeReminder jobID reminderID st').2 = st'.
Proof.
  cbv zeta. rewrite !removeReminder_run.
  destruct (reminders st !! (jobID +:+ "_" +:+ reminderID)) as [timer|] eqn:Hk.
  - cbn. rewrite lookup_delete_eq. split; [done |]. split; [|done].
    intros t. destruct (decide (Some timer = Some t)) as [[= ->]|Hne].
    + apply lookup_delete_eq.
    + apply lookup_delete_ne. congruence.
  - rewrite Hk. split; [by rewrite delete_id |]. split; [|done].
    intros t. by destruct (decide (None = Some t)).
Qed.

(** X14. [RemoveJob] always returns nil. It takes away the trigger
    registered for the id; the cached output of the job is cleared only
    when a trigger was registered, so the output of a job that was not
    scheduled stays in the cache. The repository and the trace are not
    touched. *)
Theorem RemoveJob_spec (jobID : string) (st : State) :
  let st' := (RemoveJob jobID st).2 in
  (RemoveJob jobID st).1 = None ∧
  jobs st' = delete jobID (jobs st) ∧
  cron_entries st'
  = match jobs st !! jobID with
    | Some e => delete e (cron_entries st)
    | None => cron_entries st
    end ∧
  outputs st'
  = match jobs st !! jobID with
    | Some _ => delete jobID (outputs st)
    | None => outputs st
    end ∧
  config_Jobs st' = config_Jobs st ∧ trace st' = trace st.
Proof.
  cbv zeta. split; [unfold RemoveJob; by run |]. rewrite RemoveJob_run.
  set (st1 := match jobs st !! jobID with Some _ => _ | None => st end).
  pose proof (removeJobReminders_spec jobID st1) as Hs. cbv zeta in Hs.
  destruct Hs as (_ & _ & -> & _ & -> & -> & -> & _ & ->).
  unfold st1, unregistered. destruct (jobs st !! jobID) eqn:E; cbn; [done |].
  by rewrite delete_id.
Qed.

(** X15. [AddJob] fails exactly when the job is enabled and its schedule
    is not accepted. An enabled job with a valid schedule gets a new
    trigger, with the next entry id. A disabled job, and a job whose
    schedule is rejected, is left with no trigger: the one registered
    before the call is gone. The output cache and the repository are
    never touched. *)
Theorem AddJob_outcome (job : Job.t) (st : State) :
  let st' := (AddJob job st).2 in
  let ok := Job.Enabled job && cron_valid (Job.Schedule job) in
  (AddJob job st).1
  = (if Job.Enabled job && negb (cron_valid (Job.Schedule job))
     then Some ErrAddCronJob else None) ∧
  jobs st' !! Job.ID job = (if ok then Some (cron_nextID st + 1) else None) ∧
  (ok = true → cron_entries st' !! (cron_nextID st + 1) = Some job) ∧
  (registered st → ok = false →
     ∀ e job', cron_entries st' !! e = Some job' → Job.ID job' ≠ Job.ID job) ∧
  outputs st' = outputs st ∧ config_Jobs st' = config_Jobs st.
Proof.
  cbv zeta. split; [apply AddJob_result |].
  pose proof (AddJob_triggers job st) as H. cbv zeta in H.
  destruct H as (Hj & He & _ & -> & -> & _).
  split; [|split; [|split; [|done]]].
  - rewrite Hj. destruct (Job.Enabled job && cron_valid (Job.Schedule job)).
    + apply lookup_insert_eq.
    + apply lookup_delete_eq.
  - intros Hok. rewrite He, Hok. apply lookup_insert_eq.
  - intros Hreg Hok e job' Hlook. rewrite He, Hok in Hlook.
    destruct (registered_unregistered (Job.ID job) st Hreg) as (_ & Hfree & _).
    apply (Hfree e job'). unfold unregistered.
    by destruct (jobs st !! Job.ID job).
Qed.

(** The timers and their registrations after [AddJob]. *)
Lemma AddJob_pending (job : Job.t) (st : State) :
  let st' := (AddJob job st).2 in
  (∀ k, HasPrefix k (Job.ID job +:+ "_") = false →
        reminders st' !! k = reminders st !! k) ∧
  (∀ t timer, timers st' !! t = Some timer →
     timers st !! t = Some timer ∨
     (timer_job timer = job ∧ timer_reminder timer ∈ Job.Reminders job ∧
      0 ≤ timer_duration timer ∧ (timer_next st ≤ t)%positive)).
Proof.
  cbv zeta. rewrite AddJob_run. cbv zeta.
  pose proof (removeJobReminders_spec (Job.ID job) (unregistered (Job.ID job) st))
    as Hs. cbv zeta in Hs.
  destruct Hs as (Hrem & Htim & _ & _ & _ & _ & _ & Htn & _).
  set (st2 := (removeJobReminders _ _).2) in *.
  assert (reminders (unregistered (Job.ID job) st) = reminders st ∧
          timers (unregistered (Job.ID job) st) = timers st ∧
          timer_next (unregistered (Job.ID job) st) = timer_next st)
    as (Hr1 & Ht1 & Htn1).
  { unfold unregistered. by destruct (jobs st !! Job.ID job). }
  rewrite Hr1 in Hrem. rewrite Ht1 in Htim. rewrite Htn1 in Htn.
  destruct (Job.Enabled job && cron_valid (Job.Schedule job)).
  + pose proof (foldl_scheduled_new job (Job.Reminders job) (triggered job st2))
      as Hf. cbv zeta in Hf. destruct Hf as [Hk Ht]. split.
    * intros k Hpre. rewrite Hk by done.
      change (reminders (triggered job st2)) with (reminders st2).
      by rewrite Hrem, Hpre.
    * intros t timer Hlook. destruct (Ht _ _ Hlook) as [Hold|Hnew].
      -- left. change (timers (triggered job st2)) with (timers st2) in Hold.
         by apply Htim in Hold as [? _].
      -- right. change (timer_next (triggered job st2)) with (timer_next st2)
           in Hnew. by rewrite Htn in Hnew.
  + split.
    * intros k Hpre. by rewrite Hrem, Hpre.
    * intros t timer Hlook. left. by apply Htim in Hlook as [? _].
Qed.


(** X16. [AddJob] leaves the other jobs alone as far as triggers go: the
    registration of every other id, and every entry but the one that was
    registered for this id. A key that does not start with the id and
    the separator keeps its timer, and every timer that is pending
    afterwards was pending before or is a new timer of this job, for one
    of its reminders, with a duration that is not negative. *)
Theorem AddJob_frame (job : Job.t) (st : State) :
  let st' := (AddJob job st).2 in
  (∀ other, other ≠ Job.ID job → jobs st' !! other = jobs st !! other) ∧
  (∀ e, jobs st !! Job.ID job ≠ Some e → e ≤ cron_nextID st →
        cron_entries st' !! e = cron_entries st !! e) ∧
  (∀ k, HasPrefix k (Job.ID job +:+ "_") = false →
        reminders st' !! k = reminders st !! k) ∧
  (∀ t timer, timers st' !! t = Some timer →
     timers st !! t = Some timer ∨
     (timer_job timer = job ∧ timer_reminder timer ∈ Job.Reminders job ∧
      0 ≤ timer_duration timer ∧ (timer_next st ≤ t)%positive)).
Proof.
  cbv zeta. pose proof (AddJob_triggers job st) as H. cbv zeta in H.
  destruct H as (Hj & He & _). split; [|split].
  - intros other Hne. rewrite Hj.
    destruct (Job.Enabled job && cron_valid (Job.Schedule job));
      by rewrite ?lookup_insert_ne, lookup_delete_ne.
  - intros e Hne Hle. rewrite He.
    assert (match jobs st !! Job.ID job with
            | Some e0 => delete e0 (cron_entries st)
            | None => cron_entries st
            end !! e = cron_entries st !! e) as Hold.
    { destruct (jobs st !! Job.ID job) as [e0|]; [|done].
      apply lookup_delete_ne. congruence. }
    destruct (Job.Enabled job && cron_valid (Job.Schedule job)); [|done].
    rewrite lookup_insert_ne; [done | lia].
  - apply AddJob_pending.
Qed.

(** The facts about the triggers that the loop of [LoadJobs] keeps. *)
Lemma AddJob_triggers_in_order (job : Job.t) (st : State) :
  (∀ id e, jobs st !! id = Some e → e ≤ cron_nextID st) →
  (∀ id1 id2 e, jobs st !! id1 = Some e → jobs st !! id2 = Some e → id1 = id2) →
  let st' := (AddJob job st).2 in
  (∀ id e, jobs st' !! id = Some e → e ≤ cron_nextID st') ∧
  (∀ id1 id2 e, jobs st' !! id1 = Some e → jobs st' !! id2 = Some e → id1 = id2) ∧
  (∀ id e, id ≠ Job.ID job → jobs st !! id = Some e →
           jobs st' !! id = Some e ∧ cron_entries st' !! e = cron_entries st !! e).
Proof.
  intros Hbelow Hinj. cbv zeta.
  pose proof (AddJob_triggers job st) as H. cbv zeta in H.
  destruct H as (Hj & He & Hn & _).
  assert (∀ id e, delete (Job.ID job) (jobs st) !! id = Some e →
                  id ≠ Job.ID job ∧ jobs st !! id = Some e) as Hdel.
  { intros id e [? ?]%lookup_delete_Some. split; [congruence | done]. }
  assert (∀ id e, id ≠ Job.ID job → jobs st !! id = Some e →
                  match jobs st !! Job.ID job with
                  | Some e0 => delete e0 (cron_entries st)
                  | None => cron_entries st
                  end !! e = cron_entries st !! e) as Hkeep.
  { intros id e Hne Hlook. destruct (jobs st !! Job.ID job) as [e0|] eqn:E; [|done].
    apply lookup_delete_ne. intros ->. apply Hne. by eapply Hinj. }
  rewrite Hj, He, Hn.
  destruct (Job.Enabled job && cron_valid (Job.Schedule job)).
  - split; [|split].
    + intros id e [[_ <-]|[_ H]]%lookup_insert_Some; [lia |].
      apply Hdel in H as [_ H]. apply Hbelow in H. lia.
    + intros id1 id2 e [[<- <-]|[Hne1 H1]]%lookup_insert_Some
                       [[<- He2]|[Hne2 H2]]%lookup_insert_Some; try done.
      * apply Hdel in H2 as [_ H2]. apply Hbelow in H2. lia.
      * apply Hdel in H1 as [_ H1]. apply Hbelow in H1. lia.
      * apply Hdel in H1 as [_ H1]. apply Hdel in H2 as [_ H2]. by eapply Hinj.
    + intros id e Hne Hlook. split.
      * by rewrite lookup_insert_ne, lookup_delete_ne.
      * rewrite lookup_insert_ne; [by eapply Hkeep |].
        apply Hbelow in Hlook. lia.
  - split; [|split].
    + intros id e H. apply Hdel in H as [_ H]. by eapply Hbelow.
    + intros id1 id2 e H1 H2. apply Hdel in H1 as [_ H1].
      apply Hdel in H2 as [_ H2]. by eapply Hinj.
    + intros id e Hne Hlook. split; [by rewrite lookup_delete_ne |].
      by eapply Hkeep.
Qed.

Lemma LoadJobs_run (st : State) :
  LoadJobs st
  = (None, foldl (λ st job, (AddJob job st).2) st (config_Jobs st)).
Proof.
  unfold LoadJobs. run. rewrite for_each_foldl. f_equal.
  generalize (config_Jobs st). intros l. revert st.
  induction l as [|job l IH]; intros s; [done |].
  cbn [foldl]. rewrite bind_run. cbn [snd]. apply IH.
Qed.

Lemma foldl_AddJob_triggers (l : list Job.t) (st : State) :
  (∀ id e, jobs st !! id = Some e → e ≤ cron_nextID st) →
  (∀ id1 id2 e, jobs st !! id1 = Some e → jobs st !! id2 = Some e → id1 = id2) →
  NoDup (Job.ID <$> l) →
  let st' := foldl (λ st job, (AddJob job st).2) st l in
  (∀ id e, id ∉ Job.ID <$> l → jobs st !! id = Some e →
           jobs st' !! id = Some e ∧ cron_entries st' !! e = cron_entries st !! e) ∧
  (∀ job, job ∈ l →
     if Job.Enabled job && cron_valid (Job.Schedule job)
     then ∃ e, jobs st' !! Job.ID job = Some e ∧ cron_entries st' !! e = Some job
     else jobs st' !! Job.ID job = None) ∧
  outputs st' = outputs st ∧ config_Jobs st' = config_Jobs st ∧
  trace st' = trace st.
Proof.
  cbv zeta. revert st. induction l as [|job l IH]; intros st Hbelow Hinj Hnd.
  { split; [done |]. split; [|done]. intros job Hin. by apply elem_of_nil in Hin. }
  rewrite fmap_cons in Hnd. apply NoDup_cons in Hnd as [Hnotin Hnd]. cbn [foldl].
  pose proof (AddJob_triggers_in_order job st Hbelow Hinj) as H1. cbv zeta in H1.
  destruct H1 as (Hbelow1 & Hinj1 & Hkeep1).
  pose proof (AddJob_triggers job st) as H2. cbv zeta in H2.
  destruct H2 as (Hj & He & _ & Ho & Hc & Ht).
  set (st1 := (AddJob job st).2) in *.
  destruct (IH st1 Hbelow1 Hinj1 Hnd) as (Hkeep & Hall & -> & -> & ->).
  split; [|split; [|done]].
  - intros id e [Hne Hnotin']%not_elem_of_cons Hlook.
    destruct (Hkeep1 id e Hne Hlook) as [Hlook1 Hsame1].
    destruct (Hkeep id e Hnotin' Hlook1) as [Hlook2 Hsame2].
    split; [done | congruence].
  - intros job' [->|Hin]%elem_of_cons; [|by apply Hall].
    destruct (Job.Enabled job && cron_valid (Job.Schedule job)) eqn:Hok.
    + assert (jobs st1 !! Job.ID job = Some (cron_nextID st + 1)) as Hlook.
      { rewrite Hj. apply lookup_insert_eq. }
      destruct (Hkeep _ _ Hnotin Hlook) as [Hlook' Hsame].
      exists (cron_nextID st + 1). split; [done |].
      rewrite Hsame, He. apply lookup_insert_eq.
    + assert (jobs st1 !! Job.ID job = None) as Hnone.
      { rewrite Hj. apply lookup_delete_eq. }
      clearbody st1. clear -Hnone Hnotin Hnd.
      revert st1 Hnone. induction l as [|j l IHl]; intros s Hnone; [done |].
      cbn [foldl]. rewrite fmap_cons in Hnotin, Hnd.
      apply not_elem_of_cons in Hnotin as [Hne Hnotin].
      apply NoDup_cons in Hnd as [_ Hnd].
      apply IHl; [done | done |].
      pose proof (AddJob_triggers j s) as H. cbv zeta in H.
      destruct H as (-> & _).
      destruct (Job.Enabled j && cron_valid (Job.Schedule j));
        by rewrite ?lookup_insert_ne, lookup_delete_ne by done.
Qed.

(** X17. [LoadJobs] always returns nil, also when [AddJob] fails for
    some job. When the ids of the repository are distinct, it leaves
    every enabled job with a schedule that is accepted with a trigger
    that runs this job, and every other job of the repository with no
    trigger. *)
Theorem LoadJobs_spec (cfg : list Job.t) (w : World) :
  NoDup (Job.ID <$> cfg) →
  let st' := (LoadJobs (New cfg w)).2 in
  (LoadJobs (New cfg w)).1 = None ∧
  (∀ job, job ∈ cfg →
     if Job.Enabled job && cron_valid (Job.Schedule job)
     then ∃ e, jobs st' !! Job.ID job = Some e ∧ cron_entries st' !! e = Some job
     else jobs st' !! Job.ID job = None) ∧
  config_Jobs st' = cfg ∧ outputs st' = ∅ ∧ trace st' = [].
Proof.
  intros Hnd. cbv zeta. rewrite LoadJobs_run. cbn [fst snd]. split; [done |].
  change (config_Jobs (New cfg w)) with cfg.
  pose proof (foldl_AddJob_triggers cfg (New cfg w)) as H. cbv zeta in H.
  destruct H as (_ & Hall & -> & -> & ->); [done | done | done |].
  done.
Qed.
End Api.

(** ** More on the texts *)

Section Texts.
Context `{RT : Runtime}.

Lemma json_escaped_app (s t : string) :
  json_escaped (s +:+ t) = json_escaped s +:+ json_escaped t.
Proof.
  induction s as [|c s IH]; [done |].
  rewrite str_app_cons. cbn [json_escaped]. by rewrite IH, str_app_assoc.
Qed.

Lemma control_free_app (s t : string) :
  control_free (s +:+ t) = control_free s && control_free t.
Proof.
  induction s as [|c s IH]; [done |].
  rewrite str_app_cons. cbn [control_free]. rewrite IH.
  by rewrite !andb_assoc.
Qed.

(** X18. [escape] leaves no newline, carriage return or tab in the text,
    and returns the text as it is when none of these and no double quote
    occurs in it. A backslash is not escaped: a newline and the two
    characters backslash and [n] come out the same. *)
Theorem escape_spec (str : string) :
  control_free (escape str) = true ∧
  (plain str = true → escape str = str) ∧
  (∀ s t, escape (s +:+ LF +:+ t) = escape (s +:+ BSL +:+ "n" +:+ t)).
Proof.
  split; [|split].
  - rewrite escape_json_escaped.
    induction str as [|c str IH]; [done |].
    cbn [json_escaped]. rewrite control_free_app, IH, andb_true_r.
    unfold json_escaped_char.
    destruct (c =? "010")%char eqn:E1; [done |].
    destruct (c =? "013")%char eqn:E2; [done |].
    destruct (c =? "009")%char eqn:E3; [done |].
    destruct (c =? "034")%char eqn:E4; [done |].
    cbn [control_free]. by rewrite E1, E2, E3.
  - rewrite escape_json_escaped.
    induction str as [|c str IH]; [done |].
    cbn [plain json_escaped]. intros H.
    repeat (apply andb_prop in H as [H ?]).
    unfold json_escaped_char.
    destruct (c =? "010")%char; [done |].
    destruct (c =? "013")%char; [done |].
    destruct (c =? "009")%char; [done |].
    destruct (c =? "034")%char; [done |].
    rewrite IH by done. by rewrite str_app_cons, str_app_nil_l.
  - intros s t. rewrite !escape_json_escaped, !json_escaped_app. done.
Qed.

Lemma HasPrefix_app_prefix (s a b : string) :
  HasPrefix s (a +:+ b) = true → HasPrefix s a = true.
Proof.
  intros [rest ->]%HasPrefix_iff. apply HasPrefix_iff.
  exists (b +:+ rest). by rewrite str_app_assoc.
Qed.

Lemma Contains_app_prefix (s a b : string) :
  Contains s a = false → Contains s (a +:+ b) = false.
Proof.
  induction s as [|c s IH]; cbn [Contains].
  - rewrite !orb_false_r. intros H.
    apply not_true_is_false. intros H'%HasPrefix_app_prefix. congruence.
  - intros [H1 H2]%orb_false_elim. rewrite IH by done. rewrite orb_false_r.
    apply not_true_is_false. intros H'%HasPrefix_app_prefix. congruence.
Qed.

Lemma render_no_placeholder (order : list (string * value))
    (templateStr : string) (variables : gmap string value) :
  Contains templateStr "{{" = false →
  render order templateStr variables = templateStr.
Proof.
  intros Hno. unfold render.
  rewrite (ReplaceAll_not_contains templateStr "{{REMINDER}}");
    [|by apply (Contains_app_prefix _ "{{" "REMINDER}}")].
  induction order as [|kv order IH]; [done |].
  cbn [foldl]. unfold render_step at 2.
  destruct (kv.1 =? "REMINDER")%string; [done |].
  rewrite ReplaceAll_not_contains; [done |].
  by apply (Contains_app_prefix _ "{{" (kv.1 +:+ "}}")).
Qed.

(** X19. A text in which two opening braces never follow each other is
    rendered as it is, whatever the variables are, and without an
    error. *)
Theorem processTemplate_no_placeholder (templateStr : string)
    (variables : gmap string value) (st : State) :
  Contains templateStr "{{" = false →
  (processTemplate templateStr variables st).1 = (templateStr, None).
Proof.
  intros Hno.
  destruct (processTemplate_run templateStr variables st) as (order & _ & -> & _).
  by rewrite render_no_placeholder.
Qed.
End Texts.

(** ** The handlers of the server *)

Section Handlers.
Context `{RT : Runtime}.
Variable encodes_job : Job.t → bool.
Variable encodes_jobs : list Job.t → bool.
Variable encodes_reminder : Rem.t → bool.

Lemma GetJob_stored (Jobs : list Job.t) (job : Job.t) :
  GetJob (ConfigAddJob Jobs job) (Job.ID job) = Some job.
Proof.
  induction Jobs as [|existing rest IH]; cbn [ConfigAddJob GetJob].
  - by rewrite str_eqb_refl.
  - destruct (Job.ID existing =? Job.ID job)%string eqn:E; cbn [GetJob].
    + by rewrite str_eqb_refl.
    + by rewrite E.
Qed.

Lemma GetJob_ID (Jobs : list Job.t) (id : string) (job : Job.t) :
  GetJob Jobs id = Some job → Job.ID job = id.
Proof.
  induction Jobs as [|existing rest IH]; cbn [GetJob]; [done |].
  destruct (Job.ID existing =? id)%string eqn:E; [|done].
  intros [= <-]. by apply str_eqb_eq.
Qed.

Lemma DeleteJob_missing (Jobs : list Job.t) (id : string) :
  GetJob Jobs id = None → DeleteJob Jobs id = (Jobs, Some (ErrJobNotFound id)).
Proof.
  induction Jobs as [|job rest IH]; cbn [DeleteJob GetJob]; [done |].
  destruct (Job.ID job =? id)%string; [done |].
  intros H. by rewrite IH.
Qed.

Lemma DeleteJob_found (Jobs : list Job.t) (id : string) :
  is_Some (GetJob Jobs id) → (DeleteJob Jobs id).2 = None.
Proof.
  induction Jobs as [|job rest IH]; cbn [DeleteJob GetJob]; [by intros [? ?] |].
  destruct (Job.ID job =? id)%string; [done |].
  intros H. specialize (IH H). by destruct (DeleteJob rest id).
Qed.

Lemma store_job_run (job : Job.t) (sent : Z) (st : State) :
  let Jobs := ConfigAddJob (config_Jobs st) job in
  store_job job sent st
  = if (write_config Jobs (world st)).1
    then (if Job.Enabled job && negb (cron_valid (Job.Schedule job))
          then StatusInternalServerError else sent,
          (AddJob job (stored Jobs st)).2)
    else (StatusInternalServerError, stored Jobs st).
Proof.
  cbv zeta. unfold store_job, config_AddJob. run.
  rewrite config_Save_run. cbn [fst snd config_Jobs with_config world trace].
  unfold stored.
  destruct (write_config _ _).1; [|done].
  rewrite bind_run, AddJob_result.
  by destruct (Job.Enabled job && negb (cron_valid (Job.Schedule job))).
Qed.

Lemma stored_same_registry (Jobs : list Job.t) (st : State) :
  same_registry st (stored Jobs st).
Proof. by repeat split. Qed.

(** What storing a job comes to. *)
Lemma store_job_spec (job : Job.t) (sent : Z) (st : State) :
  let Jobs := ConfigAddJob (config_Jobs st) job in
  let written := (write_config Jobs (world st)).1 in
  let ok := Job.Enabled job && cron_valid (Job.Schedule job) in
  let r := store_job job sent st in
  config_Jobs r.2 = Jobs ∧
  trace r.2 = trace st ++ [EvSave Jobs written] ∧
  outputs r.2 = outputs st ∧
  (written = false → r.1 = StatusInternalServerError ∧ same_registry st r.2) ∧
  (written = true →
     r.1 = (if Job.Enabled job && negb (cron_valid (Job.Schedule job))
            then StatusInternalServerError else sent) ∧
     jobs r.2 !! Job.ID job = (if ok then Some (cron_nextID st + 1) else None)).
Proof.
  cbv zeta. rewrite store_job_run. cbv zeta.
  set (Jobs := ConfigAddJob (config_Jobs st) job).
  destruct (write_config Jobs (world st)).1 eqn:Hw; cbn [fst snd].
  - pose proof (AddJob_triggers job (stored Jobs st)) as H. cbv zeta in H.
    destruct H as (Hj & _ & _ & -> & -> & ->). unfold stored at 1 2 3. cbn.
    rewrite Hw. do 3 (split; [done |]). split; [done |]. intros _. split; [done |].
    rewrite Hj.
    destruct (Job.Enabled job && cron_valid (Job.Schedule job)).
    + apply lookup_insert_eq.
    + apply lookup_delete_eq.
  - unfold stored at 1 2 3. cbn. rewrite Hw. do 3 (split; [done |]).
    split; [|done]. intros _. split; [done |]. apply stored_same_registry.
Qed.

Lemma RemoveJob_untriggers (jobID : string) (st : State) :
  (RemoveJob jobID st).1 = None ∧
  jobs (RemoveJob jobID st).2 !! jobID = None ∧
  config_Jobs (RemoveJob jobID st).2 = config_Jobs st ∧
  trace (RemoveJob jobID st).2 = trace st.
Proof.
  split; [unfold RemoveJob; by run |]. rewrite RemoveJob_run.
  set (st1 := match jobs st !! jobID with Some _ => _ | None => st end).
  pose proof (removeJobReminders_spec jobID st1) as Hs. cbv zeta in Hs.
  destruct Hs as (_ & _ & _ & _ & -> & _ & -> & _ & ->).
  unfold st1, unregistered. destruct (jobs st !! jobID) eqn:E; cbn; [|done].
  by rewrite lookup_delete_eq.
Qed.

(** X20. [POST /api/jobs] with a body that decodes to a job stores the
    job in the repository and saves the repository before the scheduler
    sees the job: whatever the status, the repository holds the job.
    When the save fails the status is 500 and the scheduler is as it
    was. When the job is enabled and its schedule is rejected the status
    is 500 too, the job is stored and saved, and it has no trigger.
    Otherwise the job has a new trigger if it is enabled, and the status
    is 200 when the job can be encoded. *)
Theorem handleJobs_POST_spec (job : Job.t) (st : State) :
  let Jobs := ConfigAddJob (config_Jobs st) job in
  let written := (write_config Jobs (world st)).1 in
  let ok := Job.Enabled job && cron_valid (Job.Schedule job) in
  let r := handleJobs encodes_job encodes_jobs "POST" (Some job) st in
  GetJob (config_Jobs r.2) (Job.ID job) = Some job ∧
  trace r.2 = trace st ++ [EvSave Jobs written] ∧
  (written = false → r.1 = StatusInternalServerError ∧ same_registry st r.2) ∧
  (written = true →
     r.1 = (if Job.Enabled job && negb (cron_valid (Job.Schedule job))
            then StatusInternalServerError
            else if encodes_job job then StatusOK
            else StatusInternalServerError) ∧
     jobs r.2 !! Job.ID job = (if ok then Some (cron_nextID st + 1) else None)).
Proof.
  cbv zeta.
  change (handleJobs encodes_job encodes_jobs "POST" (Some job) st)
    with (store_job job (if encodes_job job then StatusOK
                         else StatusInternalServerError) st).
  pose proof (store_job_spec job (if encodes_job job then StatusOK
                                  else StatusInternalServerError) st) as H.
  cbv zeta in H. destruct H as (Hc & Ht & _ & Hf & Hs).
  split; [rewrite Hc; apply GetJob_stored |]. done.
Qed.

(** X21. [PUT /api/jobs/{id}] refuses, with status 400 and without
    changing anything, a body that does not decode and a job whose id is
    not the id of the path; any other job it handles as [POST /api/jobs]
    does. *)
Theorem handleJob_PUT_spec (jobID : string) (decoded : option Job.t) (st : State) :
  match decoded with
  | None => handleJob encodes_job "PUT" jobID decoded st = (StatusBadRequest, st)
  | Some job =>
      (Job.ID job ≠ jobID →
         handleJob encodes_job "PUT" jobID decoded st = (StatusBadRequest, st)) ∧
      (Job.ID job = jobID →
         handleJob encodes_job "PUT" jobID decoded st
         = handleJobs encodes_job encodes_jobs "POST" decoded st)
  end.
Proof.
  destruct decoded as [job|]; [|done]. split.
  - intros Hne.
    change (handleJob encodes_job "PUT" jobID (Some job) st)
      with ((if negb (Job.ID job =? jobID)%string then mret StatusBadRequest
             else store_job job (if encodes_job job then StatusOK
                                 else StatusInternalServerError)) st).
    by rewrite str_eqb_neq.
  - intros <-.
    change (handleJob encodes_job "PUT" (Job.ID job) (Some job) st)
      with ((if negb (Job.ID job =? Job.ID job)%string then mret StatusBadRequest
             else store_job job (if encodes_job job then StatusOK
                                 else StatusInternalServerError)) st).
    by rewrite str_eqb_refl.
Qed.

(** X22. [DELETE /api/jobs/{id}] answers 404 and changes nothing when the
    repository has no job with the id. Otherwise the job is taken out of
    the repository; when the save then fails the status is 500 and the
    scheduler is not told, so the trigger of the job stays; when the
    save succeeds the status is 204 and the id has no trigger. *)
Theorem handleJob_DELETE_spec (jobID : string) (decoded : option Job.t)
    (st : State) :
  let r := handleJob encodes_job "DELETE" jobID decoded st in
  let Jobs := (DeleteJob (config_Jobs st) jobID).1 in
  let written := (write_config Jobs (world st)).1 in
  (GetJob (config_Jobs st) jobID = None → r = (StatusNotFound, st)) ∧
  (is_Some (GetJob (config_Jobs st) jobID) →
     config_Jobs r.2 = Jobs ∧
     trace r.2 = trace st ++ [EvSave Jobs written] ∧
     (written = false → r.1 = StatusInternalServerError ∧ same_registry st r.2) ∧
     (written = true → r.1 = StatusNoContent ∧ jobs r.2 !! jobID = None)).
Proof.
  cbv zeta.
  change (handleJob encodes_job "DELETE" jobID decoded st)
    with ((err ← config_DeleteJob jobID;
           match err with
           | Some _ => mret StatusNotFound
           | None =>
               err ← config_Save;
               match err with
               | Some _ => mret StatusInternalServerError
               | None =>
                   err ← RemoveJob jobID;
                   match err with
                   | Some _ => mret StatusInternalServerError
                   | None => mret StatusNoContent
                   end
               end
           end) st).
  unfold config_DeleteJob. run. split.
  - intros Hnone. rewrite (DeleteJob_missing _ _ Hnone). run. by destruct st.
  - intros Hsome. pose proof (DeleteJob_found _ _ Hsome) as Herr.
    destruct (DeleteJob (config_Jobs st) jobID) as [Jobs err]. cbn [fst snd] in *.
    subst err. run. rewrite config_Save_run.
    cbn [fst snd config_Jobs with_config world trace].
    fold (stored Jobs st).
    destruct (write_config Jobs (world st)).1 eqn:Hw.
    + rewrite bind_run.
      destruct (RemoveJob_untriggers jobID (stored Jobs st)) as (-> & Hj & Hc & Ht).
      run. rewrite Hc, Ht. unfold stored at 1 2. cbn. rewrite Hw.
      do 2 (split; [done |]). split; [done |]. intros _. split; [done | exact Hj].
    + cbn [fst snd]. unfold stored at 1 2 3. cbn. rewrite Hw.
      do 2 (split; [done |]). split; [|done].
      intros _. split; [done |]. apply stored_same_registry.
Qed.

(** X23. [POST /api/jobs/test/{id}] answers 404 and changes nothing when
    the repository has no job with the id. Otherwise it answers 204,
    whatever the webhooks give, and the job of the repository is run,
    enabled or not: its primary webhook is called, and neither the
    triggers, the timers nor the repository change. Any other method is
    refused with 405. *)
Theorem handleTestJob_spec (Method jobID : string) (st : State) :
  let r := handleTestJob Method jobID st in
  (Method ≠ "POST" → r = (StatusMethodNotAllowed, st)) ∧
  (Method = "POST" → GetJob (config_Jobs st) jobID = None →
     r = (StatusNotFound, st)) ∧
  (Method = "POST" → ∀ job, GetJob (config_Jobs st) jobID = Some job →
     r.1 = StatusNoContent ∧
     (∃ evs, trace r.2 = trace st ++ EvWebhook (Job.Primary job) :: evs) ∧
     same_registry st r.2 ∧ config_Jobs r.2 = config_Jobs st).
Proof.
  cbv zeta. unfold handleTestJob. split; [|split].
  - intros Hne. by rewrite str_eqb_neq.
  - intros -> Hnone. rewrite str_eqb_refl. cbn [negb]. unfold TestJob. run.
    rewrite Hnone. by run.
  - intros -> job Hget. rewrite str_eqb_refl. cbn [negb]. unfold TestJob. run.
    rewrite Hget. run. split; [done |].
    destruct (executeJob_shape job st) as [evs Hran].
    split; [|split].
    + exists evs. by rewrite (ran_trace _ _ _ Hran).
    + apply executeJob_same_registry.
    + by rewrite Hran.
Qed.

(** X24. A [GET] never changes anything, and [GET /api/jobs/{id}]
    answers 404 exactly when the repository has no job with the id. A
    method that a handler does not know is refused with 405, and nothing
    changes. *)
Theorem handlers_read_only (Method jobID : string) (decoded : option Job.t)
    (st : State) :
  (handleJobs encodes_job encodes_jobs "GET" decoded st).2 = st ∧
  (handleJob encodes_job "GET" jobID decoded st).2 = st ∧
  ((handleJob encodes_job "GET" jobID decoded st).1 = StatusNotFound ↔
   GetJob (config_Jobs st) jobID = None) ∧
  (Method ≠ "GET" → Method ≠ "POST" →
     handleJobs encodes_job encodes_jobs Method decoded st
     = (StatusMethodNotAllowed, st)) ∧
  (Method ≠ "GET" → Method ≠ "PUT" → Method ≠ "DELETE" →
     handleJob encodes_job Method jobID decoded st
     = (StatusMethodNotAllowed, st)).
Proof.
  split; [done |].
  assert (handleJob encodes_job "GET" jobID decoded st
          = match GetJob (config_Jobs st) jobID with
            | Some job => (if encodes_job job then StatusOK
                           else StatusInternalServerError, st)
            | None => (StatusNotFound, st)
            end) as ->.
  { unfold handleJob. change (("GET" =? "GET")%string) with true. cbv iota.
    run. by destruct (GetJob _ _). }
  split; [by destruct (GetJob _ _) |]. split.
  - destruct (GetJob _ _) as [job|]; [|done]. cbn [fst].
    split; [|done]. by destruct (encodes_job job).
  - split.
    + intros H1 H2. unfold handleJobs. by rewrite !str_eqb_neq.
    + intros H1 H2 H3. unfold handleJob. by rewrite !str_eqb_neq.
Qed.

Lemma registered_stored (Jobs : list Job.t) (st : State) :
  registered st → registered (stored Jobs st).
Proof. intros [? ? ? ? ?]. by split. Qed.

(** X25. [DELETE /api/reminders/{job}/{reminder}] answers 404 and changes
    nothing when the repository has no job with the id, or the job no
    reminder with the id. Otherwise the job is stored without the
    reminders of that id; and when the save succeeds the job is given to
    the scheduler again, after which no pending timer is for that
    reminder of that job. *)
Theorem handleReminder_DELETE_spec (jobID reminderID : string)
    (decoded : option Rem.t) (st : State) :
  let r := handleReminder encodes_reminder "DELETE" jobID reminderID decoded st in
  (GetJob (config_Jobs st) jobID = None → r = (StatusNotFound, st)) ∧
  (∀ job, GetJob (config_Jobs st) jobID = Some job →
     ((∀ x, x ∈ Job.Reminders job → Rem.ID x ≠ reminderID) →
        r = (StatusNotFound, st)) ∧
     ((∃ x, x ∈ Job.Reminders job ∧ Rem.ID x = reminderID) →
        let job' :=
          Job.with_Reminders job
            (filter (λ x, Rem.ID x ≠ reminderID) (Job.Reminders job)) in
        GetJob (config_Jobs r.2) jobID = Some job' ∧
        (registered st →
         (write_config (ConfigAddJob (config_Jobs st) job') (world st)).1 = true →
         ∀ t timer, timers r.2 !! t = Some timer →
                    Job.ID (timer_job timer) = jobID →
                    Rem.ID (timer_reminder timer) ≠ reminderID))).
Proof.
  cbv zeta.
  unfold handleReminder. change (("DELETE" =? "DELETE")%string) with true.
  cbv iota. run.
  split; [by intros -> |]. intros job Hget. rewrite Hget.
  rewrite drop_reminder_foldl. cbn [fst snd orb app]. split.
  - intros Hnone.
    assert (existsb (λ r, (Rem.ID r =? reminderID)%string) (Job.Reminders job)
            = false) as ->; [|done].
    apply not_true_is_false. intros (x & Hin & Hid)%existsb_exists.
    apply str_eqb_eq in Hid. apply (Hnone x); [|done]. by apply list_elem_of_In.
  - intros Hhas. rewrite existsb_reminder by done. cbn [negb].
    set (job' := Job.with_Reminders job _).
    assert (Job.ID job' = jobID) as Hid by (by apply GetJob_ID in Hget).
    pose proof (store_job_spec job' StatusNoContent st) as Hs. cbv zeta in Hs.
    destruct Hs as (Hc & _). split.
    + rewrite Hc, <-Hid. apply GetJob_stored.
    + intros Hreg Hw t timer Hlook Hjob Hrem.
      rewrite store_job_run in Hlook. cbv zeta in Hlook. rewrite Hw in Hlook.
      cbn [snd] in Hlook.
      set (st1 := stored (ConfigAddJob (config_Jobs st) job') st) in *.
      pose proof (registered_stored (ConfigAddJob (config_Jobs st) job') st Hreg)
        as Hreg1. fold st1 in Hreg1.
      pose proof (AddJob_pending job' st1) as Hp. cbv zeta in Hp.
      destruct Hp as [_ Hp]. destruct (Hp _ _ Hlook) as [Hold|(Hj & Hin & _)].
      * destruct (AddJob_replaces job' st1 Hreg1) as [_ Hgone].
        rewrite (Hgone t timer Hold) in Hlook; [done | congruence].
      * unfold job' in Hin. cbn in Hin.
        apply list_elem_of_filter in Hin as [Hne _]. done.
Qed.


End Handlers.

(** ** The properties above, on runs *)

(** An id that is there keeps its place; a new job goes to the end. *)
Lemma ConfigAddJob_ids_witness :
  Job.ID <$> ConfigAddJob [job_a; job_a_b] (reminding_job "a" "r2" 700)
  = Job.ID <$> [job_a; job_a_b] ∧
  ConfigAddJob [job_a] job_a_b = [job_a] ++ [job_a_b].
Proof.
  split.
  - apply (ConfigAddJob_ids [job_a; job_a_b] (reminding_job "a" "r2" 700)).
    by exists job_a.
  - apply (ConfigAddJob_ids [job_a] job_a_b). reflexivity.
Defined.

(** Deleting an id that is not there, and one that is. *)
Lemma DeleteJob_spec_witness :
  DeleteJob [job_a; job_a_b] "b" = ([job_a; job_a_b], Some (ErrJobNotFound "b")) ∧
  (DeleteJob [job_a; job_a_b] "a").2 = None ∧
  GetJob (DeleteJob [job_a; job_a_b] "a").1 "a" = None ∧
  GetJob (DeleteJob [job_a; job_a_b] "a").1 "a_b" = GetJob [job_a; job_a_b] "a_b".
Proof.
  destruct (DeleteJob_spec [job_a; job_a_b] "b") as (Hmissing & _ & _).
  destruct (DeleteJob_spec [job_a; job_a_b] "a") as (_ & Hfound & Hother).
  split; [apply Hmissing; reflexivity |].
  destruct Hfound as (Herr & _ & Hgone); [by exists job_a |].
  split; [exact Herr |]. split.
  - apply Hgone. apply (bool_decide_unpack _). vm_compute. exact I.
  - apply Hother. discriminate.
Defined.

(** Deleting a reminder of a job that is not there, and a reminder that
    the job does not have. *)
Lemma DeleteReminder_errors_witness :
  DeleteReminder [job_a] "b" "r" = ([job_a], Some (ErrJobNotFound "b")) ∧
  DeleteReminder [job_a] "a" "other"
  = ([job_a], Some (ErrReminderNotFound "other" "a")) ∧
  GetJob (DeleteReminder [job_a; job_a_b] "a" "r").1 "a_b"
  = GetJob [job_a; job_a_b] "a_b".
Proof.
  destruct (DeleteReminder_errors [job_a] "b" "r") as (Hjob & _ & _).
  destruct (DeleteReminder_errors [job_a] "a" "other") as (_ & Hrem & _).
  destruct (DeleteReminder_errors [job_a; job_a_b] "a" "r") as (_ & _ & Hother).
  split; [apply Hjob; reflexivity |]. split.
  - apply (Hrem job_a); [reflexivity |].
    intros r [->|Hin]%elem_of_cons; [discriminate | by apply elem_of_nil in Hin].
  - apply Hother. discriminate.
Defined.

(** A response with status 200 and one with status 404. *)
Lemma executeWebhook_success_iff_witness :
  (executeWebhook (RT := Fake.runtime) (webhook "http://hooks/first" "")
     (fresh 0 [Response 200 "ok"])).1 = ("ok", None) ∧
  (executeWebhook (RT := Fake.runtime) (webhook "http://hooks/first" "")
     (fresh 0 [Response 404 "no"])).1.1 = "".
Proof.
  destruct (executeWebhook_success_iff (RT := Fake.runtime)
              (webhook "http://hooks/first" "") (fresh 0 [Response 200 "ok"]) "ok")
    as [Hiff _].
  destruct (executeWebhook_success_iff (RT := Fake.runtime)
              (webhook "http://hooks/first" "") (fresh 0 [Response 404 "no"]) "")
    as [_ Hfail].
  split.
  - apply Hiff. exists 200. split; [reflexivity | lia].
  - apply (Hfail (ErrStatus 404 "no")). reflexivity.
Defined.

(** A firing of [report] leaves the cache entry of [ping] alone. *)
Lemma executeJob_frame_witness :
  let st := fresh 0 [Response 200 status_ok_json; Response 200 ""] in
  outputs (executeJob chained_job st).2 !! "ping" = outputs st !! "ping".
Proof.
  cbv zeta.
  destruct (executeJob_frame (RT := Fake.runtime) chained_job
              (fresh 0 [Response 200 status_ok_json; Response 200 ""]))
    as (_ & _ & Hother).
  apply Hother. discriminate.
Defined.

(** A job without a secondary webhook: one call. *)
Lemma executeJob_secondary_skipped_witness :
  let st := fresh 0 [Response 200 "ok"] in
  trace (executeJob job_a st).2 = trace st ++ [EvWebhook (Job.Primary job_a)] ∧
  outputs (executeJob job_a st).2 = saved job_a "ok" st.
Proof.
  cbv zeta.
  apply (executeJob_secondary_skipped (RT := Fake.runtime) job_a
           (fresh 0 [Response 200 "ok"]) "ok"); [reflexivity |].
  left. reflexivity.
Defined.

(** The second firing of [report] gets an empty answer: the output of the
    first firing stays in the cache and is sent on. *)
Lemma executeJob_empty_response_reuses_cache_witness :
  let st := (executeJob (RT := Fake.runtime) chained_job
               (fresh 0 [Response 200 status_ok_json; Response 200 "";
                         Response 200 ""; Response 200 ""])).2 in
  outputs (executeJob chained_job st).2 = outputs st ∧
  ∃ order,
    order ≡ₚ map_to_list (chained_variables (RT := Fake.runtime) status_ok_json
                            (Webhook.JQSelectors chained_secondary)) ∧
    webhooks_of (drop (length (trace st)) (trace (executeJob chained_job st).2))
    = [Job.Primary chained_job;
       Webhook.with_Body chained_secondary
         (if nonempty (Webhook.BodyTemplate chained_secondary)
          then render (RT := Fake.runtime) order
                      (Webhook.BodyTemplate chained_secondary)
                      (chained_variables (RT := Fake.runtime) status_ok_json
                         (Webhook.JQSelectors chained_secondary))
          else status_ok_json)].
Proof.
  cbv zeta.
  apply (executeJob_empty_response_reuses_cache (RT := Fake.runtime) chained_job
           chained_secondary
           (executeJob (RT := Fake.runtime) chained_job
              (fresh 0 [Response 200 status_ok_json; Response 200 "";
                        Response 200 ""; Response 200 ""])).2
           status_ok_json);
    first [reflexivity | discriminate].
Defined.

(** No selector, and a text that is not JSON. *)
Lemma extractVariables_edges_witness :
  (extractVariables (RT := Fake.runtime) "not json" ∅ (fresh 0 [])).1 = (∅, None) ∧
  (extractVariables (RT := Fake.runtime) "not json" sample_selectors
     (fresh 0 [])).1 = (∅, Some ErrParseJSON).
Proof.
  destruct (extractVariables_edges (RT := Fake.runtime) "not json" ∅ (fresh 0 []))
    as [Hnone _].
  destruct (extractVariables_edges (RT := Fake.runtime) "not json"
              sample_selectors (fresh 0 [])) as [_ Hbad].
  split.
  - by rewrite Hnone.
  - rewrite Hbad; [reflexivity | done | reflexivity].
Defined.

(** A reminder of a job with a secondary webhook fires. *)
Lemma executeReminder_secondary_body_witness :
  let job := reminding_chained_job in
  let reminder := Rem.mk "r1" "call back" 500 in
  let st := loaded job [Response 200 status_ok_json; Response 200 ""] in
  ∃ st1 evs1 order,
    ran st st1 evs1 ∧ webhooks_of evs1 = [] ∧
    let response := (executeWebhook (reminder_primary job reminder) st1).1.1 in
    let variables :=
      reminder_secondary_variables (RT := Fake.runtime) (Rem.Text reminder) response
        (Webhook.JQSelectors chained_secondary) in
    order ≡ₚ map_to_list variables ∧
    webhooks_of (drop (length (trace st))
                      (trace (executeReminder job reminder st).2))
    = [reminder_primary job reminder;
       Webhook.with_Body chained_secondary
         (reminder_secondary_text (RT := Fake.runtime) order chained_secondary
            variables (Rem.Text reminder) response)].
Proof.
  cbv zeta.
  apply (executeReminder_secondary_body (RT := Fake.runtime) reminding_chained_job
           (Rem.mk "r1" "call back" 500) chained_secondary
           (loaded reminding_chained_job
              [Response 200 status_ok_json; Response 200 ""]));
    reflexivity.
Defined.

(** The variables for the reminder "call back" when the primary answered
    [{"status":"ok"}] and the selector [s] is [.status]. *)
Lemma reminder_secondary_variables_lookup_witness :
  let variables :=
    reminder_secondary_variables (RT := Fake.runtime) "call back" status_ok_json
      {[ "s" := ".status" ]} in
  variables !! "REMINDER" = Some (VString "call back") ∧
  variables !! "s"
  = chained_variables (RT := Fake.runtime) status_ok_json {[ "s" := ".status" ]} !! "s".
Proof.
  cbv zeta.
  destruct (reminder_secondary_variables_lookup (RT := Fake.runtime) "call back"
              status_ok_json {[ "s" := ".status" ]}) as (Hrem & _ & Hother).
  split; [exact Hrem |].
  apply (Hother "s"); discriminate.
Defined.

(** Removing a reminder that has no timer. *)
Lemma removeReminder_spec_witness :
  let st := loaded job_a [] in
  (removeReminder (RT := Fake.runtime) "a" "other" st).2 = st.
Proof.
  cbv zeta.
  destruct (removeReminder_spec (RT := Fake.runtime) "a" "other" (loaded job_a []))
    as (_ & _ & Hsame & _).
  apply Hsame. reflexivity.
Defined.

(** [report] is scheduled, then given again with a schedule that is not
    accepted: no entry is left for it. *)
Lemma AddJob_outcome_witness :
  let st := loaded chained_job [] in
  cron_entries (AddJob (RT := Fake.runtime) chained_job st).2 !! (cron_nextID st + 1)
  = Some chained_job ∧
  ∀ e job', cron_entries (AddJob (RT := Fake.runtime) misscheduled_job st).2 !! e
            = Some job' →
            Job.ID job' ≠ Job.ID misscheduled_job.
Proof.
  cbv zeta.
  destruct (AddJob_outcome (RT := Fake.runtime) chained_job (loaded chained_job []))
    as (_ & _ & Hnew & _).
  destruct (AddJob_outcome (RT := Fake.runtime) misscheduled_job
              (loaded chained_job [])) as (_ & _ & _ & Hnone & _).
  split; [apply Hnew; reflexivity |].
  apply Hnone; [|reflexivity].
  apply registered_AddJob; [apply NoDup_nil_2 | apply registered_New].
Defined.

(** Adding [a] when [a_b] is scheduled. *)
Lemma AddJob_frame_witness :
  let st := loaded job_a_b [] in
  let st' := (AddJob (RT := Fake.runtime) job_a st).2 in
  jobs st' !! "a_b" = jobs st !! "a_b" ∧
  cron_entries st' !! 1 = cron_entries st !! 1 ∧
  reminders st' !! "b_r" = reminders st !! "b_r".
Proof.
  cbv zeta.
  destruct (AddJob_frame (RT := Fake.runtime) job_a (loaded job_a_b []))
    as (Hjobs & Hentries & Hkeys & _).
  split; [apply Hjobs; discriminate |].
  split; [apply Hentries; [discriminate | vm_compute; discriminate] |].
  apply Hkeys. reflexivity.
Defined.

(** A repository with a job that is enabled and one that is not. *)
Lemma LoadJobs_spec_witness :
  let st' := (LoadJobs (RT := Fake.runtime)
                (New (RT := Fake.runtime) [chained_job; paused_job]
                     (Fake.mkWorld 0 [] true))).2 in
  (∃ e, jobs st' !! "report" = Some e ∧ cron_entries st' !! e = Some chained_job) ∧
  jobs st' !! "paused" = None.
Proof.
  cbv zeta.
  destruct (LoadJobs_spec (RT := Fake.runtime) [chained_job; paused_job]
              (Fake.mkWorld 0 [] true)) as (_ & Hall & _).
  { apply (bool_decide_unpack _). vm_compute. exact I. }
  split.
  - apply (Hall chained_job). apply list_elem_of_here.
  - apply (Hall paused_job). apply list_elem_of_further, list_elem_of_here.
Defined.

(** A text with a backslash and none of the four characters. *)
Lemma escape_spec_witness :
  escape ("a" +:+ BSL +:+ "b") = "a" +:+ BSL +:+ "b".
Proof.
  destruct (escape_spec ("a" +:+ BSL +:+ "b")) as (_ & Hplain & _).
  apply Hplain. reflexivity.
Defined.

(** A text with single braces only. *)
Lemma processTemplate_no_placeholder_witness :
  (processTemplate (RT := Fake.runtime) "{s} and }}" {[ "s" := VString "ok" ]}
     (fresh 0 [])).1 = ("{s} and }}", None).
Proof.
  apply (processTemplate_no_placeholder (RT := Fake.runtime)). reflexivity.
Defined.

(** A job with a schedule that is not accepted is posted: the answer is
    500, and the job is in the repository, without a trigger. *)
Lemma handleJobs_POST_spec_witness :
  let r := handleJobs (RT := Fake.runtime) always always "POST"
             (Some misscheduled_job) (fresh 0 []) in
  r.1 = StatusInternalServerError ∧
  GetJob (config_Jobs r.2) "report" = Some misscheduled_job ∧
  jobs r.2 !! "report" = None.
Proof.
  cbv zeta.
  destruct (handleJobs_POST_spec (RT := Fake.runtime) always always
              misscheduled_job (fresh 0 [])) as (Hrepo & _ & _ & Hsaved).
  destruct Hsaved as [Hstatus Hjobs]; [reflexivity |].
  split; [exact Hstatus |]. split; [exact Hrepo | exact Hjobs].
Defined.

(** The id of the path is not the id of the job. *)
Lemma handleJob_PUT_spec_witness :
  handleJob (RT := Fake.runtime) always "PUT" "ping" (Some chained_job) (fresh 0 [])
  = (StatusBadRequest, fresh 0 []).
Proof.
  apply (handleJob_PUT_spec (RT := Fake.runtime) always always "ping"
           (Some chained_job) (fresh 0 [])).
  discriminate.
Defined.

(** A job that is not there is deleted; and a job that is scheduled is
    deleted while the file cannot be written: its trigger stays. *)
Lemma handleJob_DELETE_spec_witness :
  handleJob (RT := Fake.runtime) always "DELETE" "ping" None (loaded chained_job [])
  = (StatusNotFound, loaded chained_job []) ∧
  let st := (AddJob (RT := Fake.runtime) chained_job
               (New (RT := Fake.runtime) [chained_job]
                    (Fake.mkWorld 0 [] false))).2 in
  let r := handleJob (RT := Fake.runtime) always "DELETE" "report" None st in
  r.1 = StatusInternalServerError ∧ config_Jobs r.2 = [] ∧ jobs r.2 = jobs st.
Proof.
  cbv zeta. split.
  - apply (handleJob_DELETE_spec (RT := Fake.runtime) always "ping" None
             (loaded chained_job [])). reflexivity.
  - destruct (handleJob_DELETE_spec (RT := Fake.runtime) always "report" None
                (AddJob (RT := Fake.runtime) chained_job
                   (New (RT := Fake.runtime) [chained_job]
                        (Fake.mkWorld 0 [] false))).2) as [_ Hfound].
    destruct Hfound as (Hrepo & _ & Hfailed & _); [by exists chained_job |].
    destruct Hfailed as [Hstatus Hsame]; [reflexivity |].
    split; [exact Hstatus |]. split; [exact Hrepo |]. apply Hsame.
Defined.

(** A job that is not enabled is tested: its webhook is called. *)
Lemma handleTestJob_spec_witness :
  let st := New (RT := Fake.runtime) [paused_job]
              (Fake.mkWorld 0 [Response 500 "boom"] true) in
  let r := handleTestJob (RT := Fake.runtime) "POST" "paused" st in
  handleTestJob (RT := Fake.runtime) "GET" "paused" st = (StatusMethodNotAllowed, st) ∧
  handleTestJob (RT := Fake.runtime) "POST" "report" st = (StatusNotFound, st) ∧
  r.1 = StatusNoContent ∧
  ∃ evs, trace r.2 = trace st ++ EvWebhook (Job.Primary paused_job) :: evs.
Proof.
  cbv zeta.
  destruct (handleTestJob_spec (RT := Fake.runtime) "GET" "paused"
              (New (RT := Fake.runtime) [paused_job]
                   (Fake.mkWorld 0 [Response 500 "boom"] true))) as (Hmethod & _).
  destruct (handleTestJob_spec (RT := Fake.runtime) "POST" "report"
              (New (RT := Fake.runtime) [paused_job]
                   (Fake.mkWorld 0 [Response 500 "boom"] true))) as (_ & Hmissing & _).
  destruct (handleTestJob_spec (RT := Fake.runtime) "POST" "paused"
              (New (RT := Fake.runtime) [paused_job]
                   (Fake.mkWorld 0 [Response 500 "boom"] true))) as (_ & _ & Hrun).
  split; [apply Hmethod; discriminate |].
  split; [apply Hmissing; reflexivity |].
  destruct (Hrun eq_refl paused_job eq_refl) as (Hstatus & Htrace & _).
  split; [exact Hstatus | exact Htrace].
Defined.

(** A method that no handler knows. *)
Lemma handlers_read_only_witness :
  let st := loaded chained_job [] in
  handleJobs (RT := Fake.runtime) always always "PATCH" None st
  = (StatusMethodNotAllowed, st) ∧
  handleJob (RT := Fake.runtime) always "PATCH" "report" None st
  = (StatusMethodNotAllowed, st) ∧
  (handleJob (RT := Fake.runtime) always "GET" "ping" None st).1 = StatusNotFound.
Proof.
  cbv zeta.
  destruct (handlers_read_only (RT := Fake.runtime) always always "PATCH" "report"
              None (loaded chained_job [])) as (_ & _ & _ & Hjobs & Hjob).
  destruct (handlers_read_only (RT := Fake.runtime) always always "PATCH" "ping"
              None (loaded chained_job [])) as (_ & _ & Hget & _).
  split; [apply Hjobs; discriminate |].
  split; [apply Hjob; discriminate |].
  apply Hget. reflexivity.
Defined.

(** The reminder of [a] is deleted through the API: no timer is left for
    it. *)
Lemma handleReminder_DELETE_spec_witness :
  let st := loaded job_a [] in
  let r := handleReminder (RT := Fake.runtime) always "DELETE" "a" "r" None st in
  handleReminder (RT := Fake.runtime) always "DELETE" "a" "other" None st
  = (StatusNotFound, st) ∧
  GetJob (config_Jobs r.2) "a" = Some (Job.with_Reminders job_a []) ∧
  ∀ t timer, timers r.2 !! t = Some timer →
             Job.ID (timer_job timer) = "a" →
             Rem.ID (timer_reminder timer) ≠ "r".
Proof.
  cbv zeta.
  destruct (handleReminder_DELETE_spec (RT := Fake.runtime) always "a" "other" None
              (loaded job_a [])) as [_ Hother].
  destruct (handleReminder_DELETE_spec (RT := Fake.runtime) always "a" "r" None
              (loaded job_a [])) as [_ Hthis].
  destruct (Hother job_a eq_refl) as [Hnone _].
  destruct (Hthis job_a eq_refl) as [_ Hfound].
  split.
  { apply Hnone.
    intros x [->|Hin]%elem_of_cons; [discriminate | by apply elem_of_nil in Hin]. }
  destruct Hfound as [Hrepo Htimers].
  { exists (Rem.mk "r" "call back" 500). split; [apply list_elem_of_here | reflexivity]. }
  split; [exact Hrepo |].
  apply Htimers; [|reflexivity].
  apply registered_AddJob; [apply NoDup_singleton | apply registered_New].
Defined.


(** A reminder fires when its job is no longer in the repository. *)
Lemma executeReminder_frame_witness :
  let st := fresh 0 [Response 200 "ok"] in
  let st' := (executeReminder (RT := Fake.runtime) job_a
                (Rem.mk "r" "call back" 500) st).2 in
  config_Jobs st' = config_Jobs st ∧
  saves_of (drop (length (trace st)) (trace st')) = [] ∧
  GetJob (config_Jobs st') "a_b" = GetJob (config_Jobs st) "a_b".
Proof.
  cbv zeta.
  destruct (executeReminder_frame (RT := Fake.runtime) job_a
              (Rem.mk "r" "call back" 500) (fresh 0 [Response 200 "ok"]))
    as (_ & _ & _ & _ & _ & Hother & Hfailed).
  destruct Hfailed as [Hrepo Hsaves]; [discriminate |].
  split; [exact Hrepo |]. split; [exact Hsaves |].
  apply Hother. discriminate.
Defined.

